(** * LiteLLM managed files: identifier codec, object store and file facade

    A shallow embedding of [litellm/proxy/hooks/managed_files.py]
    (class [_PROXY_LiteLLMManagedFiles]) together with the pieces of the
    Python standard library it calls ([base64], [binascii], the UTF-8
    codec), and the properties of the unified file identifier layer.

    Conventions.
    - A Python [str] is the list of its code points, a [bytes] value the
      list of its byte values; both are lists of [Z].
    - A raised exception is an explicit [Raise] result.
    - [Union[str, Literal[False]]] is the type [str_or_false].
    - A Python [dict] with string keys whose iteration order matters is an
      association list in insertion order; the cache is a finite map. *)

From Stdlib Require Import ZArith List Lia String Ascii Bool.
From stdpp Require Import base option list gmap.

Local Open Scope Z_scope.

(** ** Python values *)

Abbreviation pystr := (list Z) (only parsing).
Abbreviation pybytes := (list Z) (only parsing).

(** A literal of the source, as a Python string. *)
Definition py (s : string) : pystr :=
  map (fun a => Z.of_N (N_of_ascii a)) (list_ascii_of_string s).

(** Code points a [str] can hold, and those that are Unicode scalar values
    (everything but the surrogates, which the UTF-8 codec refuses). *)
Definition is_code_point (c : Z) : bool := (0 <=? c) && (c <=? 0x10FFFF).
Definition is_surrogate (c : Z) : bool := (0xD800 <=? c) && (c <=? 0xDFFF).
Definition is_scalar (c : Z) : bool := is_code_point c && negb (is_surrogate c).

(** Exceptions. The three [Exception(...)] values the class raises keep
    the values interpolated into their message rather than the rendered
    text:
    - [NotFound file_id] is
      [Exception(f"LiteLLM Managed File object with id={file_id} not found")];
    - [NotFoundChecked file_id keys errors] is the same message followed by
      [". Checked model id's: {keys}. Errors: {errors}"];
    - [RouterError msg] is an exception raised by a call on [llm_router],
      with [str(e) = msg]. *)
Inductive pyexn : Type :=
  | ValueError
  | binascii_Error
  | UnicodeDecodeError
  | UnicodeEncodeError
  | IndexError
  | AttributeError
  | NotFound (file_id : list Z)
  | NotFoundChecked (file_id : list Z) (keys : list (list Z))
                    (errors : list (list Z * list Z))
  | RouterError (msg : list Z).

Inductive res (A : Type) : Type :=
  | Ok (a : A)
  | Raise (e : pyexn).
Arguments Ok {A} a.
Arguments Raise {A} e.

Definition res_bind {A B} (r : res A) (k : A -> res B) : res B :=
  match r with
  | Ok a => k a
  | Raise e => Raise e
  end.

Definition res_cons {A} (a : A) (r : res (list A)) : res (list A) :=
  res_bind r (fun l => Ok (a :: l)).

Definition res_app {A} (p : list A) (r : res (list A)) : res (list A) :=
  res_bind r (fun l => Ok (p ++ l)).

(** [s.startswith(p)] *)
Fixpoint startswith (s p : pystr) : bool :=
  match p, s with
  | [], _ => true
  | _ :: _, [] => false
  | x :: p', y :: s' => (x =? y) && startswith s' p'
  end.

(** [s.rstrip(ch)] for a one-character argument. *)
Definition rstrip (ch : Z) (s : pystr) : pystr :=
  fold_right
    (fun x acc => match acc with
                  | [] => if x =? ch then [] else [x]
                  | _ :: _ => x :: acc
                  end) [] s.

(** ** The UTF-8 codec: [str.encode()] and [bytes.decode()] (strict) *)

Definition utf8_encode_char (c : Z) : res pybytes :=
  if c <? 0x80 then Ok [c]
  else if c <? 0x800 then
    Ok [Z.lor 0xC0 (Z.shiftr c 6); Z.lor 0x80 (Z.land c 0x3F)]
  else if c <? 0x10000 then
    if is_surrogate c then Raise UnicodeEncodeError
    else Ok [Z.lor 0xE0 (Z.shiftr c 12);
             Z.lor 0x80 (Z.land (Z.shiftr c 6) 0x3F);
             Z.lor 0x80 (Z.land c 0x3F)]
  else
    Ok [Z.lor 0xF0 (Z.shiftr c 18);
        Z.lor 0x80 (Z.land (Z.shiftr c 12) 0x3F);
        Z.lor 0x80 (Z.land (Z.shiftr c 6) 0x3F);
        Z.lor 0x80 (Z.land c 0x3F)].

Fixpoint str_encode (s : pystr) : res pybytes :=
  match s with
  | [] => Ok []
  | c :: s' =>
    res_bind (utf8_encode_char c) (fun bs => res_app bs (str_encode s'))
  end.

Definition is_continuation (b : Z) : bool := (0x80 <=? b) && (b <=? 0xBF).
Definition in_range (lo hi b : Z) : bool := (lo <=? b) && (b <=? hi).

(** The strict decoder: shortest form only, no surrogates, nothing above
    U+10FFFF; any other byte sequence raises [UnicodeDecodeError]. *)
Fixpoint bytes_decode (bs : pybytes) : res pystr :=
  match bs with
  | [] => Ok []
  | b0 :: t0 =>
    if b0 <? 0x80 then res_cons b0 (bytes_decode t0)
    else if b0 <? 0xC2 then Raise UnicodeDecodeError
    else if b0 <? 0xE0 then
      match t0 with
      | b1 :: t1 =>
        if is_continuation b1 then
          res_cons (Z.lor (Z.shiftl (Z.land b0 0x1F) 6) (Z.land b1 0x3F))
                   (bytes_decode t1)
        else Raise UnicodeDecodeError
      | _ => Raise UnicodeDecodeError
      end
    else if b0 <? 0xF0 then
      match t0 with
      | b1 :: b2 :: t2 =>
        if in_range (if b0 =? 0xE0 then 0xA0 else 0x80)
                    (if b0 =? 0xED then 0x9F else 0xBF) b1
           && is_continuation b2
        then
          res_cons (Z.lor (Z.shiftl (Z.land b0 0x0F) 12)
                     (Z.lor (Z.shiftl (Z.land b1 0x3F) 6) (Z.land b2 0x3F)))
                   (bytes_decode t2)
        else Raise UnicodeDecodeError
      | _ => Raise UnicodeDecodeError
      end
    else if b0 <? 0xF5 then
      match t0 with
      | b1 :: b2 :: b3 :: t3 =>
        if in_range (if b0 =? 0xF0 then 0x90 else 0x80)
                    (if b0 =? 0xF4 then 0x8F else 0xBF) b1
           && is_continuation b2 && is_continuation b3
        then
          res_cons (Z.lor (Z.shiftl (Z.land b0 0x07) 18)
                     (Z.lor (Z.shiftl (Z.land b1 0x3F) 12)
                       (Z.lor (Z.shiftl (Z.land b2 0x3F) 6) (Z.land b3 0x3F))))
                   (bytes_decode t3)
        else Raise UnicodeDecodeError
      | _ => Raise UnicodeDecodeError
      end
    else Raise UnicodeDecodeError
  end.

(** ** [binascii] and [base64] *)

Definition BASE64_PAD : Z := 61.

(** [table_b2a_base64]: the alphabet [A-Za-z0-9+/] indexed by sextet. *)
Definition table_b2a_base64 (v : Z) : Z :=
  if v <? 26 then v + 65
  else if v <? 52 then v + 71
  else if v <? 62 then v - 4
  else if v =? 62 then 43
  else 47.

(** [table_a2b_base64]: the sextet of an alphabet character; characters
    outside the alphabet map to a value of at least 64. *)
Definition table_a2b_base64 (c : Z) : Z :=
  if in_range 65 90 c then c - 65
  else if in_range 97 122 c then c - 71
  else if in_range 48 57 c then c + 4
  else if c =? 43 then 62
  else if c =? 47 then 63
  else 255.

Definition to_uchar (x : Z) : Z := Z.land x 0xFF.
Definition to_uint (x : Z) : Z := Z.land x 0xFFFFFFFF.

(** The decoding loop of [binascii.a2b_base64] with [strict_mode] off.
    Characters outside the alphabet are skipped; a pad sequence that
    completes a quad ends the parse; leftover characters at the end of the
    input raise [binascii.Error]. *)
Fixpoint a2b_base64_loop (quad_pos leftchar pads : Z) (ascii_data : pybytes)
  : res pybytes :=
  match ascii_data with
  | [] => if quad_pos =? 0 then Ok [] else Raise binascii_Error
  | this_ch :: rest =>
    if this_ch =? BASE64_PAD then
      if 2 <=? quad_pos then
        if 4 <=? quad_pos + (pads + 1) then Ok []
        else a2b_base64_loop quad_pos leftchar (pads + 1) rest
      else a2b_base64_loop quad_pos leftchar pads rest
    else
      let this_ch := table_a2b_base64 this_ch in
      if 64 <=? this_ch then a2b_base64_loop quad_pos leftchar pads rest
      else if quad_pos =? 0 then
        a2b_base64_loop 1 this_ch 0 rest
      else if quad_pos =? 1 then
        res_cons (to_uchar (Z.lor (Z.shiftl leftchar 2) (Z.shiftr this_ch 4)))
                 (a2b_base64_loop 2 (Z.land this_ch 0x0F) 0 rest)
      else if quad_pos =? 2 then
        res_cons (to_uchar (Z.lor (Z.shiftl leftchar 4) (Z.shiftr this_ch 2)))
                 (a2b_base64_loop 3 (Z.land this_ch 0x03) 0 rest)
      else
        res_cons (to_uchar (Z.lor (Z.shiftl leftchar 6) this_ch))
                 (a2b_base64_loop 0 0 0 rest)
  end.

Definition a2b_base64 (data : pybytes) : res pybytes :=
  a2b_base64_loop 0 0 0 data.

(** The inner [while (leftbits >= 6)] of [binascii.b2a_base64]; it runs
    [leftbits / 6] times. *)
Fixpoint b2a_drain (n : nat) (leftchar leftbits : Z) : pybytes * Z :=
  match n with
  | O => ([], leftbits)
  | S n' =>
    if 6 <=? leftbits then
      let this_ch := Z.land (Z.shiftr leftchar (leftbits - 6)) 0x3F in
      let '(out, lb) := b2a_drain n' leftchar (leftbits - 6) in
      (table_b2a_base64 this_ch :: out, lb)
    else ([], leftbits)
  end.

Fixpoint b2a_base64_loop (leftchar leftbits : Z) (bin_data : pybytes)
  : pybytes :=
  match bin_data with
  | [] =>
    if leftbits =? 2 then
      [table_b2a_base64 (Z.shiftl (Z.land leftchar 3) 4);
       BASE64_PAD; BASE64_PAD]
    else if leftbits =? 4 then
      [table_b2a_base64 (Z.shiftl (Z.land leftchar 0xF) 2); BASE64_PAD]
    else []
  | b :: rest =>
    let leftchar := to_uint (Z.lor (Z.shiftl leftchar 8) b) in
    let leftbits := leftbits + 8 in
    let '(out, leftbits) :=
      b2a_drain (Z.to_nat (leftbits / 6)) leftchar leftbits in
    out ++ b2a_base64_loop leftchar leftbits rest
  end.

(** [binascii.b2a_base64(data, newline=False)] *)
Definition b2a_base64 (data : pybytes) : pybytes :=
  b2a_base64_loop 0 0 data.

Definition urlsafe_encode_translation (c : Z) : Z :=
  if c =? 43 then 45 else if c =? 47 then 95 else c.
Definition urlsafe_decode_translation (c : Z) : Z :=
  if c =? 45 then 43 else if c =? 95 then 47 else c.

(** [base64.urlsafe_b64encode(s)] *)
Definition urlsafe_b64encode (s : pybytes) : pybytes :=
  map urlsafe_encode_translation (b2a_base64 s).

(** [base64._bytes_from_decode_data] on a [str] argument. *)
Definition bytes_from_decode_data (s : pystr) : res pybytes :=
  if forallb (fun c => c <? 128) s then Ok s else Raise ValueError.

(** [base64.urlsafe_b64decode(s)] on a [str] argument. *)
Definition urlsafe_b64decode (s : pystr) : res pybytes :=
  res_bind (bytes_from_decode_data s)
           (fun b => a2b_base64 (map urlsafe_decode_translation b)).

(** The character the decoder sees for a sextet the encoder wrote. *)
Definition wire (v : Z) : Z :=
  urlsafe_decode_translation (urlsafe_encode_translation (table_b2a_base64 v)).

(** ** [str(uuid.UUID)] *)

Definition hexdigit (d : Z) : Z := if d <? 10 then 48 + d else 87 + d.

(** ['%032x' % int] *)
Definition hex32 (n : Z) : pystr :=
  map (fun i => hexdigit ((n / 16 ^ Z.of_nat i) mod 16)) (rev (seq 0 32)).

(** [UUID.__str__]: the 32 hex digits grouped 8-4-4-4-12. *)
Definition str_uuid (uuid_int : Z) : pystr :=
  let hex := hex32 uuid_int in
  firstn 8 hex ++ [45] ++ firstn 4 (skipn 8 hex) ++ [45]
    ++ firstn 4 (skipn 12 hex) ++ [45] ++ firstn 4 (skipn 16 hex) ++ [45]
    ++ skipn 20 hex.

(** ** Dictionaries in insertion order *)

Fixpoint dict_get {V : Type} (d : list (list Z * V)) (k : list Z) : option V :=
  match d with
  | [] => None
  | (k', v) :: d' => if decide (k' = k) then Some v else dict_get d' k
  end.

(** [d[k] = v]: an existing key keeps its place, a new one goes last. *)
Fixpoint dict_set {V : Type} (d : list (list Z * V)) (k : list Z) (v : V)
  : list (list Z * V) :=
  match d with
  | [] => [(k, v)]
  | (k', v') :: d' =>
    if decide (k' = k) then (k', v) :: d' else (k', v') :: dict_set d' k v
  end.

Definition dict_keys {V : Type} (d : list (list Z * V)) : list (list Z) :=
  map fst d.

(** ** File objects, the cache and the router *)

(** [OpenAIFileObject]; [fo_model_id] is [_hidden_params.get("model_id")]. *)
Record OpenAIFileObject : Type := {
  fo_id : list Z;
  fo_object : list Z;
  fo_purpose : list Z;
  fo_created_at : Z;
  fo_bytes : Z;
  fo_filename : list Z;
  fo_status : list Z;
  fo_model_id : option (list Z)
}.

(** What a cache entry can hold. [CNone] is Python's [None], which is also
    what a lookup of an absent key gives. *)
Inductive cache_value : Type :=
  | CNone
  | CFile (f : OpenAIFileObject)
  | CDict (d : list (list Z * list Z)).

(** Truth value in an [if]: [None] and the empty dict are false. *)
Definition cache_truthy (v : cache_value) : bool :=
  match v with
  | CNone => false
  | CFile _ => true
  | CDict [] => false
  | CDict (_ :: _) => true
  end.

(** An [OpenAIFileObject] is true in an [if]. *)
Definition file_object_truthy (f : OpenAIFileObject) : bool := true.

Definition str_truthy (s : pystr) : bool :=
  match s with
  | [] => false
  | _ :: _ => true
  end.

Inductive call : Type :=
  | DeleteCall (model file_id : list Z)
  | ContentCall (model file_id : list Z).

(** The router call made for one entry of a backend mapping. *)
Definition delete_call_of (item : list Z * list Z) : call :=
  DeleteCall (fst item) (snd item).
Definition content_call_of (item : list Z * list Z) : call :=
  ContentCall (fst item) (snd item).

(** The state a call runs in: the cache, the keys looked up in it so far,
    and the calls made on [llm_router] so far. *)
Record world : Type := {
  cache : gmap (list Z) cache_value;
  reads : list (list Z);
  calls : list call
}.

Definition M (A : Type) : Type := world -> res A * world.

Definition ret {A} (a : A) : M A := fun w => (Ok a, w).
Definition raise {A} (e : pyexn) : M A := fun w => (Raise e, w).
Definition bind {A B} (m : M A) (k : A -> M B) : M B :=
  fun w =>
    match m w with
    | (Ok a, w') => k a w'
    | (Raise e, w') => (Raise e, w')
    end.

Notation "x <- m ;; k" := (bind m (fun x => k))
  (at level 100, m at next level, right associativity).
Notation "m ;;; k" := (bind m (fun _ => k))
  (at level 100, right associativity).

(** [try: body except Exception as e: handler(e)] *)
Definition try_except {A} (body : M A) (handler : pyexn -> M A) : M A :=
  fun w =>
    match body w with
    | (Ok a, w') => (Ok a, w')
    | (Raise e, w') => handler e w'
    end.

(** [str(e)] for an exception caught from the router. *)
Definition str_exn (e : pyexn) : pystr :=
  match e with
  | RouterError msg => msg
  | ValueError => py "ValueError"
  | binascii_Error => py "binascii.Error"
  | UnicodeDecodeError => py "UnicodeDecodeError"
  | UnicodeEncodeError => py "UnicodeEncodeError"
  | IndexError => py "IndexError"
  | AttributeError => py "AttributeError"
  | NotFound _ => py "not found"
  | NotFoundChecked _ _ _ => py "not found"
  end.

(** Modelled from the spec: the cache collaborator
    ([InternalUsageCache.async_get_cache] and [async_set_cache]), a
    key-value store with get and set keyed by strings; a get of a key
    never set gives empty. *)
Definition async_get_cache (key : list Z) : M cache_value :=
  fun w =>
    (Ok (default CNone (cache w !! key)),
     {| cache := cache w; reads := reads w ++ [key]; calls := calls w |}).

Definition async_set_cache (key : list Z) (value : cache_value) : M unit :=
  fun w =>
    (Ok tt,
     {| cache := <[key := value]> (cache w); reads := reads w;
        calls := calls w |}).

(** ** Requests *)

Inductive call_type : Type :=
  | completion
  | text_completion
  | embeddings
  | image_generation
  | moderation
  | audio_transcription
  | pass_through_endpoint
  | rerank.

(** The ["file"] field of a file content part. *)
Record file_field : Type := {
  file_id : option (list Z);
  file_data : option (list Z);
  file_filename : option (list Z)
}.

Inductive content_part : Type :=
  | PartText (text : list Z)
  | PartImageUrl (url : list Z)
  | PartInputAudio (data : list Z)
  | PartFile (file : file_field).

(** [c["type"]] *)
Definition part_type (c : content_part) : pystr :=
  match c with
  | PartText _ => py "text"
  | PartImageUrl _ => py "image_url"
  | PartInputAudio _ => py "input_audio"
  | PartFile _ => py "file"
  end.

Inductive message_content : Type :=
  | ContentNone
  | ContentStr (s : list Z)
  | ContentList (parts : list content_part).

Record message : Type := {
  role : list Z;
  content : message_content
}.

(** The request payload [data]: the two keys the hook touches and the
    rest of the dict. The payload is a tree, as decoded from JSON: no
    content part is shared between two messages, so the update the hook
    makes in place is the update of each part where it stands. *)
Record request : Type := {
  messages : option (list message);
  model_file_id_mapping : option (list (list Z * cache_value));
  other_fields : list (list Z * list Z)
}.

(** ** The class [_PROXY_LiteLLMManagedFiles] *)

Inductive str_or_false : Type :=
  | PyStr (s : pystr)
  | PyFalse.

(** Truth value of a [Union[str, Literal[False]]] in an [if]. *)
Definition truthy (v : str_or_false) : bool :=
  match v with
  | PyStr s => str_truthy s
  | PyFalse => false
  end.

(** [b64_uid + "=" * (-len(b64_uid) % 4)] *)
Definition add_padding (b64_uid : pystr) : pystr :=
  b64_uid ++ repeat BASE64_PAD (Z.to_nat ((- Z.of_nat (length b64_uid)) mod 4)).

Section ManagedFiles.

(** [SpecialEnums.LITELM_MANAGED_FILE_ID_PREFIX.value], declared in
    [litellm/types/utils.py]. *)
Variable LITELM_MANAGED_FILE_ID_PREFIX : pystr.

(** [SpecialEnums.LITELLM_MANAGED_FILE_COMPLETE_STR.value], declared in the
    same place: a template with two replacement fields, given by the
    literal text before, between and after them. *)
Variable COMPLETE_STR_head COMPLETE_STR_mid COMPLETE_STR_tail : pystr.

(** [llm_router.afile_delete] and [llm_router.afile_content]: what a call
    does may depend on the calls made before it; [Some msg] is an
    exception with [str(e) = msg]. *)
Variable router_afile_delete : list call -> list Z -> list Z -> option (list Z).
Variable router_afile_content :
  list call -> list Z -> list Z -> list Z + list Z.

Definition LITELLM_MANAGED_FILE_COMPLETE_STR_format (a b : pystr) : pystr :=
  COMPLETE_STR_head ++ a ++ COMPLETE_STR_mid ++ b ++ COMPLETE_STR_tail.

Definition llm_router_afile_delete (model file_id : list Z) : M unit :=
  fun w =>
    let w' := {| cache := cache w; reads := reads w;
                 calls := calls w ++ [DeleteCall model file_id] |} in
    match router_afile_delete (calls w) model file_id with
    | None => (Ok tt, w')
    | Some msg => (Raise (RouterError msg), w')
    end.

Definition llm_router_afile_content (model file_id : list Z) : M (list Z) :=
  fun w =>
    let w' := {| cache := cache w; reads := reads w;
                 calls := calls w ++ [ContentCall model file_id] |} in
    match router_afile_content (calls w) model file_id with
    | inl content => (Ok content, w')
    | inr msg => (Raise (RouterError msg), w')
    end.

Definition store_unified_file_id (file_id : pystr)
    (file_object : OpenAIFileObject) : M unit :=
  let key := py "litellm_proxy/" ++ file_id in
  async_set_cache key (CFile file_object).

Definition get_unified_file_id (file_id : pystr) : M cache_value :=
  let key := py "litellm_proxy/" ++ file_id in
  async_get_cache key.

Definition delete_unified_file_id (file_id : pystr) : M OpenAIFileObject :=
  let key := py "litellm_proxy/" ++ file_id in
  old_value <- async_get_cache key ;;
  match old_value with
  | CFile f =>
    async_set_cache key CNone ;;;
    ret f
  | _ => raise (NotFound file_id)
  end.

Definition _is_base64_encoded_unified_file_id (b64_uid : pystr)
  : str_or_false :=
  let padded := add_padding b64_uid in
  match res_bind (urlsafe_b64decode padded) bytes_decode with
  | Ok decoded =>
    if startswith decoded LITELM_MANAGED_FILE_ID_PREFIX
    then PyStr decoded
    else PyFalse
  | Raise _ => PyFalse
  end.

Definition _convert_b64_uid_to_unified_uid (b64_uid : pystr) : pystr :=
  let is_base64_unified_file_id := _is_base64_encoded_unified_file_id b64_uid in
  match is_base64_unified_file_id with
  | PyStr s => if str_truthy s then s else b64_uid
  | PyFalse => b64_uid
  end.

Definition convert_b64_uid_to_unified_uid (b64_uid : pystr) : pystr :=
  let is_base64_unified_file_id := _is_base64_encoded_unified_file_id b64_uid in
  match is_base64_unified_file_id with
  | PyStr s => if str_truthy s then s else b64_uid
  | PyFalse => b64_uid
  end.

(** The loop over the parts of one message's content. *)
Fixpoint visit_content (c : list content_part) (file_ids : list pystr)
  : list pystr * list content_part :=
  match c with
  | [] => (file_ids, [])
  | part :: rest =>
    let '(file_ids, part) :=
      if decide (part_type part = py "file") then
        match part with
        | PartFile file_object_file_field =>
          match file_id file_object_file_field with
          | Some fid =>
            if str_truthy fid then
              (file_ids ++ [_convert_b64_uid_to_unified_uid fid],
               PartFile
                 {| file_id := Some (_convert_b64_uid_to_unified_uid fid);
                    file_data := file_data file_object_file_field;
                    file_filename := file_filename file_object_file_field |})
            else (file_ids, part)
          | None => (file_ids, part)
          end
        | _ => (file_ids, part)
        end
      else (file_ids, part) in
    let '(file_ids, rest) := visit_content rest file_ids in
    (file_ids, part :: rest)
  end.

(** The loop over the messages. The source updates the content parts in
    place; the updated message list is returned next to [file_ids]. *)
Fixpoint visit_messages (msgs : list message) (file_ids : list pystr)
  : list pystr * list message :=
  match msgs with
  | [] => (file_ids, [])
  | m :: rest =>
    let '(file_ids, m) :=
      if decide (role m = py "user") then
        match content m with
        | ContentList ((_ :: _) as c) =>
          let '(file_ids, c) := visit_content c file_ids in
          (file_ids, {| role := role m; content := ContentList c |})
        | _ => (file_ids, m)
        end
      else (file_ids, m) in
    let '(file_ids, rest) := visit_messages rest file_ids in
    (file_ids, m :: rest)
  end.

Definition get_file_ids_and_decode_b64_to_unified_uid_from_messages
    (msgs : list message) : list pystr * list message :=
  visit_messages msgs [].

(** First loop of [get_model_file_id_mapping]. *)
Fixpoint collect_managed_file_ids (file_ids : list pystr) : list pystr :=
  match file_ids with
  | [] => []
  | fid :: rest =>
    let is_base64_unified_file_id := _is_base64_encoded_unified_file_id fid in
    match is_base64_unified_file_id with
    | PyStr ((_ :: _) as s) => s :: collect_managed_file_ids rest
    | _ =>
      if startswith fid LITELM_MANAGED_FILE_ID_PREFIX
      then fid :: collect_managed_file_ids rest
      else collect_managed_file_ids rest
    end
  end.

(** Second loop of [get_model_file_id_mapping]. *)
Fixpoint lookup_managed_file_ids (ids : list pystr)
    (file_id_mapping : list (list Z * cache_value))
  : M (list (list Z * cache_value)) :=
  match ids with
  | [] => ret file_id_mapping
  | fid :: rest =>
    cached_values <- async_get_cache fid ;;
    lookup_managed_file_ids rest
      (if cache_truthy cached_values
       then dict_set file_id_mapping fid cached_values
       else file_id_mapping)
  end.

Definition get_model_file_id_mapping (file_ids : list pystr)
  : M (list (list Z * cache_value)) :=
  let litellm_managed_file_ids := collect_managed_file_ids file_ids in
  lookup_managed_file_ids litellm_managed_file_ids [].

Definition async_pre_call_hook (data : request) (ct : call_type) : M request :=
  match ct with
  | completion =>
    match messages data with
    | Some ((_ :: _) as msgs) =>
      let '(file_ids, msgs) :=
        get_file_ids_and_decode_b64_to_unified_uid_from_messages msgs in
      let data := {| messages := Some msgs;
                     model_file_id_mapping := model_file_id_mapping data;
                     other_fields := other_fields data |} in
      match file_ids with
      | _ :: _ =>
        mapping <- get_model_file_id_mapping file_ids ;;
        ret {| messages := messages data;
               model_file_id_mapping := Some mapping;
               other_fields := other_fields data |}
      | [] => ret data
      end
    | _ => ret data
    end
  | _ => ret data
  end.

(** [async_post_call_success_hook] schedules this store as a background
    task when the response is a file object; here it is the task itself. *)
Definition async_post_call_success_hook (response : OpenAIFileObject) : M unit :=
  store_unified_file_id (fo_id response) response.

(** The identifier part of [return_unified_file_id]. *)
Definition unified_file_id_of (file_type : pystr) (uuid4 : Z) : pystr :=
  LITELLM_MANAGED_FILE_COMPLETE_STR_format file_type (str_uuid uuid4).

Definition base64_unified_file_id_of (unified_file_id : pystr) : res pystr :=
  res_bind (str_encode unified_file_id) (fun b =>
  res_bind (bytes_decode (urlsafe_b64encode b)) (fun s =>
  Ok (rstrip BASE64_PAD s))).

(** The loop of [return_unified_file_id] that fills [stored_values]. *)
Fixpoint collect_stored_values (file_objects : list OpenAIFileObject)
    (stored_values : list (list Z * list Z)) : list (list Z * list Z) :=
  match file_objects with
  | [] => stored_values
  | file_object :: rest =>
    match fo_model_id file_object with
    | None => collect_stored_values rest stored_values
    | Some model_id =>
      collect_stored_values rest
        (dict_set stored_values model_id (fo_id file_object))
    end
  end.

(** [file_type] is [extract_file_data(create_file_request["file"])["content_type"]],
    [uuid4] the integer of the [uuid.uuid4()] drawn. *)
Definition return_unified_file_id (file_objects : list OpenAIFileObject)
    (file_type : pystr) (purpose : pystr) (uuid4 : Z) : M OpenAIFileObject :=
  let unified_file_id := unified_file_id_of file_type uuid4 in
  match base64_unified_file_id_of unified_file_id with
  | Raise e => raise e
  | Ok base64_unified_file_id =>
    match file_objects with
    | [] => raise IndexError
    | first :: _ =>
      let response :=
        {| fo_id := base64_unified_file_id;
           fo_object := py "file";
           fo_purpose := purpose;
           fo_created_at := fo_created_at first;
           fo_bytes := fo_bytes first;
           fo_filename := fo_filename first;
           fo_status := py "uploaded";
           fo_model_id := None |} in
      let stored_values := collect_stored_values file_objects [] in
      async_set_cache unified_file_id (CDict stored_values) ;;;
      ret response
    end
  end.

Definition afile_retrieve (file_id : pystr) : M cache_value :=
  stored_file_object <- get_unified_file_id file_id ;;
  if cache_truthy stored_file_object
  then ret stored_file_object
  else raise (NotFound file_id).

Definition afile_list : M (list OpenAIFileObject) := ret [].

(** The [for model_id, file_id in ....items()] of [afile_delete]. The loop
    variable is the method's own [file_id]; the value it has when the loop
    ends is returned. *)
Fixpoint afile_delete_loop (items : list (list Z * list Z)) (file_id : pystr)
  : M pystr :=
  match items with
  | [] => ret file_id
  | (model_id, file_id) :: rest =>
    llm_router_afile_delete model_id file_id ;;;
    afile_delete_loop rest file_id
  end.

Definition afile_delete (file_id : pystr) : M OpenAIFileObject :=
  let file_id := convert_b64_uid_to_unified_uid file_id in
  model_file_id_mapping <- get_model_file_id_mapping [file_id] ;;
  let specific_model_file_id_mapping := dict_get model_file_id_mapping file_id in
  file_id <-
    match specific_model_file_id_mapping with
    | Some (CDict ((_ :: _) as items)) => afile_delete_loop items file_id
    | Some (CFile _) => raise AttributeError
    | _ => ret file_id
    end ;;
  stored_file_object <- delete_unified_file_id file_id ;;
  if file_object_truthy stored_file_object
  then ret stored_file_object
  else raise (NotFound file_id).

(** The [for] of [afile_content]: [inl] is the [return] from inside the
    loop, [inr] the [exception_dict] when the loop runs to its end. *)
Fixpoint afile_content_loop (items : list (list Z * list Z))
    (exception_dict : list (list Z * list Z))
  : M (list Z + list (list Z * list Z)) :=
  match items with
  | [] => ret (inr exception_dict)
  | (model_id, file_id) :: rest =>
    try_except
      (content <- llm_router_afile_content model_id file_id ;;
       ret (inl content))
      (fun e =>
         afile_content_loop rest (dict_set exception_dict model_id (str_exn e)))
  end.

Definition afile_content (file_id : pystr) : M (list Z) :=
  let initial_file_id := file_id in
  let unified_file_id := convert_b64_uid_to_unified_uid file_id in
  model_file_id_mapping <- get_model_file_id_mapping [unified_file_id] ;;
  let specific_model_file_id_mapping :=
    dict_get model_file_id_mapping unified_file_id in
  match specific_model_file_id_mapping with
  | Some (CDict ((_ :: _) as items)) =>
    r <- afile_content_loop items [] ;;
    match r with
    | inl content => ret content
    | inr exception_dict =>
      raise (NotFoundChecked initial_file_id (dict_keys items) exception_dict)
    end
  | Some (CFile _) => raise AttributeError
  | _ => raise (NotFound initial_file_id)
  end.

End ManagedFiles.

(** Whether a prefix can never itself read as base64 text: its first two
    characters are alphabet characters and the byte they decode to cannot
    start a UTF-8 sequence. *)
Definition is_alphabet_char (c : Z) : bool :=
  (c <? 128) && negb (c =? BASE64_PAD)
  && (table_a2b_base64 (urlsafe_decode_translation c) <? 64).

Definition prefix_not_base64_text (p : pystr) : bool :=
  match p with
  | c1 :: c2 :: _ =>
    is_alphabet_char c1 && is_alphabet_char c2 &&
    let b := table_a2b_base64 (urlsafe_decode_translation c1) * 4
             + table_a2b_base64 (urlsafe_decode_translation c2) / 16 in
    negb (b <? 128) && ((b <? 194) || negb (b <? 245))
  | _ => false
  end.

(** The values the two constants have in [litellm/types/utils.py]. *)
Definition litellm_proxy : pystr := py "litellm_proxy".
Definition complete_str_head : pystr := py "litellm_proxy:".
Definition complete_str_mid : pystr := py ";unified_id,".
Definition complete_str_tail : pystr := [].

(** The characters of URL-safe base64 without padding:
    [A-Z], [a-z], [0-9], [-] and [_]. *)
Definition is_urlsafe_char (c : Z) : bool :=
  in_range 65 90 c || in_range 97 122 c || in_range 48 57 c
  || (c =? 45) || (c =? 95).

(** ** Statements about the fan-out loops *)

Definition is_delete_call (c : call) : bool :=
  match c with
  | DeleteCall _ _ => true
  | ContentCall _ _ => false
  end.

Definition is_content_call (c : call) : bool :=
  match c with
  | DeleteCall _ _ => false
  | ContentCall _ _ => true
  end.

(** The last step of [afile_delete], for the value [file_id] has then. *)
Definition delete_object_entry (file_id : list Z) : M OpenAIFileObject :=
  stored_file_object <- delete_unified_file_id file_id ;;
  if file_object_truthy stored_file_object
  then ret stored_file_object
  else raise (NotFound file_id).

(** One step of the second loop of [get_model_file_id_mapping], as a
    function of the mapping built so far. *)
Definition resolve_step (w : world) (m : list (list Z * cache_value))
    (fid : list Z) : list (list Z * cache_value) :=
  let v := default CNone (cache w !! fid) in
  if cache_truthy v then dict_set m fid v else m.

(** Every entry before position [j] is deleted without error, the router
    having seen the calls for the entries before it. *)
Definition deletes_succeed
    (router : list call -> list Z -> list Z -> option (list Z))
    (cs : list call) (items : list (list Z * list Z))
    (j : nat) : Prop :=
  forall i model fid, (i < j)%nat -> items !! i = Some (model, fid) ->
    router (cs ++ map delete_call_of (firstn i items)) model fid = None.

(** Every entry before position [j] fails, the router having seen the
    calls for the entries before it. *)
Definition contents_fail
    (router : list call -> list Z -> list Z -> list Z + list Z)
    (cs : list call) (items : list (list Z * list Z))
    (j : nat) : Prop :=
  forall i model fid, (i < j)%nat -> items !! i = Some (model, fid) ->
    exists msg,
      router (cs ++ map content_call_of (firstn i items)) model fid = inr msg.

(** Entry by entry, [errors] holds the message each call fails with. *)
Definition contents_fail_with
    (router : list call -> list Z -> list Z -> list Z + list Z)
    (cs : list call)
    (items errors : list (list Z * list Z)) : Prop :=
  length errors = length items /\
  forall i model fid, items !! i = Some (model, fid) ->
    exists msg,
      errors !! i = Some (model, msg) /\
      router (cs ++ map content_call_of (firstn i items)) model fid = inr msg.

(** ** The rewriter, as the specification words it *)

(** What the specification asks of the rewriter, in its words: every file
    part of a user message whose content is a list has its [file_id]
    replaced by the normalized value. *)
Definition normalized_part (prefix : list Z) (c : content_part) : content_part :=
  match c with
  | PartFile f =>
    PartFile {| file_id :=
                  option_map (_convert_b64_uid_to_unified_uid prefix) (file_id f);
                file_data := file_data f;
                file_filename := file_filename f |}
  | _ => c
  end.

Definition rewritten_message (prefix : list Z) (m : message) : message :=
  if decide (role m = py "user") then
    match content m with
    | ContentList parts =>
      {| role := role m;
         content := ContentList (map (normalized_part prefix) parts) |}
    | _ => m
    end
  else m.

(** The file references of a request, as written by the client. *)
Definition part_file_refs (c : content_part) : list (list Z) :=
  match c with
  | PartFile f =>
    match file_id f with
    | Some fid => if str_truthy fid then [fid] else []
    | None => []
    end
  | _ => []
  end.

Definition message_file_refs (m : message) : list (list Z) :=
  if decide (role m = py "user") then
    match content m with
    | ContentList parts => flat_map part_file_refs parts
    | _ => []
    end
  else [].

Definition file_references (msgs : list message) : list (list Z) :=
  flat_map message_file_refs msgs.

(** ** Concrete routers, worlds and requests *)

Definition empty_world : world := {| cache := ∅; reads := []; calls := [] |}.

Definition router_delete_ok : list call -> list Z -> list Z -> option (list Z) :=
  fun _ _ _ => None.

(** A router whose delete fails for one model. *)
Definition router_delete_fails_on (bad : list Z)
  : list call -> list Z -> list Z -> option (list Z) :=
  fun _ model _ => if decide (model = bad) then Some (py "boom") else None.

Definition token_abc : list Z :=
  py "litellm_proxy:application/pdf;unified_id,abc".

Definition stored_abc : OpenAIFileObject :=
  {| fo_id := token_abc; fo_object := py "file"; fo_purpose := py "user_data";
     fo_created_at := 1; fo_bytes := 10; fo_filename := py "a.pdf";
     fo_status := py "uploaded"; fo_model_id := None |}.

(** A file on two backends, its object stored under the token. *)
Definition world_two_backends : world :=
  {| cache := <[token_abc := CDict [(py "a", py "file-a"); (py "b", py "file-b")]]>
                (<[py "litellm_proxy/" ++ token_abc := CFile stored_abc]> ∅);
     reads := []; calls := [] |}.

(** The create-file scenario: one backend ["gpt-a"] answered with the file
    id ["prov-123"]; [return_unified_file_id] builds the response, the
    post-call hook stores it. *)
Definition provider_file : OpenAIFileObject :=
  {| fo_id := py "prov-123"; fo_object := py "file";
     fo_purpose := py "user_data"; fo_created_at := 1; fo_bytes := 10;
     fo_filename := py "a.pdf"; fo_status := py "processed";
     fo_model_id := Some (py "gpt-a") |}.

Definition create_run : res OpenAIFileObject * world :=
  bind (return_unified_file_id complete_str_head complete_str_mid
          complete_str_tail [provider_file] (py "application/pdf")
          (py "user_data") 0x123e4567e89b42d3a456426614174000)
       (fun response =>
          bind (async_post_call_success_hook response) (fun _ => ret response))
       empty_world.

Definition created_object : OpenAIFileObject :=
  match fst create_run with
  | Ok response => response
  | Raise _ => provider_file
  end.

Definition router_content_ok : list call -> list Z -> list Z -> list Z + list Z :=
  fun _ _ _ => inl (py "%PDF").

Definition b64_abc : list Z :=
  py "bGl0ZWxsbV9wcm94eTphcHBsaWNhdGlvbi9wZGY7dW5pZmllZF9pZCxhYmM".

Definition router_content_fails_on (bad : list (list Z))
  : list call -> list Z -> list Z -> list Z + list Z :=
  fun _ model _ =>
    if decide (model ∈ bad) then inr (model ++ py " is down")
    else inl (py "%PDF from " ++ model).

Definition request_with_file (fid : list Z) : request :=
  {| messages :=
       Some [ {| role := py "system"; content := ContentStr (py "be brief") |};
              {| role := py "user";
                 content :=
                   ContentList
                     [PartText (py "summarise");
                      PartFile {| file_id := Some fid; file_data := None;
                                  file_filename := None |}] |} ];
     model_file_id_mapping := None;
     other_fields := [(py "model", py "gpt-a")] |}.

(** A file known by a provider id only: its object, no backend mapping. *)
Definition world_plain_file : world :=
  {| cache := <[py "litellm_proxy/file-xyz" := CFile stored_abc]> ∅;
     reads := []; calls := [] |}.

(* ================================================================== *)
(** * Properties *)

(** ** Bit operations as arithmetic *)

Lemma lor_add (k a b : Z) :
  0 <= k -> a mod 2 ^ k = 0 -> 0 <= b < 2 ^ k -> Z.lor a b = a + b.
Proof.
  intros Hk Ha Hb.
  assert (Hd : Z.land a b = 0).
  { apply Z.bits_inj'. intros n Hn.
    rewrite Z.land_spec, Z.bits_0.
    destruct (Z.lt_ge_cases n k) as [Hlt | Hge].
    - rewrite <- (Z.mod_pow2_bits_low a k n), Ha, Z.bits_0 by lia. reflexivity.
    - rewrite <- (Z.mod_small b (2 ^ k)), Z.mod_pow2_bits_high by lia.
      apply andb_false_r. }
  rewrite <- Z.lxor_lor by exact Hd.
  symmetry. apply Z.add_nocarry_lxor. exact Hd.
Qed.

Lemma land_mask (k x : Z) : 0 <= k -> Z.land x (2 ^ k - 1) = x mod 2 ^ k.
Proof.
  intros Hk. replace (2 ^ k - 1) with (Z.ones k).
  - apply Z.land_ones. exact Hk.
  - rewrite Z.ones_equiv. lia.
Qed.

Lemma land_3 x : Z.land x 3 = x mod 4.
Proof. exact (land_mask 2 x ltac:(lia)). Qed.
Lemma land_7 x : Z.land x 7 = x mod 8.
Proof. exact (land_mask 3 x ltac:(lia)). Qed.
Lemma land_15 x : Z.land x 15 = x mod 16.
Proof. exact (land_mask 4 x ltac:(lia)). Qed.
Lemma land_31 x : Z.land x 31 = x mod 32.
Proof. exact (land_mask 5 x ltac:(lia)). Qed.
Lemma land_63 x : Z.land x 63 = x mod 64.
Proof. exact (land_mask 6 x ltac:(lia)). Qed.
Lemma land_255 x : Z.land x 255 = x mod 256.
Proof. exact (land_mask 8 x ltac:(lia)). Qed.
Lemma land_u32 x : Z.land x 4294967295 = x mod 4294967296.
Proof. exact (land_mask 32 x ltac:(lia)). Qed.

Lemma shiftr_div (x k : Z) : 0 <= k -> Z.shiftr x k = x / 2 ^ k.
Proof. apply Z.shiftr_div_pow2. Qed.
Lemma shiftl_mul (x k : Z) : 0 <= k -> Z.shiftl x k = x * 2 ^ k.
Proof. apply Z.shiftl_mul_pow2. Qed.

(** Shifts and masks become [/], [*] and [mod]; [Z.lor] is left for
    [lor_add], which needs to know where the two halves meet. *)
Ltac shifts_to_arith :=
  rewrite ?land_3, ?land_7, ?land_15, ?land_31, ?land_63, ?land_255, ?land_u32;
  rewrite ?shiftr_div, ?shiftl_mul by lia;
  rewrite ?land_3, ?land_7, ?land_15, ?land_31, ?land_63, ?land_255, ?land_u32;
  change (2 ^ 0) with 1; change (2 ^ 2) with 4; change (2 ^ 4) with 16;
  change (2 ^ 6) with 64; change (2 ^ 8) with 256; change (2 ^ 12) with 4096;
  change (2 ^ 18) with 262144.

Ltac divmod := Z.div_mod_to_equations; lia.

Ltac lor_to_add k :=
  match goal with
  | |- context [Z.lor ?a ?b] =>
    rewrite (lor_add k a b);
    [ | lia | solve [reflexivity | divmod] | solve [divmod] ]
  end.

(** ** UTF-8: decoding undoes encoding *)

Lemma ltb_false_of (a b : Z) : b <= a -> (a <? b) = false.
Proof. intros. apply Z.ltb_ge. assumption. Qed.
Lemma ltb_true_of (a b : Z) : a < b -> (a <? b) = true.
Proof. intros. apply Z.ltb_lt. assumption. Qed.
Lemma in_range_true (lo hi b : Z) : lo <= b <= hi -> in_range lo hi b = true.
Proof.
  intros [? ?]. unfold in_range.
  apply andb_true_intro; split; apply Z.leb_le; assumption.
Qed.
Lemma is_continuation_true (b : Z) : 128 <= b <= 191 -> is_continuation b = true.
Proof. apply in_range_true. Qed.

Lemma utf8_encode_char_1 (c : Z) : c < 128 -> utf8_encode_char c = Ok [c].
Proof. intros H. unfold utf8_encode_char. rewrite ltb_true_of by lia. reflexivity. Qed.

Lemma utf8_encode_char_2 (c : Z) :
  128 <= c < 2048 -> utf8_encode_char c = Ok [192 + c / 64; 128 + c mod 64].
Proof.
  intros H. unfold utf8_encode_char.
  rewrite (ltb_false_of c 128), (ltb_true_of c 2048) by lia.
  shifts_to_arith. lor_to_add 6. lor_to_add 6. reflexivity.
Qed.

Lemma utf8_encode_char_3 (c : Z) :
  2048 <= c < 65536 -> is_surrogate c = false ->
  utf8_encode_char c =
    Ok [224 + c / 4096; 128 + (c / 64) mod 64; 128 + c mod 64].
Proof.
  intros H Hs. unfold utf8_encode_char.
  rewrite (ltb_false_of c 128), (ltb_false_of c 2048), (ltb_true_of c 65536), Hs
    by lia.
  shifts_to_arith. lor_to_add 4. lor_to_add 6. lor_to_add 6. reflexivity.
Qed.

Lemma utf8_encode_char_4 (c : Z) :
  65536 <= c <= 1114111 ->
  utf8_encode_char c =
    Ok [240 + c / 262144; 128 + (c / 4096) mod 64;
        128 + (c / 64) mod 64; 128 + c mod 64].
Proof.
  intros H. unfold utf8_encode_char.
  rewrite (ltb_false_of c 128), (ltb_false_of c 2048), (ltb_false_of c 65536)
    by lia.
  shifts_to_arith. lor_to_add 3. lor_to_add 6. lor_to_add 6. lor_to_add 6.
  reflexivity.
Qed.

Lemma bytes_decode_1 (b0 : Z) (rest : list Z) :
  b0 < 128 -> bytes_decode (b0 :: rest) = res_cons b0 (bytes_decode rest).
Proof. intros H. cbn [bytes_decode]. rewrite ltb_true_of by lia. reflexivity. Qed.

Lemma bytes_decode_2 (b0 b1 : Z) (rest : list Z) :
  194 <= b0 < 224 -> 128 <= b1 <= 191 ->
  bytes_decode (b0 :: b1 :: rest) =
    res_cons ((b0 - 192) * 64 + (b1 - 128)) (bytes_decode rest).
Proof.
  intros H0 H1. cbn [bytes_decode].
  rewrite (ltb_false_of b0 128), (ltb_false_of b0 194), (ltb_true_of b0 224),
    is_continuation_true by lia.
  f_equal. shifts_to_arith. lor_to_add 6. divmod.
Qed.

Lemma bytes_decode_3 (b0 b1 b2 : Z) (rest : list Z) :
  224 <= b0 < 240 -> 128 <= b1 <= 191 -> 128 <= b2 <= 191 ->
  (b0 = 224 -> 160 <= b1) -> (b0 = 237 -> b1 <= 159) ->
  bytes_decode (b0 :: b1 :: b2 :: rest) =
    res_cons ((b0 - 224) * 4096 + (b1 - 128) * 64 + (b2 - 128))
             (bytes_decode rest).
Proof.
  intros H0 H1 H2 Hlo Hhi. cbn [bytes_decode].
  rewrite (ltb_false_of b0 128), (ltb_false_of b0 194), (ltb_false_of b0 224),
    (ltb_true_of b0 240), (is_continuation_true b2) by lia.
  rewrite in_range_true.
  2:{ destruct (Z.eqb_spec b0 224); destruct (Z.eqb_spec b0 237); lia. }
  cbn [andb]. f_equal. shifts_to_arith.
  lor_to_add 6. lor_to_add 12. divmod.
Qed.

Lemma bytes_decode_4 (b0 b1 b2 b3 : Z) (rest : list Z) :
  240 <= b0 < 245 -> 128 <= b1 <= 191 -> 128 <= b2 <= 191 -> 128 <= b3 <= 191 ->
  (b0 = 240 -> 144 <= b1) -> (b0 = 244 -> b1 <= 143) ->
  bytes_decode (b0 :: b1 :: b2 :: b3 :: rest) =
    res_cons ((b0 - 240) * 262144 + (b1 - 128) * 4096 + (b2 - 128) * 64
              + (b3 - 128))
             (bytes_decode rest).
Proof.
  intros H0 H1 H2 H3 Hlo Hhi. cbn [bytes_decode].
  rewrite (ltb_false_of b0 128), (ltb_false_of b0 194), (ltb_false_of b0 224),
    (ltb_false_of b0 240), (ltb_true_of b0 245),
    (is_continuation_true b2), (is_continuation_true b3) by lia.
  rewrite in_range_true.
  2:{ destruct (Z.eqb_spec b0 240); destruct (Z.eqb_spec b0 244); lia. }
  cbn [andb]. f_equal. shifts_to_arith.
  lor_to_add 6. lor_to_add 12. lor_to_add 18. divmod.
Qed.

Lemma utf8_char_roundtrip (c : Z) :
  is_scalar c = true ->
  exists bs, utf8_encode_char c = Ok bs /\
    Forall (fun b => 0 <= b < 256) bs /\
    forall rest, bytes_decode (bs ++ rest) = res_cons c (bytes_decode rest).
Proof.
  unfold is_scalar, is_code_point. intros Hc.
  apply andb_prop in Hc as [Hcp Hns].
  apply andb_prop in Hcp as [H0 Hmax].
  apply Z.leb_le in H0, Hmax. apply negb_true_iff in Hns.
  destruct (Z.lt_ge_cases c 128) as [H1 | H1];
    [ | destruct (Z.lt_ge_cases c 2048) as [H2 | H2];
        [ | destruct (Z.lt_ge_cases c 65536) as [H3 | H3] ] ].
  - exists [c]. split; [apply utf8_encode_char_1; lia | split].
    + repeat constructor; lia.
    + intros rest. apply bytes_decode_1. lia.
  - eexists. split; [apply utf8_encode_char_2; lia | split].
    + repeat constructor; divmod.
    + intros rest. cbn [app]. rewrite bytes_decode_2 by divmod.
      f_equal. divmod.
  - eexists. split; [apply utf8_encode_char_3; [lia | exact Hns] | split].
    + repeat constructor; divmod.
    + intros rest. cbn [app].
      unfold is_surrogate in Hns. apply andb_false_iff in Hns.
      assert (Hsur : c < 55296 \/ 57343 < c)
        by (destruct Hns as [Hn | Hn]; [apply Z.leb_gt in Hn | apply Z.leb_gt in Hn]; lia).
      rewrite bytes_decode_3 by divmod.
      f_equal. divmod.
  - eexists. split; [apply utf8_encode_char_4; lia | split].
    + repeat constructor; divmod.
    + intros rest. cbn [app]. rewrite bytes_decode_4 by divmod.
      f_equal. divmod.
Qed.

Lemma str_encode_decode (s : list Z) :
  Forall (fun c => is_scalar c = true) s ->
  exists bs, str_encode s = Ok bs /\
    Forall (fun b => 0 <= b < 256) bs /\
    bytes_decode bs = Ok s.
Proof.
  induction 1 as [ | c s Hc Hs (bs & Henc & Hbytes & Hdec) ].
  - exists []. repeat split; constructor.
  - destruct (utf8_char_roundtrip c Hc) as (cb & Hcenc & Hcbytes & Hcdec).
    exists (cb ++ bs). cbn [str_encode]. rewrite Hcenc, Henc. cbn.
    split; [reflexivity | split].
    + apply Forall_app; split; assumption.
    + rewrite Hcdec, Hdec. reflexivity.
Qed.

(** Text in the ASCII range is its own UTF-8 encoding. *)
Lemma bytes_decode_ascii (s : list Z) :
  Forall (fun c => 0 <= c < 128) s -> bytes_decode s = Ok s.
Proof.
  induction 1 as [ | c s Hc Hs IH ]; [reflexivity | ].
  rewrite bytes_decode_1 by lia. rewrite IH. reflexivity.
Qed.

(** ** Base64: the alphabet *)

Lemma Z_range_forallb (n : nat) (f : Z -> bool) :
  forallb f (map Z.of_nat (seq 0 n)) = true ->
  forall v, 0 <= v < Z.of_nat n -> f v = true.
Proof.
  intros Hall v Hv. rewrite forallb_forall in Hall. apply Hall.
  apply in_map_iff. exists (Z.to_nat v). split; [lia | ].
  apply in_seq. lia.
Qed.

Lemma alphabet_roundtrip (v : Z) :
  0 <= v < 64 ->
  let y := urlsafe_decode_translation
             (urlsafe_encode_translation (table_b2a_base64 v)) in
  y <> BASE64_PAD /\ table_a2b_base64 y = v.
Proof.
  intros Hv.
  pose proof (Z_range_forallb 64
    (fun v =>
       let y := urlsafe_decode_translation
                  (urlsafe_encode_translation (table_b2a_base64 v)) in
       negb (y =? BASE64_PAD) && (table_a2b_base64 y =? v))
    ltac:(vm_compute; reflexivity) v Hv) as Hchk.
  cbv zeta in Hchk. apply andb_prop in Hchk as [Hne Heq].
  apply negb_true_iff, Z.eqb_neq in Hne. apply Z.eqb_eq in Heq.
  split; assumption.
Qed.

Lemma alphabet_ascii (v : Z) :
  0 <= v < 64 ->
  let x := urlsafe_encode_translation (table_b2a_base64 v) in
  0 <= x < 128 /\ x <> BASE64_PAD.
Proof.
  intros Hv.
  pose proof (Z_range_forallb 64
    (fun v =>
       let x := urlsafe_encode_translation (table_b2a_base64 v) in
       (0 <=? x) && (x <? 128) && negb (x =? BASE64_PAD))
    ltac:(vm_compute; reflexivity) v Hv) as Hchk.
  cbv zeta in Hchk.
  apply andb_prop in Hchk as [Hr Hne]. apply andb_prop in Hr as [Hlo Hhi].
  apply negb_true_iff, Z.eqb_neq in Hne.
  apply Z.leb_le in Hlo. apply Z.ltb_lt in Hhi. cbv zeta. lia.
Qed.

(** ** Base64: one step of either loop *)

Lemma b2a_step_0 (lc b : Z) (rest : list Z) :
  b2a_base64_loop lc 0 (b :: rest) =
    let lc' := to_uint (Z.lor (Z.shiftl lc 8) b) in
    table_b2a_base64 (Z.land (Z.shiftr lc' 2) 0x3F)
      :: b2a_base64_loop lc' 2 rest.
Proof. reflexivity. Qed.

Lemma b2a_step_2 (lc b : Z) (rest : list Z) :
  b2a_base64_loop lc 2 (b :: rest) =
    let lc' := to_uint (Z.lor (Z.shiftl lc 8) b) in
    table_b2a_base64 (Z.land (Z.shiftr lc' 4) 0x3F)
      :: b2a_base64_loop lc' 4 rest.
Proof. reflexivity. Qed.

Lemma b2a_step_4 (lc b : Z) (rest : list Z) :
  b2a_base64_loop lc 4 (b :: rest) =
    let lc' := to_uint (Z.lor (Z.shiftl lc 8) b) in
    table_b2a_base64 (Z.land (Z.shiftr lc' 6) 0x3F)
      :: table_b2a_base64 (Z.land (Z.shiftr lc' 0) 0x3F)
      :: b2a_base64_loop lc' 0 rest.
Proof. reflexivity. Qed.

Lemma to_uint_push (lc b : Z) :
  0 <= b < 256 ->
  to_uint (Z.lor (Z.shiftl lc 8) b) = (lc * 256 + b) mod 4294967296.
Proof.
  intros Hb. unfold to_uint. shifts_to_arith. lor_to_add 8. reflexivity.
Qed.

Lemma b2a_group_1 (lc a : Z) :
  0 <= a < 256 ->
  b2a_base64_loop lc 0 [a] =
    [table_b2a_base64 (a / 4); table_b2a_base64 ((a mod 4) * 16);
     BASE64_PAD; BASE64_PAD].
Proof.
  intros Ha. rewrite b2a_step_0. cbv zeta. rewrite to_uint_push by lia.
  cbn [b2a_base64_loop]. change (2 =? 2) with true. cbv iota.
  shifts_to_arith.
  f_equal; [ | f_equal ]; f_equal; divmod.
Qed.

Lemma b2a_group_2 (lc a b : Z) :
  0 <= a < 256 -> 0 <= b < 256 ->
  b2a_base64_loop lc 0 [a; b] =
    [table_b2a_base64 (a / 4); table_b2a_base64 ((a mod 4) * 16 + b / 16);
     table_b2a_base64 ((b mod 16) * 4); BASE64_PAD].
Proof.
  intros Ha Hb. rewrite b2a_step_0. cbv zeta. rewrite b2a_step_2. cbv zeta.
  rewrite !to_uint_push by lia.
  cbn [b2a_base64_loop]. change (4 =? 2) with false. change (4 =? 4) with true.
  cbv iota. shifts_to_arith.
  f_equal; [ | f_equal; [ | f_equal ] ]; f_equal; divmod.
Qed.

Lemma b2a_group_3 (lc a b c : Z) :
  0 <= a < 256 -> 0 <= b < 256 -> 0 <= c < 256 ->
  exists lc', forall rest,
    b2a_base64_loop lc 0 (a :: b :: c :: rest) =
      table_b2a_base64 (a / 4)
        :: table_b2a_base64 ((a mod 4) * 16 + b / 16)
        :: table_b2a_base64 ((b mod 16) * 4 + c / 64)
        :: table_b2a_base64 (c mod 64)
        :: b2a_base64_loop lc' 0 rest.
Proof.
  intros Ha Hb Hc. eexists. intros rest.
  rewrite b2a_step_0. cbv zeta. rewrite b2a_step_2. cbv zeta.
  rewrite b2a_step_4. cbv zeta.
  rewrite !to_uint_push by lia. shifts_to_arith.
  f_equal; [ | f_equal; [ | f_equal; [ | f_equal ] ] ];
    try reflexivity; f_equal; divmod.
Qed.

Lemma a2b_step_q0 (l p y : Z) (rest : list Z) :
  y <> BASE64_PAD -> 0 <= table_a2b_base64 y < 64 ->
  a2b_base64_loop 0 l p (y :: rest) =
    a2b_base64_loop 1 (table_a2b_base64 y) 0 rest.
Proof.
  intros Hy Hv. cbn [a2b_base64_loop].
  destruct (Z.eqb_spec y BASE64_PAD); [contradiction | ].
  cbv zeta. rewrite (proj2 (Z.leb_gt _ _)) by lia. reflexivity.
Qed.

Lemma a2b_step_q1 (l p y : Z) (rest : list Z) :
  y <> BASE64_PAD -> 0 <= table_a2b_base64 y < 64 -> 0 <= l < 64 ->
  a2b_base64_loop 1 l p (y :: rest) =
    res_cons (l * 4 + table_a2b_base64 y / 16)
      (a2b_base64_loop 2 (table_a2b_base64 y mod 16) 0 rest).
Proof.
  intros Hy Hv Hl. cbn [a2b_base64_loop].
  destruct (Z.eqb_spec y BASE64_PAD); [contradiction | ].
  cbv zeta. rewrite (proj2 (Z.leb_gt _ _)) by lia.
  change (1 =? 0) with false. change (1 =? 1) with true. cbv iota.
  unfold to_uchar. shifts_to_arith. lor_to_add 2. f_equal. divmod.
Qed.

Lemma a2b_step_q2 (l p y : Z) (rest : list Z) :
  y <> BASE64_PAD -> 0 <= table_a2b_base64 y < 64 -> 0 <= l < 16 ->
  a2b_base64_loop 2 l p (y :: rest) =
    res_cons (l * 16 + table_a2b_base64 y / 4)
      (a2b_base64_loop 3 (table_a2b_base64 y mod 4) 0 rest).
Proof.
  intros Hy Hv Hl. cbn [a2b_base64_loop].
  destruct (Z.eqb_spec y BASE64_PAD); [contradiction | ].
  cbv zeta. rewrite (proj2 (Z.leb_gt _ _)) by lia.
  change (2 =? 0) with false. change (2 =? 1) with false.
  change (2 =? 2) with true. cbv iota.
  unfold to_uchar. shifts_to_arith. lor_to_add 4. f_equal. divmod.
Qed.

Lemma a2b_step_q3 (l p y : Z) (rest : list Z) :
  y <> BASE64_PAD -> 0 <= table_a2b_base64 y < 64 -> 0 <= l < 4 ->
  a2b_base64_loop 3 l p (y :: rest) =
    res_cons (l * 64 + table_a2b_base64 y) (a2b_base64_loop 0 0 0 rest).
Proof.
  intros Hy Hv Hl. cbn [a2b_base64_loop].
  destruct (Z.eqb_spec y BASE64_PAD); [contradiction | ].
  cbv zeta. rewrite (proj2 (Z.leb_gt _ _)) by lia.
  change (3 =? 0) with false. change (3 =? 1) with false.
  change (3 =? 2) with false. cbv iota.
  unfold to_uchar. shifts_to_arith. lor_to_add 6. f_equal. divmod.
Qed.

Lemma a2b_quad (l p v1 v2 v3 v4 : Z) (rest : list Z) :
  0 <= v1 < 64 -> 0 <= v2 < 64 -> 0 <= v3 < 64 -> 0 <= v4 < 64 ->
  a2b_base64_loop 0 l p (wire v1 :: wire v2 :: wire v3 :: wire v4 :: rest) =
    res_cons (v1 * 4 + v2 / 16)
      (res_cons ((v2 mod 16) * 16 + v3 / 4)
        (res_cons ((v3 mod 4) * 64 + v4) (a2b_base64_loop 0 0 0 rest))).
Proof.
  intros H1 H2 H3 H4.
  destruct (alphabet_roundtrip v1 H1) as [N1 E1].
  destruct (alphabet_roundtrip v2 H2) as [N2 E2].
  destruct (alphabet_roundtrip v3 H3) as [N3 E3].
  destruct (alphabet_roundtrip v4 H4) as [N4 E4].
  fold (wire v1) in N1, E1. fold (wire v2) in N2, E2.
  fold (wire v3) in N3, E3. fold (wire v4) in N4, E4.
  rewrite a2b_step_q0 by (rewrite ?E1; auto; lia). rewrite E1.
  rewrite a2b_step_q1 by (rewrite ?E2; auto; lia). rewrite E2.
  rewrite a2b_step_q2 by (rewrite ?E3; auto; divmod). rewrite E3.
  rewrite a2b_step_q3 by (rewrite ?E4; auto; divmod). rewrite E4.
  reflexivity.
Qed.

Lemma a2b_tail_2 (l p v1 v2 : Z) :
  0 <= v1 < 64 -> 0 <= v2 < 64 ->
  a2b_base64_loop 0 l p [wire v1; wire v2; BASE64_PAD; BASE64_PAD] =
    Ok [v1 * 4 + v2 / 16].
Proof.
  intros H1 H2.
  destruct (alphabet_roundtrip v1 H1) as [N1 E1].
  destruct (alphabet_roundtrip v2 H2) as [N2 E2].
  fold (wire v1) in N1, E1. fold (wire v2) in N2, E2.
  rewrite a2b_step_q0 by (rewrite ?E1; auto; lia). rewrite E1.
  rewrite a2b_step_q1 by (rewrite ?E2; auto; lia). rewrite E2.
  reflexivity.
Qed.

Lemma a2b_tail_3 (l p v1 v2 v3 : Z) :
  0 <= v1 < 64 -> 0 <= v2 < 64 -> 0 <= v3 < 64 ->
  a2b_base64_loop 0 l p [wire v1; wire v2; wire v3; BASE64_PAD] =
    Ok [v1 * 4 + v2 / 16; (v2 mod 16) * 16 + v3 / 4].
Proof.
  intros H1 H2 H3.
  destruct (alphabet_roundtrip v1 H1) as [N1 E1].
  destruct (alphabet_roundtrip v2 H2) as [N2 E2].
  destruct (alphabet_roundtrip v3 H3) as [N3 E3].
  fold (wire v1) in N1, E1. fold (wire v2) in N2, E2.
  fold (wire v3) in N3, E3.
  rewrite a2b_step_q0 by (rewrite ?E1; auto; lia). rewrite E1.
  rewrite a2b_step_q1 by (rewrite ?E2; auto; lia). rewrite E2.
  rewrite a2b_step_q2 by (rewrite ?E3; auto; divmod). rewrite E3.
  reflexivity.
Qed.

Lemma list_ind3 {A : Type} (P : list A -> Prop) :
  P [] -> (forall a, P [a]) -> (forall a b, P [a; b]) ->
  (forall a b c l, P l -> P (a :: b :: c :: l)) ->
  forall l, P l.
Proof.
  intros H0 H1 H2 H3. fix IH 1.
  intros [ | a [ | b [ | c l ] ] ].
  - exact H0.
  - apply H1.
  - apply H2.
  - apply H3. apply IH.
Qed.

Lemma pad_translations :
  urlsafe_decode_translation (urlsafe_encode_translation BASE64_PAD) = BASE64_PAD.
Proof. reflexivity. Qed.

(** Decoding the (still padded) URL-safe encoding gives the bytes back,
    whatever the encoder's scratch register held on entry. *)
Lemma a2b_b2a_roundtrip (bs : list Z) :
  Forall (fun b => 0 <= b < 256) bs ->
  forall lc,
    a2b_base64 (map urlsafe_decode_translation
                  (map urlsafe_encode_translation (b2a_base64_loop lc 0 bs)))
    = Ok bs.
Proof.
  unfold a2b_base64.
  induction bs as [ | a | a b | a b c bs IH ] using list_ind3; intros Hb lc.
  - reflexivity.
  - inversion_clear Hb as [ | ? ? Ha _ ].
    rewrite b2a_group_1 by lia. cbn [map]. rewrite pad_translations.
    fold (wire (a / 4)). fold (wire (a mod 4 * 16)).
    rewrite a2b_tail_2 by divmod. do 2 f_equal. divmod.
  - inversion_clear Hb as [ | ? ? Ha Hb' ].
    inversion_clear Hb' as [ | ? ? Hb _ ].
    rewrite b2a_group_2 by lia. cbn [map]. rewrite pad_translations.
    fold (wire (a / 4)). fold (wire (a mod 4 * 16 + b / 16)).
    fold (wire (b mod 16 * 4)).
    rewrite a2b_tail_3 by divmod.
    f_equal. f_equal; [ | f_equal ]; divmod.
  - inversion_clear Hb as [ | ? ? Ha Hb' ].
    inversion_clear Hb' as [ | ? ? Hb Hc' ].
    inversion_clear Hc' as [ | ? ? Hc Hrest ].
    destruct (b2a_group_3 lc a b c) as [lc' Hgrp]; try lia.
    rewrite Hgrp. cbn [map].
    fold (wire (a / 4)). fold (wire (a mod 4 * 16 + b / 16)).
    fold (wire (b mod 16 * 4 + c / 64)). fold (wire (c mod 64)).
    rewrite a2b_quad by divmod.
    rewrite (IH Hrest lc'). cbn.
    f_equal. f_equal; [ | f_equal; [ | f_equal ] ]; divmod.
Qed.

(** ** Stripping the padding and putting it back *)

Lemma rstrip_cons_ne (ch x : Z) (l : list Z) :
  x <> ch -> rstrip ch (x :: l) = x :: rstrip ch l.
Proof.
  intros Hx. unfold rstrip. cbn [fold_right].
  destruct (fold_right _ _ l); [ | reflexivity ].
  destruct (Z.eqb_spec x ch); [contradiction | reflexivity].
Qed.

Lemma add_padding_quad (a b c d : Z) (t : list Z) :
  add_padding (a :: b :: c :: d :: t) = a :: b :: c :: d :: add_padding t.
Proof.
  unfold add_padding. cbn [length app].
  replace ((- Z.of_nat (S (S (S (S (length t)))))) mod 4)
    with ((- Z.of_nat (length t)) mod 4); [reflexivity | ].
  replace (- Z.of_nat (S (S (S (S (length t))))))
    with (- Z.of_nat (length t) + (-1) * 4) by lia.
  rewrite Z.mod_add by lia. reflexivity.
Qed.

Lemma wire_free_ne (v : Z) :
  0 <= v < 64 -> urlsafe_encode_translation (table_b2a_base64 v) <> BASE64_PAD.
Proof. intros Hv. apply (alphabet_ascii v Hv). Qed.

Ltac forall_list :=
  repeat match goal with
         | |- Forall _ (_ :: _) => constructor
         | |- Forall _ [] => constructor
         end.

Lemma encoded_repad (bs : list Z) :
  Forall (fun b => 0 <= b < 256) bs ->
  forall lc,
    let e := map urlsafe_encode_translation (b2a_base64_loop lc 0 bs) in
    add_padding (rstrip BASE64_PAD e) = e /\ Forall (fun c => 0 <= c < 128) e.
Proof.
  assert (Hpadc : 0 <= urlsafe_encode_translation BASE64_PAD < 128)
    by (vm_compute; split; [discriminate | reflexivity]).
  induction bs as [ | a | a b | a b c bs IH ] using list_ind3; intros Hb lc e;
    subst e.
  - split; [reflexivity | constructor].
  - inversion_clear Hb as [ | ? ? Ha _ ].
    rewrite b2a_group_1 by lia. cbn [map].
    assert (H1 : 0 <= a / 4 < 64) by divmod.
    assert (H2 : 0 <= a mod 4 * 16 < 64) by divmod.
    split.
    + rewrite !rstrip_cons_ne by (apply wire_free_ne; assumption).
      reflexivity.
    + forall_list; try exact Hpadc;
        first [apply (alphabet_ascii _ H1) | apply (alphabet_ascii _ H2)].
  - inversion_clear Hb as [ | ? ? Ha Hb' ].
    inversion_clear Hb' as [ | ? ? Hb _ ].
    rewrite b2a_group_2 by lia. cbn [map].
    assert (H1 : 0 <= a / 4 < 64) by divmod.
    assert (H2 : 0 <= a mod 4 * 16 + b / 16 < 64) by divmod.
    assert (H3 : 0 <= b mod 16 * 4 < 64) by divmod.
    split.
    + rewrite !rstrip_cons_ne by (apply wire_free_ne; assumption).
      reflexivity.
    + forall_list; try exact Hpadc;
        first [apply (alphabet_ascii _ H1) | apply (alphabet_ascii _ H2)
              | apply (alphabet_ascii _ H3)].
  - inversion_clear Hb as [ | ? ? Ha Hb' ].
    inversion_clear Hb' as [ | ? ? Hb Hc' ].
    inversion_clear Hc' as [ | ? ? Hc Hrest ].
    destruct (b2a_group_3 lc a b c) as [lc' Hgrp]; try lia.
    rewrite Hgrp. cbn [map].
    assert (H1 : 0 <= a / 4 < 64) by divmod.
    assert (H2 : 0 <= a mod 4 * 16 + b / 16 < 64) by divmod.
    assert (H3 : 0 <= b mod 16 * 4 + c / 64 < 64) by divmod.
    assert (H4 : 0 <= c mod 64 < 64) by divmod.
    destruct (IH Hrest lc') as [IHpad IHascii].
    split.
    + rewrite !rstrip_cons_ne by (apply wire_free_ne; assumption).
      rewrite add_padding_quad. rewrite IHpad. reflexivity.
    + do 4 (constructor;
            [ first [apply (alphabet_ascii _ H1) | apply (alphabet_ascii _ H2)
                    | apply (alphabet_ascii _ H3) | apply (alphabet_ascii _ H4)]
            | ]).
      exact IHascii.
Qed.

Lemma bytes_from_decode_data_ascii (s : list Z) :
  Forall (fun c => 0 <= c < 128) s -> bytes_from_decode_data s = Ok s.
Proof.
  intros Hs. unfold bytes_from_decode_data.
  replace (forallb (fun c => c <? 128) s) with true; [reflexivity | ].
  symmetry. apply forallb_forall. intros c Hc.
  rewrite Forall_forall in Hs. apply Z.ltb_lt. apply Hs.
  apply list_elem_of_In. exact Hc.
Qed.

Lemma startswith_app (s p t : list Z) :
  startswith s p = true -> startswith (s ++ t) p = true.
Proof.
  revert s. induction p as [ | x p IH ]; intros s H.
  - destruct (s ++ t); reflexivity.
  - destruct s as [ | y s ]; [discriminate | ].
    cbn [startswith app] in *. apply andb_prop in H as [Hxy Hp].
    rewrite Hxy, (IH _ Hp). reflexivity.
Qed.

(** The identifier handed out for a token decodes back to that token. *)
Lemma token_roundtrip (prefix token : list Z) :
  Forall (fun c => is_scalar c = true) token ->
  startswith token prefix = true ->
  exists b64, base64_unified_file_id_of token = Ok b64 /\
    _is_base64_encoded_unified_file_id prefix b64 = PyStr token.
Proof.
  intros Htok Hpre.
  destruct (str_encode_decode token Htok) as (bs & Henc & Hbytes & Hdec).
  destruct (encoded_repad bs Hbytes 0) as [Hpad Hascii].
  cbv zeta in Hpad, Hascii.
  exists (rstrip BASE64_PAD (urlsafe_b64encode bs)). split.
  - unfold base64_unified_file_id_of. rewrite Henc. cbn [res_bind].
    unfold urlsafe_b64encode, b2a_base64.
    rewrite bytes_decode_ascii by exact Hascii. reflexivity.
  - unfold _is_base64_encoded_unified_file_id, urlsafe_b64encode, b2a_base64.
    rewrite Hpad. unfold urlsafe_b64decode.
    rewrite bytes_from_decode_data_ascii by exact Hascii. cbn [res_bind].
    rewrite (a2b_b2a_roundtrip bs Hbytes 0). cbn [res_bind].
    rewrite Hdec, Hpre. reflexivity.
Qed.

(** ** The rendered token *)

Lemma hexdigit_scalar (d : Z) : 0 <= d < 16 -> is_scalar (hexdigit d) = true.
Proof.
  intros Hd.
  exact (Z_range_forallb 16 (fun d => is_scalar (hexdigit d))
           ltac:(vm_compute; reflexivity) d Hd).
Qed.

Lemma hex32_scalar (n : Z) : Forall (fun c => is_scalar c = true) (hex32 n).
Proof.
  unfold hex32. apply List.Forall_forall. intros c Hc.
  apply in_map_iff in Hc as (i & <- & _).
  apply hexdigit_scalar. apply Z.mod_pos_bound. lia.
Qed.

Lemma str_uuid_scalar (n : Z) : Forall (fun c => is_scalar c = true) (str_uuid n).
Proof.
  pose proof (hex32_scalar n) as Hhex. unfold str_uuid. cbv zeta.
  repeat (apply Forall_app; split);
    first [ apply Forall_take; try apply Forall_drop; exact Hhex
          | apply Forall_drop; exact Hhex
          | constructor; [reflexivity | constructor] ].
Qed.

Lemma forallb_scalar (s : list Z) :
  forallb is_scalar s = true -> Forall (fun c => is_scalar c = true) s.
Proof.
  intros H. apply List.Forall_forall. intros c Hc.
  rewrite forallb_forall in H. apply H. exact Hc.
Defined.

(** ** The identifier codec *)

(** C4. Round trip of the identifier codec: for every content type and
    every UUID, the identifier [return_unified_file_id] hands out (the
    token rendered from the template, UTF-8 encoded, URL-safe base64
    encoded, padding stripped) is decoded by
    [_is_base64_encoded_unified_file_id] to exactly the token. The content
    type and the template are text the UTF-8 codec accepts, and the
    template starts with the sentinel prefix. *)
Theorem codec_roundtrip (prefix head mid tail content_type : list Z) (uuid4 : Z) :
  startswith head prefix = true ->
  Forall (fun c => is_scalar c = true) (head ++ mid ++ tail) ->
  Forall (fun c => is_scalar c = true) content_type ->
  let token := unified_file_id_of head mid tail content_type uuid4 in
  exists b64,
    base64_unified_file_id_of token = Ok b64 /\
    _is_base64_encoded_unified_file_id prefix b64 = PyStr token /\
    forall first rest purpose w,
      exists response,
        fst (return_unified_file_id head mid tail (first :: rest)
               content_type purpose uuid4 w) = Ok response /\
        fo_id response = b64.
Proof.
  intros Hpre Htpl Hct token.
  apply Forall_app in Htpl as [Hhead Htpl].
  apply Forall_app in Htpl as [Hmid Htail].
  assert (Htok : Forall (fun c => is_scalar c = true) token).
  { unfold token, unified_file_id_of, LITELLM_MANAGED_FILE_COMPLETE_STR_format.
    rewrite !Forall_app. repeat split; auto using str_uuid_scalar. }
  assert (Hsw : startswith token prefix = true).
  { unfold token, unified_file_id_of, LITELLM_MANAGED_FILE_COMPLETE_STR_format.
    apply startswith_app. exact Hpre. }
  destruct (token_roundtrip prefix token Htok Hsw) as (b64 & Henc & Hdec).
  exists b64. repeat split; try assumption.
  intros first rest purpose w. unfold return_unified_file_id.
  fold token. rewrite Henc. eexists. split; reflexivity.
Qed.

Lemma codec_roundtrip_witness :
  let token :=
    unified_file_id_of complete_str_head complete_str_mid complete_str_tail
      (py "application/pdf") 0x123e4567e89b42d3a456426614174000 in
  exists b64,
    base64_unified_file_id_of token = Ok b64 /\
    _is_base64_encoded_unified_file_id litellm_proxy b64 = PyStr token /\
    forall first rest purpose w,
      exists response,
        fst (return_unified_file_id complete_str_head complete_str_mid
               complete_str_tail (first :: rest) (py "application/pdf")
               purpose 0x123e4567e89b42d3a456426614174000 w) = Ok response /\
        fo_id response = b64.
Proof.
  apply (codec_roundtrip litellm_proxy complete_str_head complete_str_mid
           complete_str_tail (py "application/pdf")
           0x123e4567e89b42d3a456426614174000).
  - reflexivity.
  - apply forallb_scalar. vm_compute. reflexivity.
  - apply forallb_scalar. vm_compute. reflexivity.
Defined.

(** C10. The static method [_convert_b64_uid_to_unified_uid] and the
    instance method [convert_b64_uid_to_unified_uid] return the same
    result on every input. *)
Theorem convert_static_instance_equal (prefix b64_uid : list Z) :
  _convert_b64_uid_to_unified_uid prefix b64_uid =
  convert_b64_uid_to_unified_uid prefix b64_uid.
Proof.
  unfold _convert_b64_uid_to_unified_uid, convert_b64_uid_to_unified_uid.
  destruct (_is_base64_encoded_unified_file_id prefix b64_uid) as [ s | ];
    reflexivity.
Qed.

(** ** What the decoder accepts *)

Lemma is_base64_PyStr_inv (prefix b64_uid d : list Z) :
  _is_base64_encoded_unified_file_id prefix b64_uid = PyStr d <->
  exists bs, urlsafe_b64decode (add_padding b64_uid) = Ok bs /\
             bytes_decode bs = Ok d /\ startswith d prefix = true.
Proof.
  unfold _is_base64_encoded_unified_file_id. cbv zeta.
  destruct (urlsafe_b64decode (add_padding b64_uid)) as [ bs | e ];
    cbn [res_bind].
  - destruct (bytes_decode bs) as [ d' | e ] eqn:Hdec.
    + destruct (startswith d' prefix) eqn:Hsw; split.
      * intros [= <-]. exists bs. auto.
      * intros (bs' & [= <-] & Hd & _). congruence.
      * discriminate.
      * intros (bs' & [= <-] & Hd & Hsw'). congruence.
    + split; [discriminate | ].
      intros (bs' & [= <-] & Hd & _). congruence.
  - split; [discriminate | ]. intros (bs' & Hbs & _). discriminate.
Qed.

Lemma table_a2b_nonneg (c : Z) : 0 <= table_a2b_base64 c.
Proof.
  unfold table_a2b_base64, in_range.
  repeat match goal with
         | |- context [?a <=? ?b] => destruct (Z.leb_spec a b); cbn [andb]
         | |- context [?a =? ?b] => destruct (Z.eqb_spec a b)
         end; lia.
Qed.

Lemma table_a2b_pad_free (c : Z) :
  table_a2b_base64 c < 64 -> c <> BASE64_PAD.
Proof. intros H ->. vm_compute in H. discriminate. Qed.

Lemma bytes_decode_bad_lead (b : Z) (rest : list Z) :
  128 <= b -> b < 194 \/ 245 <= b ->
  bytes_decode (b :: rest) = Raise UnicodeDecodeError.
Proof.
  intros Hlo Hbad. cbn [bytes_decode]. rewrite (ltb_false_of b 128) by lia.
  destruct Hbad as [Hbad | Hbad].
  - rewrite (ltb_true_of b 194) by lia. reflexivity.
  - rewrite (ltb_false_of b 194), (ltb_false_of b 224), (ltb_false_of b 240),
      (ltb_false_of b 245) by lia.
    reflexivity.
Qed.

(** A string that starts with such a prefix is never taken for the base64
    form of a token, whatever prefix the decoder looks for. *)
Lemma prefixed_not_decodable (p p' d : list Z) :
  prefix_not_base64_text p = true -> startswith d p = true ->
  _is_base64_encoded_unified_file_id p' d = PyFalse.
Proof.
  intros Hp Hsw.
  destruct p as [ | c1 [ | c2 p ] ]; try discriminate.
  destruct d as [ | d1 [ | d2 d ] ]; try discriminate.
  { cbn in Hsw. rewrite andb_false_r in Hsw. discriminate. }
  cbn [startswith] in Hsw.
  apply andb_prop in Hsw as [H1 Hsw]. apply andb_prop in Hsw as [H2 _].
  apply Z.eqb_eq in H1, H2. subst d1 d2.
  cbn [prefix_not_base64_text] in Hp.
  apply andb_prop in Hp as [Hp Hb]. apply andb_prop in Hp as [Ha1 Ha2].
  unfold is_alphabet_char in Ha1, Ha2.
  apply andb_prop in Ha1 as [_ Hv1]. apply andb_prop in Ha2 as [_ Hv2].
  apply Z.ltb_lt in Hv1, Hv2.
  apply andb_prop in Hb as [Hb1 Hb2].
  apply negb_true_iff, Z.ltb_ge in Hb1.
  assert (Hbad : forall b, b = table_a2b_base64 (urlsafe_decode_translation c1) * 4
                     + table_a2b_base64 (urlsafe_decode_translation c2) / 16 ->
                 b < 194 \/ 245 <= b).
  { intros b ->. apply orb_prop in Hb2 as [Hb2 | Hb2].
    - left. apply Z.ltb_lt. exact Hb2.
    - right. apply negb_true_iff, Z.ltb_ge in Hb2. exact Hb2. }
  unfold _is_base64_encoded_unified_file_id. cbv zeta.
  unfold add_padding. cbn [app length].
  unfold urlsafe_b64decode, bytes_from_decode_data.
  destruct (forallb _ _); cbn [res_bind]; [ | reflexivity ].
  unfold a2b_base64. cbn [map].
  pose proof (table_a2b_nonneg (urlsafe_decode_translation c1)) as Hn1.
  pose proof (table_a2b_nonneg (urlsafe_decode_translation c2)) as Hn2.
  rewrite a2b_step_q0 by (auto using table_a2b_pad_free; lia).
  rewrite a2b_step_q1 by (auto using table_a2b_pad_free; lia).
  destruct (a2b_base64_loop 2 _ 0 _) as [ l | e ]; cbn [res_cons res_bind];
    [ | reflexivity ].
  rewrite bytes_decode_bad_lead; auto.
Qed.

(** C5. Normalization is idempotent: for every string [x],
    [convert_b64_uid_to_unified_uid] applied twice gives what it gives
    applied once. The sentinel prefix is one that cannot itself read as
    base64 text (as ["litellm_proxy"], whose first two characters decode
    to the byte 0x96). *)
Theorem normalize_idempotent (prefix x : list Z) :
  prefix_not_base64_text prefix = true ->
  convert_b64_uid_to_unified_uid prefix
    (convert_b64_uid_to_unified_uid prefix x)
  = convert_b64_uid_to_unified_uid prefix x.
Proof.
  intros Hp. unfold convert_b64_uid_to_unified_uid at 2 3. cbv zeta.
  destruct (_is_base64_encoded_unified_file_id prefix x) as [ s | ] eqn:Hx.
  - destruct (str_truthy s) eqn:Hs.
    + apply is_base64_PyStr_inv in Hx as (bs & _ & _ & Hsw).
      unfold convert_b64_uid_to_unified_uid.
      rewrite (prefixed_not_decodable prefix prefix s Hp Hsw). reflexivity.
    + unfold convert_b64_uid_to_unified_uid. rewrite Hx, Hs. reflexivity.
  - unfold convert_b64_uid_to_unified_uid. rewrite Hx. reflexivity.
Qed.

Lemma normalize_idempotent_witness :
  let x := py "bGl0ZWxsbV9wcm94eTphcHBsaWNhdGlvbi9wZGY7dW5pZmllZF9pZCxhYmM" in
  convert_b64_uid_to_unified_uid litellm_proxy
    (convert_b64_uid_to_unified_uid litellm_proxy x)
  = convert_b64_uid_to_unified_uid litellm_proxy x.
Proof.
  apply (normalize_idempotent litellm_proxy). vm_compute. reflexivity.
Defined.

(** ** What the decoder raises, and what it returns *)

Lemma forallb_false_In {A : Type} (f : A -> bool) (l : list A) :
  forallb f l = false -> exists x, In x l /\ f x = false.
Proof.
  induction l as [ | a l IH ]; [discriminate | ].
  cbn [forallb]. destruct (f a) eqn:Hfa; cbn [andb].
  - intros H. destruct (IH H) as (x & Hin & Hx). exists x. split; [right | ]; assumption.
  - intros _. exists a. split; [left; reflexivity | exact Hfa].
Qed.

(** The padding the source computes, [-len(b64_uid) % 4] characters, is
    the least that brings the length to a multiple of four. *)
Lemma add_padding_explicit (b64_uid : list Z) :
  exists k : nat,
    (k < 4)%nat /\ ((length b64_uid + k) mod 4 = 0)%nat /\
    add_padding b64_uid = b64_uid ++ repeat BASE64_PAD k.
Proof.
  exists (Z.to_nat ((- Z.of_nat (length b64_uid)) mod 4)).
  pose proof (Z.mod_pos_bound (- Z.of_nat (length b64_uid)) 4 ltac:(lia)) as Hk.
  split; [lia | split; [ | reflexivity ] ].
  apply Nat2Z.inj. rewrite Nat2Z.inj_mod, Nat2Z.inj_add, Z2Nat.id by lia.
  change (Z.of_nat 4) with 4. change (Z.of_nat 0) with 0.
  rewrite Z.add_mod_idemp_r by lia.
  replace (Z.of_nat (length b64_uid) + - Z.of_nat (length b64_uid)) with 0 by lia.
  reflexivity.
Qed.

Lemma bytes_from_decode_data_inv (s : list Z) :
  match bytes_from_decode_data s with
  | Ok b => b = s /\ Forall (fun c => c < 128) s
  | Raise e => e = ValueError /\ exists c, In c s /\ 128 <= c
  end.
Proof.
  unfold bytes_from_decode_data.
  destruct (forallb (fun c => c <? 128) s) eqn:Hall.
  - split; [reflexivity | ]. apply List.Forall_forall. intros c Hc.
    rewrite forallb_forall in Hall. apply Z.ltb_lt. apply Hall. exact Hc.
  - split; [reflexivity | ].
    destruct (forallb_false_In _ _ Hall) as (c & Hin & Hc).
    exists c. split; [exact Hin | ]. apply Z.ltb_ge. exact Hc.
Qed.

Lemma to_uchar_byte (x : Z) : 0 <= to_uchar x < 256.
Proof. unfold to_uchar. rewrite land_255. apply Z.mod_pos_bound. lia. Qed.

(** The decoding loop raises nothing but [binascii.Error], and what it
    returns are bytes. *)
Lemma a2b_base64_loop_inv (s : list Z) : forall q l p,
  match a2b_base64_loop q l p s with
  | Ok bs => Forall (fun b => 0 <= b < 256) bs
  | Raise e => e = binascii_Error
  end.
Proof.
  induction s as [ | c s IH ]; intros q l p; cbn [a2b_base64_loop].
  - destruct (q =? 0); [constructor | reflexivity].
  - assert (Hcons : forall x q' l' p',
              match res_cons (to_uchar x) (a2b_base64_loop q' l' p' s) with
              | Ok bs => Forall (fun b => 0 <= b < 256) bs
              | Raise e => e = binascii_Error
              end).
    { intros x q' l' p'. specialize (IH q' l' p').
      destruct (a2b_base64_loop q' l' p' s); cbn [res_cons res_bind];
        [ constructor; [apply to_uchar_byte | exact IH] | exact IH ]. }
    destruct (c =? BASE64_PAD).
    + destruct (2 <=? q); [ | apply IH ].
      destruct (4 <=? q + (p + 1)); [constructor | apply IH].
    + cbv zeta. destruct (64 <=? table_a2b_base64 c); [apply IH | ].
      destruct (q =? 0); [apply IH | ].
      destruct (q =? 1); [apply Hcons | ].
      destruct (q =? 2); apply Hcons.
Qed.

Lemma urlsafe_b64decode_inv (s : list Z) :
  match urlsafe_b64decode s with
  | Ok bs => Forall (fun c => c < 128) s /\ Forall (fun b => 0 <= b < 256) bs
  | Raise e =>
    (e = ValueError /\ exists c, In c s /\ 128 <= c) \/
    (e = binascii_Error /\ Forall (fun c => c < 128) s /\
     a2b_base64 (map urlsafe_decode_translation s) = Raise binascii_Error)
  end.
Proof.
  unfold urlsafe_b64decode.
  pose proof (bytes_from_decode_data_inv s) as Hdata.
  destruct (bytes_from_decode_data s) as [ b | e ]; cbn [res_bind].
  - destruct Hdata as [-> Hascii].
    pose proof (a2b_base64_loop_inv (map urlsafe_decode_translation s) 0 0 0) as Hloop.
    unfold a2b_base64.
    destruct (a2b_base64_loop 0 0 0 (map urlsafe_decode_translation s)) as [ bs | e ].
    + split; assumption.
    + right. subst e. split; [reflexivity | split; [exact Hascii | reflexivity] ].
  - left. exact Hdata.
Qed.

Lemma is_scalar_true (c : Z) :
  0 <= c <= 1114111 -> c < 55296 \/ 57343 < c -> is_scalar c = true.
Proof.
  intros Hc Hs. unfold is_scalar, is_code_point, is_surrogate.
  apply andb_true_intro. split.
  - apply andb_true_intro. split; apply Z.leb_le; lia.
  - apply negb_true_iff. apply andb_false_iff.
    destruct Hs; [left | right]; apply Z.leb_gt; lia.
Qed.

Lemma is_surrogate_false (c : Z) :
  c < 55296 \/ 57343 < c -> is_surrogate c = false.
Proof.
  intros Hs. unfold is_surrogate. apply andb_false_iff.
  destruct Hs; [left | right]; apply Z.leb_gt; lia.
Qed.

Lemma in_range_inv (lo hi b : Z) : in_range lo hi b = true -> lo <= b <= hi.
Proof.
  unfold in_range. intros H. apply andb_prop in H as [H1 H2].
  apply Z.leb_le in H1, H2. lia.
Qed.

(** One step of the argument below: a decoded character [c] whose UTF-8
    form is [cb], in front of a tail that satisfies the statement. *)
Lemma decode_step (c : Z) (cb t : list Z) :
  is_scalar c = true -> utf8_encode_char c = Ok cb ->
  match bytes_decode t with
  | Ok d => Forall (fun c => is_scalar c = true) d /\ str_encode d = Ok t
  | Raise e => e = UnicodeDecodeError
  end ->
  match res_cons c (bytes_decode t) with
  | Ok d => Forall (fun c => is_scalar c = true) d /\ str_encode d = Ok (cb ++ t)
  | Raise e => e = UnicodeDecodeError
  end.
Proof.
  intros Hc Henc IH. destruct (bytes_decode t) as [ d | e ]; cbn [res_cons res_bind].
  - destruct IH as [Hd Hs]. split; [constructor; assumption | ].
    cbn [str_encode]. rewrite Henc, Hs. reflexivity.
  - exact IH.
Qed.

(** The strict decoder raises nothing but [UnicodeDecodeError]; what it
    returns is text of Unicode scalar values whose UTF-8 encoding is the
    input, byte for byte. *)
Lemma bytes_decode_inv_bounded (n : nat) : forall bs,
  (length bs <= n)%nat -> Forall (fun b => 0 <= b < 256) bs ->
  match bytes_decode bs with
  | Ok d => Forall (fun c => is_scalar c = true) d /\ str_encode d = Ok bs
  | Raise e => e = UnicodeDecodeError
  end.
Proof.
  induction n as [ | n IH ]; intros bs Hlen Hbytes.
  { destruct bs; [ | cbn in Hlen; lia ]. split; [constructor | reflexivity]. }
  destruct bs as [ | b0 t0 ]; [split; [constructor | reflexivity] | ].
  cbn [length] in Hlen.
  apply Forall_cons in Hbytes as [Hb0 Ht0].
  destruct (Z.lt_ge_cases b0 128) as [H1 | H1].
  { rewrite bytes_decode_1 by lia.
    apply (decode_step b0 [b0] t0).
    - apply is_scalar_true; lia.
    - apply utf8_encode_char_1; lia.
    - apply IH; [lia | exact Ht0]. }
  destruct (Z.lt_ge_cases b0 194) as [H2 | H2].
  { rewrite bytes_decode_bad_lead by lia. reflexivity. }
  destruct (Z.lt_ge_cases b0 224) as [H3 | H3].
  { destruct t0 as [ | b1 t1 ].
    { cbn [bytes_decode].
      rewrite (ltb_false_of b0 128), (ltb_false_of b0 194), (ltb_true_of b0 224) by lia.
      reflexivity. }
    destruct (is_continuation b1) eqn:Hc1.
    - apply in_range_inv in Hc1.
      rewrite bytes_decode_2 by lia.
      apply Forall_cons in Ht0 as [Hb1 Ht1]. cbn [length] in Hlen.
      apply (decode_step _ [b0; b1] t1).
      + apply is_scalar_true; lia.
      + rewrite utf8_encode_char_2 by lia.
        do 2 f_equal; [divmod | f_equal; divmod].
      + apply IH; [lia | exact Ht1].
    - cbn [bytes_decode].
      rewrite (ltb_false_of b0 128), (ltb_false_of b0 194), (ltb_true_of b0 224), Hc1
        by lia.
      reflexivity. }
  destruct (Z.lt_ge_cases b0 240) as [H4 | H4].
  { destruct t0 as [ | b1 [ | b2 t2 ] ];
      try (cbn [bytes_decode];
           rewrite (ltb_false_of b0 128), (ltb_false_of b0 194),
             (ltb_false_of b0 224), (ltb_true_of b0 240) by lia;
           reflexivity).
    destruct (in_range (if b0 =? 224 then 160 else 128)
                       (if b0 =? 237 then 159 else 191) b1
              && is_continuation b2) eqn:Hc.
    - apply andb_prop in Hc as [Hc1 Hc2].
      apply in_range_inv in Hc1, Hc2.
      assert (Hlo : b0 = 224 -> 160 <= b1)
        by (intros ->; cbn in Hc1; lia).
      assert (Hhi : b0 = 237 -> b1 <= 159)
        by (intros ->; cbn in Hc1; lia).
      assert (Hb1 : 128 <= b1 <= 191)
        by (destruct (b0 =? 224), (b0 =? 237); lia).
      rewrite bytes_decode_3 by (assumption || lia).
      apply Forall_cons in Ht0 as [_ Ht1]. apply Forall_cons in Ht1 as [_ Ht2].
      cbn [length] in Hlen.
      assert (Hsur : (b0 - 224) * 4096 + (b1 - 128) * 64 + (b2 - 128) < 55296 \/
                     57343 < (b0 - 224) * 4096 + (b1 - 128) * 64 + (b2 - 128)) by lia.
      apply (decode_step _ [b0; b1; b2] t2).
      + apply is_scalar_true; lia.
      + rewrite utf8_encode_char_3 by (try apply is_surrogate_false; lia).
        do 2 f_equal; [divmod | f_equal; [divmod | f_equal; divmod] ].
      + apply IH; [lia | exact Ht2].
    - cbn [bytes_decode].
      rewrite (ltb_false_of b0 128), (ltb_false_of b0 194), (ltb_false_of b0 224),
        (ltb_true_of b0 240), Hc by lia.
      reflexivity. }
  destruct (Z.lt_ge_cases b0 245) as [H5 | H5].
  { destruct t0 as [ | b1 [ | b2 [ | b3 t3 ] ] ];
      try (cbn [bytes_decode];
           rewrite (ltb_false_of b0 128), (ltb_false_of b0 194),
             (ltb_false_of b0 224), (ltb_false_of b0 240), (ltb_true_of b0 245) by lia;
           reflexivity).
    destruct (in_range (if b0 =? 240 then 144 else 128)
                       (if b0 =? 244 then 143 else 191) b1
              && is_continuation b2 && is_continuation b3) eqn:Hc.
    - apply andb_prop in Hc as [Hc Hc3]. apply andb_prop in Hc as [Hc1 Hc2].
      apply in_range_inv in Hc1, Hc2, Hc3.
      assert (Hlo : b0 = 240 -> 144 <= b1)
        by (intros ->; cbn in Hc1; lia).
      assert (Hhi : b0 = 244 -> b1 <= 143)
        by (intros ->; cbn in Hc1; lia).
      assert (Hb1 : 128 <= b1 <= 191)
        by (destruct (b0 =? 240), (b0 =? 244); lia).
      rewrite bytes_decode_4 by (assumption || lia).
      apply Forall_cons in Ht0 as [_ Ht1]. apply Forall_cons in Ht1 as [_ Ht2].
      apply Forall_cons in Ht2 as [_ Ht3].
      cbn [length] in Hlen.
      apply (decode_step _ [b0; b1; b2; b3] t3).
      + apply is_scalar_true; lia.
      + rewrite utf8_encode_char_4 by lia.
        do 2 f_equal; [divmod | f_equal; [divmod | f_equal; [divmod | f_equal; divmod] ] ].
      + apply IH; [lia | exact Ht3].
    - cbn [bytes_decode].
      rewrite (ltb_false_of b0 128), (ltb_false_of b0 194), (ltb_false_of b0 224),
        (ltb_false_of b0 240), (ltb_true_of b0 245), Hc by lia.
      reflexivity. }
  rewrite bytes_decode_bad_lead by lia. reflexivity.
Qed.

Lemma bytes_decode_inv (bs : list Z) :
  Forall (fun b => 0 <= b < 256) bs ->
  match bytes_decode bs with
  | Ok d => Forall (fun c => is_scalar c = true) d /\ str_encode d = Ok bs
  | Raise e => e = UnicodeDecodeError
  end.
Proof. apply (bytes_decode_inv_bounded (length bs)). lia. Qed.

(** C6. [_is_base64_encoded_unified_file_id] is total and never raises.
    The input is padded with the fewest [=] that bring its length to a
    multiple of four, and on every input the function answers as follows.
    - Each exception of the [try] body is answered with [False]: the
      [ValueError] of [urlsafe_b64decode] for a character outside ASCII,
      its [binascii.Error] for base64 text that ends inside a group, and
      the [UnicodeDecodeError] of [decode] for bytes that are not UTF-8;
      the body raises nothing else.
    - When the padded input decodes, the decoded text consists of Unicode
      scalar values and its UTF-8 encoding is the decoded bytes; the answer
      is that text if it starts with the sentinel prefix, else [False].
    - So the answer is a string [d] exactly when the padded input
      URL-safe-base64-decodes to the UTF-8 form of [d] and [d] starts with
      the prefix.
    - The empty string gives [False].
    The sentinel prefix is not empty. *)
Theorem is_base64_encoded_total (prefix b64_uid : list Z) :
  prefix <> [] ->
  exists k : nat,
    (k < 4)%nat /\ ((length b64_uid + k) mod 4 = 0)%nat /\
    let padded := b64_uid ++ repeat BASE64_PAD k in
    let answer := _is_base64_encoded_unified_file_id prefix b64_uid in
    ((exists c, In c b64_uid /\ 128 <= c) ->
       urlsafe_b64decode padded = Raise ValueError /\ answer = PyFalse) /\
    (forall e, urlsafe_b64decode padded = Raise e ->
       answer = PyFalse /\
       ((e = ValueError /\ exists c, In c b64_uid /\ 128 <= c) \/
        (e = binascii_Error /\ Forall (fun c => c < 128) b64_uid /\
         a2b_base64 (map urlsafe_decode_translation padded)
         = Raise binascii_Error))) /\
    (forall bs e, urlsafe_b64decode padded = Ok bs -> bytes_decode bs = Raise e ->
       answer = PyFalse /\ e = UnicodeDecodeError) /\
    (forall bs d, urlsafe_b64decode padded = Ok bs -> bytes_decode bs = Ok d ->
       Forall (fun c => is_scalar c = true) d /\ str_encode d = Ok bs /\
       answer = if startswith d prefix then PyStr d else PyFalse) /\
    (forall d, answer = PyStr d <->
       exists bs, urlsafe_b64decode padded = Ok bs /\ bytes_decode bs = Ok d /\
                  str_encode d = Ok bs /\ startswith d prefix = true) /\
    _is_base64_encoded_unified_file_id prefix [] = PyFalse.
Proof.
  intros Hne.
  destruct (add_padding_explicit b64_uid) as (k & Hk & Hmod & Hpad).
  exists k. split; [exact Hk | split; [exact Hmod | ] ]. cbv zeta.
  unfold _is_base64_encoded_unified_file_id. cbv zeta. rewrite Hpad.
  set (padded := b64_uid ++ repeat BASE64_PAD k).
  pose proof (urlsafe_b64decode_inv padded) as Hb64.
  assert (Hin : forall c, In c padded -> 128 <= c -> In c b64_uid).
  { intros c Hc Hhi. apply in_app_or in Hc as [Hc | Hc]; [exact Hc | ].
    apply repeat_spec in Hc. unfold BASE64_PAD in Hc. lia. }
  assert (Hascii : Forall (fun c => c < 128) padded ->
                   Forall (fun c => c < 128) b64_uid).
  { intros H. apply Forall_app in H as [H _]. exact H. }
  assert (Hnot : Forall (fun c => c < 128) padded ->
                 (exists c, In c b64_uid /\ 128 <= c) -> False).
  { intros Hall (c & Hc & Hhi). apply Hascii in Hall.
    rewrite List.Forall_forall in Hall. specialize (Hall c Hc). lia. }
  assert (Hempty : forall p : list Z, p <> [] ->
            match res_bind (urlsafe_b64decode (add_padding []))
                    bytes_decode with
            | Ok decoded => if startswith decoded p then PyStr decoded else PyFalse
            | Raise _ => PyFalse
            end = PyFalse).
  { intros p Hp. destruct p; [contradiction | reflexivity]. }
  destruct (urlsafe_b64decode padded) as [ bs | e ]; cbn [res_bind].
  - destruct Hb64 as [Hall Hbytes].
    pose proof (bytes_decode_inv bs Hbytes) as Hdec.
    split; [ | split; [ | split; [ | split; [ | split ] ] ] ].
    + intros Hex. exfalso. exact (Hnot Hall Hex).
    + intros e' He'. discriminate He'.
    + intros bs' e' Hbs' He'.
      assert (bs' = bs) by congruence. subst bs'.
      rewrite He' in Hdec |- *. split; [reflexivity | exact Hdec].
    + intros bs' d Hbs' Hd.
      assert (bs' = bs) by congruence. subst bs'.
      rewrite Hd in Hdec |- *. destruct Hdec as [Hscalar Henc].
      split; [exact Hscalar | split; [exact Henc | reflexivity] ].
    + intros d. destruct (bytes_decode bs) as [ d' | e' ] eqn:Hbd.
      * destruct Hdec as [_ Henc]. split.
        -- destruct (startswith d' prefix) eqn:Hsw; [ | discriminate ].
           intros Hd. assert (d' = d) by congruence. subst d'.
           exists bs. repeat split; assumption.
        -- intros (bs' & Hbs' & Hd & _ & Hsw).
           assert (d' = d) by congruence. subst d'. rewrite Hsw. reflexivity.
      * split; [discriminate | ]. intros (bs' & Hbs' & Hd & _). congruence.
    + exact (Hempty prefix Hne).
  - split; [ | split; [ | split; [ | split; [ | split ] ] ] ].
    + intros Hex. split; [ | reflexivity ].
      destruct Hb64 as [ [-> _] | (_ & Hall & _) ]; [reflexivity | ].
      exfalso. exact (Hnot Hall Hex).
    + intros e' He'. assert (e' = e) by congruence. subst e'.
      split; [reflexivity | ].
      destruct Hb64 as [ [-> (c & Hc & Hhi)] | (-> & Hall & Hloop) ].
      * left. split; [reflexivity | ]. exists c. split; [ | exact Hhi ].
        exact (Hin c Hc Hhi).
      * right. split; [reflexivity | split; [exact (Hascii Hall) | exact Hloop] ].
    + intros bs e' Hbs. discriminate Hbs.
    + intros bs d Hbs. discriminate Hbs.
    + intros d. split; [discriminate | ]. intros (bs & Hbs & _). discriminate Hbs.
    + exact (Hempty prefix Hne).
Qed.

(** The instance at ["gA"]: two [=] are added, the padded text decodes to
    the single byte 0x80, which is not UTF-8, and [decode] raises. *)
Lemma is_base64_encoded_total_witness :
  litellm_proxy <> [] /\
  (urlsafe_b64decode (py "gA" ++ repeat BASE64_PAD 2) = Ok [128] /\
   bytes_decode [128] = Raise UnicodeDecodeError) /\
  exists k : nat,
    (k < 4)%nat /\ ((length (py "gA") + k) mod 4 = 0)%nat /\
    let padded := py "gA" ++ repeat BASE64_PAD k in
    let answer := _is_base64_encoded_unified_file_id litellm_proxy (py "gA") in
    ((exists c, In c (py "gA") /\ 128 <= c) ->
       urlsafe_b64decode padded = Raise ValueError /\ answer = PyFalse) /\
    (forall e, urlsafe_b64decode padded = Raise e ->
       answer = PyFalse /\
       ((e = ValueError /\ exists c, In c (py "gA") /\ 128 <= c) \/
        (e = binascii_Error /\ Forall (fun c => c < 128) (py "gA") /\
         a2b_base64 (map urlsafe_decode_translation padded)
         = Raise binascii_Error))) /\
    (forall bs e, urlsafe_b64decode padded = Ok bs -> bytes_decode bs = Raise e ->
       answer = PyFalse /\ e = UnicodeDecodeError) /\
    (forall bs d, urlsafe_b64decode padded = Ok bs -> bytes_decode bs = Ok d ->
       Forall (fun c => is_scalar c = true) d /\ str_encode d = Ok bs /\
       answer = if startswith d litellm_proxy then PyStr d else PyFalse) /\
    (forall d, answer = PyStr d <->
       exists bs, urlsafe_b64decode padded = Ok bs /\ bytes_decode bs = Ok d /\
                  str_encode d = Ok bs /\ startswith d litellm_proxy = true) /\
    _is_base64_encoded_unified_file_id litellm_proxy [] = PyFalse.
Proof.
  split; [vm_compute; discriminate | split ].
  - split; vm_compute; reflexivity.
  - apply (is_base64_encoded_total litellm_proxy (py "gA")).
    vm_compute. discriminate.
Defined.

(** Each way through the function, on an input that takes it. *)
Example is_base64_encoded_non_ascii :
  urlsafe_b64decode (add_padding [233]) = Raise ValueError /\
  _is_base64_encoded_unified_file_id litellm_proxy [233] = PyFalse.
Proof. split; vm_compute; reflexivity. Qed.

Example is_base64_encoded_cut_short :
  add_padding (py "a") = py "a===" /\
  urlsafe_b64decode (py "a===") = Raise binascii_Error /\
  _is_base64_encoded_unified_file_id litellm_proxy (py "a") = PyFalse.
Proof. repeat split; vm_compute; reflexivity. Qed.

Example is_base64_encoded_not_utf8 :
  add_padding (py "gA") = py "gA==" /\
  res_bind (urlsafe_b64decode (py "gA==")) bytes_decode = Raise UnicodeDecodeError /\
  _is_base64_encoded_unified_file_id litellm_proxy (py "gA") = PyFalse.
Proof. repeat split; vm_compute; reflexivity. Qed.

Example is_base64_encoded_other_text :
  res_bind (urlsafe_b64decode (add_padding (py "YWJj"))) bytes_decode = Ok (py "abc") /\
  _is_base64_encoded_unified_file_id litellm_proxy (py "YWJj") = PyFalse.
Proof. split; vm_compute; reflexivity. Qed.

(** The identifier of a token has lost its padding: decoded as it stands it
    raises, and it is the padding put back that makes it decode. *)
Example is_base64_encoded_needs_padding :
  length b64_abc = 59%nat /\
  urlsafe_b64decode b64_abc = Raise binascii_Error /\
  add_padding b64_abc = b64_abc ++ [BASE64_PAD] /\
  _is_base64_encoded_unified_file_id litellm_proxy b64_abc = PyStr token_abc.
Proof. repeat split; vm_compute; reflexivity. Qed.

(** ** The object store *)

Lemma get_unified_file_id_run (U : list Z) (w : world) :
  get_unified_file_id U w =
    (Ok (default CNone (cache w !! (py "litellm_proxy/" ++ U))),
     {| cache := cache w; reads := reads w ++ [py "litellm_proxy/" ++ U];
        calls := calls w |}).
Proof. reflexivity. Qed.

Lemma delete_unified_file_id_run (U : list Z) (w : world) :
  delete_unified_file_id U w =
    let key := py "litellm_proxy/" ++ U in
    match default CNone (cache w !! key) with
    | CFile f =>
      (Ok f, {| cache := <[key := CNone]> (cache w);
                reads := reads w ++ [key]; calls := calls w |})
    | _ =>
      (Raise (NotFound U),
       {| cache := cache w; reads := reads w ++ [key]; calls := calls w |})
    end.
Proof.
  unfold delete_unified_file_id, bind, async_get_cache. cbv zeta.
  destruct (default CNone (cache w !! (py "litellm_proxy/" ++ U)));
    reflexivity.
Qed.

Lemma delete_object_entry_run (U : list Z) (w : world) :
  delete_object_entry U w = delete_unified_file_id U w.
Proof.
  unfold delete_object_entry, bind.
  destruct (delete_unified_file_id U w) as [ [ f | e ] w' ]; reflexivity.
Qed.

(** C9. The unified-object store: after [store_unified_file_id(U, V)] a
    [get_unified_file_id(U)] returns [V]; [delete_unified_file_id(U)]
    returns the value stored immediately before the deletion and fails
    with NotFound when no file object is present; after a successful
    delete, a get returns empty and a second delete fails with NotFound. *)
Theorem unified_object_store (U : list Z) (V : OpenAIFileObject) (w : world) :
  let w1 := snd (store_unified_file_id U V w) in
  fst (get_unified_file_id U w1) = Ok (CFile V) /\
  fst (delete_unified_file_id U w1) = Ok V /\
  (forall f, fst (get_unified_file_id U w) = Ok (CFile f) ->
             fst (delete_unified_file_id U w) = Ok f) /\
  ((forall f, fst (get_unified_file_id U w) <> Ok (CFile f)) ->
   fst (delete_unified_file_id U w) = Raise (NotFound U)) /\
  (forall f w', delete_unified_file_id U w = (Ok f, w') ->
     fst (get_unified_file_id U w') = Ok CNone /\
     fst (delete_unified_file_id U w') = Raise (NotFound U)).
Proof.
  cbv zeta. rewrite !get_unified_file_id_run, !delete_unified_file_id_run.
  cbv zeta. unfold store_unified_file_id, async_set_cache. cbn [fst snd cache].
  rewrite lookup_insert_eq. cbn [default fst].
  split; [reflexivity | split; [reflexivity | split; [ | split ] ] ].
  - intros f Hf.
    assert (Hf' : default CNone (cache w !! (py "litellm_proxy/" ++ U)) = CFile f)
      by congruence.
    rewrite Hf'. reflexivity.
  - intros Hno.
    destruct (default CNone (cache w !! (py "litellm_proxy/" ++ U))) as [ | f | d ];
      try reflexivity.
    exfalso. apply (Hno f). reflexivity.
  - intros f w' Hdel.
    destruct (default CNone (cache w !! (py "litellm_proxy/" ++ U))) as [ | f0 | d ];
      try discriminate.
    assert (Hw' : w' = {| cache := <[py "litellm_proxy/" ++ U := CNone]> (cache w);
                          reads := reads w ++ [py "litellm_proxy/" ++ U];
                          calls := calls w |}) by congruence.
    subst w'.
    rewrite !get_unified_file_id_run, !delete_unified_file_id_run.
    cbv zeta. cbn [cache]. rewrite lookup_insert_eq. split; reflexivity.
Qed.

Lemma unified_object_store_witness :
  let U := py "file-1" in
  let V := {| fo_id := py "file-1"; fo_object := py "file";
              fo_purpose := py "user_data"; fo_created_at := 0;
              fo_bytes := 3; fo_filename := py "a.txt";
              fo_status := py "uploaded"; fo_model_id := None |} in
  let w := {| cache := ∅; reads := []; calls := [] |} in
  let w1 := snd (store_unified_file_id U V w) in
  fst (get_unified_file_id U w1) = Ok (CFile V) /\
  fst (delete_unified_file_id U w1) = Ok V.
Proof.
  intros U V w.
  pose proof (unified_object_store U V w) as (Hget & Hdel & _).
  split; assumption.
Defined.

(** ** Resolving the backend mapping *)

Lemma is_base64_truthy_prefixed (prefix x s : list Z) :
  _is_base64_encoded_unified_file_id prefix x = PyStr s ->
  startswith s prefix = true.
Proof. intros H. apply is_base64_PyStr_inv in H as (bs & _ & _ & H). exact H. Qed.

(** A normalized identifier is not decoded a second time. *)
Lemma normalized_not_decodable (prefix x : list Z) :
  prefix_not_base64_text prefix = true ->
  truthy (_is_base64_encoded_unified_file_id prefix
            (convert_b64_uid_to_unified_uid prefix x)) = false.
Proof.
  intros Hp. unfold convert_b64_uid_to_unified_uid. cbv zeta.
  destruct (_is_base64_encoded_unified_file_id prefix x) as [ s | ] eqn:Hx.
  - destruct (str_truthy s) eqn:Hs.
    + rewrite (prefixed_not_decodable prefix prefix s Hp
                 (is_base64_truthy_prefixed _ _ _ Hx)).
      reflexivity.
    + rewrite Hx. exact Hs.
  - rewrite Hx. reflexivity.
Qed.

Lemma collect_managed_cons (prefix fid : list Z) (rest : list (list Z)) :
  truthy (_is_base64_encoded_unified_file_id prefix fid) = false ->
  collect_managed_file_ids prefix (fid :: rest) =
    if startswith fid prefix
    then fid :: collect_managed_file_ids prefix rest
    else collect_managed_file_ids prefix rest.
Proof.
  intros H. cbn [collect_managed_file_ids]. cbv zeta.
  destruct (_is_base64_encoded_unified_file_id prefix fid) as [ [ | c s ] | ];
    try reflexivity.
  discriminate.
Qed.

Lemma collect_managed_normalized (prefix : list Z) (xs : list (list Z)) :
  prefix_not_base64_text prefix = true ->
  collect_managed_file_ids prefix
    (map (convert_b64_uid_to_unified_uid prefix) xs)
  = List.filter (fun U => startswith U prefix)
      (map (convert_b64_uid_to_unified_uid prefix) xs).
Proof.
  intros Hp. induction xs as [ | x xs IH ]; [reflexivity | ].
  cbn [map List.filter].
  rewrite collect_managed_cons by (apply normalized_not_decodable; exact Hp).
  rewrite IH. reflexivity.
Qed.

Lemma lookup_managed_run (ids : list (list Z)) (m : list (list Z * cache_value))
    (w : world) :
  lookup_managed_file_ids ids m w =
    (Ok (fold_left (resolve_step w) ids m),
     {| cache := cache w; reads := reads w ++ ids; calls := calls w |}).
Proof.
  revert m w. induction ids as [ | fid ids IH ]; intros m w.
  - cbn. rewrite app_nil_r. destruct w; reflexivity.
  - cbn [lookup_managed_file_ids fold_left].
    unfold bind, async_get_cache. rewrite IH. cbn [cache reads calls].
    rewrite <- app_assoc. reflexivity.
Qed.

Lemma get_mapping_normalized (prefix x : list Z) (w : world) :
  prefix_not_base64_text prefix = true ->
  let U := convert_b64_uid_to_unified_uid prefix x in
  let v := default CNone (cache w !! U) in
  get_model_file_id_mapping prefix [U] w =
    if startswith U prefix
    then (Ok (if cache_truthy v then [(U, v)] else []),
          {| cache := cache w; reads := reads w ++ [U]; calls := calls w |})
    else (Ok [], {| cache := cache w; reads := reads w ++ [];
                    calls := calls w |}).
Proof.
  intros Hp U v. unfold get_model_file_id_mapping. cbv zeta.
  pose proof (collect_managed_normalized prefix [x] Hp) as Hc.
  cbn [map List.filter] in Hc. fold U in Hc. rewrite Hc.
  destruct (startswith U prefix); rewrite lookup_managed_run; [ | reflexivity ].
  cbn [fold_left]. unfold resolve_step. fold v.
  destruct (cache_truthy v); reflexivity.
Qed.

(** ** The fan-out of [afile_delete] *)

Section DeleteFanOut.

Variable router : list call -> list Z -> list Z -> option (list Z).

Lemma deletes_succeed_tail cs item items j :
  deletes_succeed router cs (item :: items) (S j) ->
  deletes_succeed router (cs ++ [delete_call_of item]) items j.
Proof.
  intros H i model fid Hi Hlk.
  rewrite <- app_assoc. apply (H (S i) model fid); [lia | exact Hlk].
Qed.

Lemma deletes_succeed_head cs model fid items j :
  deletes_succeed router cs ((model, fid) :: items) (S j) ->
  router cs model fid = None.
Proof.
  intros H. specialize (H 0%nat model fid ltac:(lia) eq_refl).
  cbn [firstn map] in H. rewrite app_nil_r in H. exact H.
Qed.

Lemma last_cons_default {A : Type} (x d : A) (l : list A) :
  List.last (x :: l) d = List.last l x.
Proof.
  revert x d. induction l as [ | y l IH ]; intros x d; [reflexivity | ].
  change (List.last (x :: y :: l) d) with (List.last (y :: l) d).
  rewrite (IH y d), (IH y x). reflexivity.
Qed.

Lemma afile_delete_loop_ok (items : list (list Z * list Z)) (fid0 : list Z)
    (w : world) :
  deletes_succeed router (calls w) items (length items) ->
  afile_delete_loop router items fid0 w =
    (Ok (List.last (map snd items) fid0),
     {| cache := cache w; reads := reads w;
        calls := calls w ++ map delete_call_of items |}).
Proof.
  revert fid0 w. induction items as [ | [model fid] items IH ]; intros fid0 w H.
  - cbn. rewrite app_nil_r. destruct w; reflexivity.
  - cbn [afile_delete_loop]. unfold bind at 1. unfold llm_router_afile_delete.
    rewrite (deletes_succeed_head _ _ _ _ _ H).
    cbv zeta. rewrite IH.
    + cbn [cache reads calls map]. rewrite <- app_assoc.
      rewrite last_cons_default. reflexivity.
    + cbn [calls]. apply (deletes_succeed_tail _ (model, fid)). exact H.
Qed.

Lemma afile_delete_loop_fail (items : list (list Z * list Z)) (fid0 : list Z)
    (w : world) (j : nat) (model fid msg : list Z) :
  items !! j = Some (model, fid) ->
  deletes_succeed router (calls w) items j ->
  router (calls w ++ map delete_call_of (firstn j items)) model fid = Some msg ->
  afile_delete_loop router items fid0 w =
    (Raise (RouterError msg),
     {| cache := cache w; reads := reads w;
        calls := calls w ++ map delete_call_of (firstn (S j) items) |}).
Proof.
  revert fid0 w j.
  induction items as [ | [model0 fid1] items IH ]; intros fid0 w j Hj Hok Hfail.
  - discriminate.
  - cbn [afile_delete_loop]. unfold bind at 1. unfold llm_router_afile_delete.
    destruct j as [ | j ].
    + injection Hj as -> ->. cbn [firstn map] in Hfail.
      rewrite app_nil_r in Hfail. rewrite Hfail. reflexivity.
    + rewrite (deletes_succeed_head _ _ _ _ _ Hok).
      cbv zeta. rewrite (IH fid1 _ j Hj).
      * cbn [cache reads calls firstn map]. rewrite <- app_assoc. reflexivity.
      * cbn [calls]. apply (deletes_succeed_tail _ (model0, fid1)). exact Hok.
      * cbn [calls]. rewrite <- app_assoc. exact Hfail.
Qed.

End DeleteFanOut.

Lemma dict_get_singleton {V : Type} (k : list Z) (v : V) :
  dict_get [(k, v)] k = Some v.
Proof. cbn [dict_get]. destruct (decide (k = k)); [reflexivity | contradiction]. Qed.

(** What [afile_delete] does once a backend mapping is found: the loop,
    then the delete of the object entry under the loop's last value of
    [file_id]. *)
Lemma afile_delete_found (prefix : list Z)
    (router : list call -> list Z -> list Z -> option (list Z))
    (x : list Z) (w : world) (items : list (list Z * list Z)) :
  prefix_not_base64_text prefix = true ->
  let U := convert_b64_uid_to_unified_uid prefix x in
  startswith U prefix = true ->
  cache w !! U = Some (CDict items) -> items <> [] ->
  afile_delete prefix router x w =
    bind (afile_delete_loop router items U)
         (fun file_id => delete_object_entry file_id)
         {| cache := cache w; reads := reads w ++ [U]; calls := calls w |}.
Proof.
  intros Hp U Hsw Hc Hne. unfold afile_delete. cbv zeta. fold U.
  unfold bind at 1. unfold U at 1. rewrite get_mapping_normalized by exact Hp.
  cbv zeta. fold U. rewrite Hsw, Hc. cbn [default from_option id].
  destruct items as [ | item items ]; [contradiction | ].
  cbn [cache_truthy]. rewrite dict_get_singleton. reflexivity.
Qed.

(** C2, as amended. In [afile_delete], when a backend mapping exists for
    the normalized identifier, the backend deletes are issued through the
    router in mapping order for as long as they succeed: if none fails,
    every entry's delete is issued; the first failure propagates out of
    [afile_delete] as raised, the remaining entries' deletes are not
    attempted and the cache is left as it was. *)
Theorem afile_delete_fan_out (prefix : list Z)
    (router : list call -> list Z -> list Z -> option (list Z))
    (x : list Z) (w : world) (items : list (list Z * list Z)) :
  prefix_not_base64_text prefix = true ->
  let U := convert_b64_uid_to_unified_uid prefix x in
  startswith U prefix = true ->
  cache w !! U = Some (CDict items) -> items <> [] ->
  let r := afile_delete prefix router x w in
  (deletes_succeed router (calls w) items (length items) ->
   calls (snd r) = calls w ++ map delete_call_of items) /\
  (forall j model fid msg,
     items !! j = Some (model, fid) ->
     deletes_succeed router (calls w) items j ->
     router (calls w ++ map delete_call_of (firstn j items)) model fid
       = Some msg ->
     fst r = Raise (RouterError msg) /\
     calls (snd r) = calls w ++ map delete_call_of (firstn (S j) items) /\
     cache (snd r) = cache w).
Proof.
  intros Hp U Hsw Hc Hne r. subst r.
  rewrite (afile_delete_found prefix router x w items Hp Hsw Hc Hne).
  fold U. split.
  - intros Hok. unfold bind at 1.
    rewrite afile_delete_loop_ok by exact Hok.
    unfold bind. rewrite delete_object_entry_run, delete_unified_file_id_run. cbv zeta.
    cbn [cache reads calls].
    destruct (default CNone _) as [ | f | d ]; reflexivity.
  - intros j model fid msg Hj Hok Hfail.
    pose proof (afile_delete_loop_fail router items U
                  {| cache := cache w; reads := reads w ++ [U];
                     calls := calls w |}
                  j model fid msg Hj Hok Hfail) as Hloop.
    assert (Hrun :
      bind (afile_delete_loop router items U)
           (fun file_id => delete_object_entry file_id)
           {| cache := cache w; reads := reads w ++ [U]; calls := calls w |}
      = (Raise (RouterError msg),
         {| cache := cache w; reads := reads w ++ [U];
            calls := calls w ++ map delete_call_of (firstn (S j) items) |})).
    { unfold bind. rewrite Hloop. reflexivity. }
    rewrite Hrun. split; [ | split ]; reflexivity.
Qed.

(** ** Concrete runs *)

Lemma afile_delete_fan_out_witness :
  let r := afile_delete litellm_proxy (router_delete_fails_on (py "a"))
             token_abc world_two_backends in
  let items := [(py "a", py "file-a"); (py "b", py "file-b")] in
  (deletes_succeed (router_delete_fails_on (py "a")) [] items (length items) ->
   calls (snd r) = [] ++ map delete_call_of items) /\
  (forall j model fid msg,
     items !! j = Some (model, fid) ->
     deletes_succeed (router_delete_fails_on (py "a")) [] items j ->
     router_delete_fails_on (py "a")
       ([] ++ map delete_call_of (firstn j items)) model fid = Some msg ->
     fst r = Raise (RouterError msg) /\
     calls (snd r) = [] ++ map delete_call_of (firstn (S j) items) /\
     cache (snd r) = cache world_two_backends).
Proof.
  apply (afile_delete_fan_out litellm_proxy (router_delete_fails_on (py "a"))
           token_abc world_two_backends
           [(py "a", py "file-a"); (py "b", py "file-b")]).
  - vm_compute. reflexivity.
  - vm_compute. reflexivity.
  - vm_compute. reflexivity.
  - discriminate.
Defined.

(** C2, counterexample. A file on backends ["a"] and ["b"], the delete on
    ["a"] failing: the failure leaves [afile_delete] as raised, and no
    delete is attempted on ["b"]. *)
Lemma afile_delete_failure_stops_fan_out :
  let r := afile_delete litellm_proxy (router_delete_fails_on (py "a"))
             token_abc world_two_backends in
  fst r = Raise (RouterError (py "boom")) /\
  calls (snd r) = [DeleteCall (py "a") (py "file-a")] /\
  ~ In (DeleteCall (py "b") (py "file-b")) (calls (snd r)).
Proof.
  vm_compute. split; [reflexivity | split; [reflexivity | ] ].
  intros [H | []]. discriminate H.
Qed.

(** With a mapping found and every backend delete succeeding, the object
    entry [afile_delete] goes on to delete is the one named by the file id
    of the last backend. *)
Lemma afile_delete_object_key (prefix : list Z)
    (router : list call -> list Z -> list Z -> option (list Z))
    (x : list Z) (w : world) (items : list (list Z * list Z)) :
  prefix_not_base64_text prefix = true ->
  let U := convert_b64_uid_to_unified_uid prefix x in
  startswith U prefix = true ->
  cache w !! U = Some (CDict items) -> items <> [] ->
  deletes_succeed router (calls w) items (length items) ->
  afile_delete prefix router x w =
    delete_unified_file_id (List.last (map snd items) U)
      {| cache := cache w; reads := reads w ++ [U];
         calls := calls w ++ map delete_call_of items |}.
Proof.
  intros Hp U Hsw Hc Hne Hok.
  rewrite (afile_delete_found prefix router x w items Hp Hsw Hc Hne).
  fold U. unfold bind at 1.
  rewrite afile_delete_loop_ok by exact Hok.
  apply delete_object_entry_run.
Qed.

Example afile_delete_shadowed_file_id :
  let r := afile_delete litellm_proxy router_delete_ok token_abc
             world_two_backends in
  fst r = Raise (NotFound (py "file-b")) /\
  cache (snd r) !! (py "litellm_proxy/" ++ token_abc) = Some (CFile stored_abc).
Proof. vm_compute. split; reflexivity. Qed.

(** C3, the code at the failing input. After a create that stored object
    [X] for one backend entry (["gpt-a"], ["prov-123"]), the delete for
    [X] makes the one router call, then looks for the object under the
    backend's file id ["prov-123"] (the loop variable reuses the name
    [file_id]) and fails with NotFound; the stored object stays in the
    cache, under the key built from the identifier the client holds. *)
Theorem afile_delete_after_create :
  fst create_run = Ok created_object /\
  let r := afile_delete litellm_proxy router_delete_ok (fo_id created_object)
             (snd create_run) in
  fst r = Raise (NotFound (py "prov-123")) /\
  calls (snd r) = [DeleteCall (py "gpt-a") (py "prov-123")] /\
  cache (snd r) !! (py "litellm_proxy/" ++ fo_id created_object)
    = Some (CFile created_object) /\
  last (reads (snd r)) = Some (py "litellm_proxy/" ++ py "prov-123").
Proof. vm_compute. repeat split; reflexivity. Qed.

(** ** Which cache keys the facade reads *)

Lemma afile_delete_loop_frame
    (router : list call -> list Z -> list Z -> option (list Z))
    (items : list (list Z * list Z)) (fid0 : list Z) (w : world) :
  cache (snd (afile_delete_loop router items fid0 w)) = cache w /\
  reads (snd (afile_delete_loop router items fid0 w)) = reads w.
Proof.
  revert fid0 w. induction items as [ | [model fid] items IH ]; intros fid0 w.
  - split; reflexivity.
  - cbn [afile_delete_loop]. unfold bind, llm_router_afile_delete. cbv zeta.
    destruct (router (calls w) model fid) as [ msg | ].
    + split; reflexivity.
    + destruct (IH fid {| cache := cache w; reads := reads w;
                          calls := calls w ++ [DeleteCall model fid] |})
        as [Hc Hr].
      split; assumption.
Qed.

Lemma afile_content_loop_frame
    (router : list call -> list Z -> list Z -> list Z + list Z)
    (items ed : list (list Z * list Z)) (w : world) :
  cache (snd (afile_content_loop router items ed w)) = cache w /\
  reads (snd (afile_content_loop router items ed w)) = reads w.
Proof.
  revert ed w. induction items as [ | [model fid] items IH ]; intros ed w.
  - split; reflexivity.
  - cbn [afile_content_loop].
    unfold try_except, bind, llm_router_afile_content. cbv zeta.
    destruct (router (calls w) model fid) as [ content | msg ].
    + split; reflexivity.
    + destruct (IH (dict_set ed model (str_exn (RouterError msg)))
                  {| cache := cache w; reads := reads w;
                     calls := calls w ++ [ContentCall model fid] |})
        as [Hc Hr].
      split; assumption.
Qed.

(** The two operations after their mapping lookup, for a prefix that
    cannot read as base64 text. *)
Lemma afile_delete_unfold (prefix : list Z)
    (router : list call -> list Z -> list Z -> option (list Z))
    (x : list Z) (w : world) :
  prefix_not_base64_text prefix = true ->
  let U := convert_b64_uid_to_unified_uid prefix x in
  let v := default CNone (cache w !! U) in
  afile_delete prefix router x w =
    bind (match (if startswith U prefix && cache_truthy v
                 then Some v else None) with
          | Some (CDict ((_ :: _) as items)) => afile_delete_loop router items U
          | Some (CFile _) => raise AttributeError
          | _ => ret U
          end)
         (fun file_id => delete_object_entry file_id)
         {| cache := cache w;
            reads := reads w ++ (if startswith U prefix then [U] else []);
            calls := calls w |}.
Proof.
  intros Hp U v. unfold afile_delete. cbv zeta. fold U.
  unfold bind at 1. unfold U at 1.
  rewrite get_mapping_normalized by exact Hp. cbv zeta. fold U. fold v.
  destruct (startswith U prefix); cbn [andb]; [ | reflexivity ].
  destruct (cache_truthy v); [ | reflexivity ].
  rewrite dict_get_singleton. reflexivity.
Qed.

Lemma afile_content_unfold (prefix : list Z)
    (router : list call -> list Z -> list Z -> list Z + list Z)
    (x : list Z) (w : world) :
  prefix_not_base64_text prefix = true ->
  let U := convert_b64_uid_to_unified_uid prefix x in
  let v := default CNone (cache w !! U) in
  afile_content prefix router x w =
    (match (if startswith U prefix && cache_truthy v
            then Some v else None) with
     | Some (CDict ((_ :: _) as items)) =>
       bind (afile_content_loop router items [])
            (fun r => match r with
                      | inl content => ret content
                      | inr exception_dict =>
                        raise (NotFoundChecked x (dict_keys items)
                                 exception_dict)
                      end)
     | Some (CFile _) => raise AttributeError
     | _ => raise (NotFound x)
     end)
      {| cache := cache w;
         reads := reads w ++ (if startswith U prefix then [U] else []);
         calls := calls w |}.
Proof.
  intros Hp U v. unfold afile_content. cbv zeta. fold U.
  unfold bind at 1. unfold U at 1.
  rewrite get_mapping_normalized by exact Hp. cbv zeta. fold U. fold v.
  destruct (startswith U prefix); cbn [andb]; [ | reflexivity ].
  destruct (cache_truthy v); [ | reflexivity ].
  rewrite dict_get_singleton. reflexivity.
Qed.

Lemma afile_content_reads (prefix : list Z)
    (router : list call -> list Z -> list Z -> list Z + list Z)
    (x : list Z) (w : world) :
  prefix_not_base64_text prefix = true ->
  let U := convert_b64_uid_to_unified_uid prefix x in
  reads (snd (afile_content prefix router x w)) =
    reads w ++ (if startswith U prefix then [U] else []).
Proof.
  intros Hp U. rewrite afile_content_unfold by exact Hp. cbv zeta. fold U.
  destruct (startswith U prefix && cache_truthy _); [ | reflexivity ].
  destruct (default CNone (cache w !! U)) as [ | f | [ | item items ] ];
    try reflexivity.
  unfold bind.
  match goal with
  | |- context [afile_content_loop router ?it ?ed ?w1] =>
    pose proof (afile_content_loop_frame router it ed w1) as [_ Hr];
    destruct (afile_content_loop router it ed w1)
      as [ [ [ content | exception_dict ] | e ] w' ]
  end; cbn [snd reads] in *; exact Hr.
Qed.

Lemma afile_delete_reads (prefix : list Z)
    (router : list call -> list Z -> list Z -> option (list Z))
    (x : list Z) (w : world) :
  prefix_not_base64_text prefix = true ->
  let U := convert_b64_uid_to_unified_uid prefix x in
  let mapping_key := if startswith U prefix then [U] else [] in
  (exists rest,
     reads (snd (afile_delete prefix router x w)) =
       reads w ++ mapping_key ++ rest) /\
  (startswith U prefix = false \/
   cache_truthy (default CNone (cache w !! U)) = false ->
   reads (snd (afile_delete prefix router x w)) =
     reads w ++ mapping_key ++ [py "litellm_proxy/" ++ U]).
Proof.
  intros Hp U mapping_key. subst mapping_key.
  rewrite afile_delete_unfold by exact Hp. cbv zeta. fold U.
  assert (Hplain : forall w1 : world,
            reads (snd (bind (ret U) (fun file_id =>
                          delete_object_entry file_id) w1))
            = reads w1 ++ [py "litellm_proxy/" ++ U]).
  { intros w1. unfold bind, ret.
    rewrite delete_object_entry_run, delete_unified_file_id_run. cbv zeta.
    destruct (default CNone _); reflexivity. }
  destruct (startswith U prefix && cache_truthy _) eqn:Hfound.
  - apply andb_prop in Hfound as [Hsw Ht]. split.
    2:{ intros [H | H]; congruence. }
    destruct (default CNone (cache w !! U)) as [ | f | [ | item items ] ];
      try discriminate Ht.
    + exists []. rewrite app_nil_r. reflexivity.
    + unfold bind at 1.
      match goal with
      | |- context [afile_delete_loop router ?it ?f0 ?w1] =>
        pose proof (afile_delete_loop_frame router it f0 w1) as [_ Hr];
        destruct (afile_delete_loop router it f0 w1) as [ [ fid | e ] w' ]
      end; cbn [snd reads] in Hr.
      * unfold bind, ret.
    rewrite delete_object_entry_run, delete_unified_file_id_run. cbv zeta.
        exists [py "litellm_proxy/" ++ fid].
        destruct (default CNone _); cbn [snd reads]; rewrite Hr;
          rewrite <- app_assoc; reflexivity.
      * exists []. cbn [snd]. rewrite Hr, app_nil_r. reflexivity.
  - split; [eexists | intros _ ]; rewrite Hplain; cbn [reads];
      rewrite <- app_assoc; reflexivity.
Qed.

(** C1, as amended. [afile_delete] and [afile_content] first normalize the
    identifier: the key of their backend-mapping lookup is
    [convert_b64_uid_to_unified_uid(id)] (no lookup is made when that is
    not sentinel-prefixed), and when [afile_delete] finds no mapping the
    object entry it reads is the one keyed by the normalized identifier.
    [afile_retrieve] does not normalize: it reads the object entry keyed
    by the identifier as the caller gave it. *)
Theorem facade_lookup_identifier (prefix : list Z)
    (router_delete : list call -> list Z -> list Z -> option (list Z))
    (router_content : list call -> list Z -> list Z -> list Z + list Z)
    (x : list Z) (w : world) :
  prefix_not_base64_text prefix = true ->
  let U := convert_b64_uid_to_unified_uid prefix x in
  let mapping_key := if startswith U prefix then [U] else [] in
  reads (snd (afile_retrieve x w)) = reads w ++ [py "litellm_proxy/" ++ x] /\
  reads (snd (afile_content prefix router_content x w)) =
    reads w ++ mapping_key /\
  (exists rest,
     reads (snd (afile_delete prefix router_delete x w)) =
       reads w ++ mapping_key ++ rest) /\
  (startswith U prefix = false \/
   cache_truthy (default CNone (cache w !! U)) = false ->
   reads (snd (afile_delete prefix router_delete x w)) =
     reads w ++ mapping_key ++ [py "litellm_proxy/" ++ U]).
Proof.
  intros Hp U mapping_key. split; [ | split ].
  - unfold afile_retrieve, bind. rewrite get_unified_file_id_run.
    destruct (cache_truthy _); reflexivity.
  - apply afile_content_reads. exact Hp.
  - apply afile_delete_reads. exact Hp.
Qed.

Lemma facade_lookup_identifier_witness :
  let U := convert_b64_uid_to_unified_uid litellm_proxy b64_abc in
  let mapping_key := if startswith U litellm_proxy then [U] else [] in
  let w := world_two_backends in
  reads (snd (afile_retrieve b64_abc w)) =
    reads w ++ [py "litellm_proxy/" ++ b64_abc] /\
  reads (snd (afile_content litellm_proxy router_content_ok b64_abc w)) =
    reads w ++ mapping_key /\
  (exists rest,
     reads (snd (afile_delete litellm_proxy router_delete_ok b64_abc w)) =
       reads w ++ mapping_key ++ rest) /\
  (startswith U litellm_proxy = false \/
   cache_truthy (default CNone (cache w !! U)) = false ->
   reads (snd (afile_delete litellm_proxy router_delete_ok b64_abc w)) =
     reads w ++ mapping_key ++ [py "litellm_proxy/" ++ U]).
Proof.
  apply (facade_lookup_identifier litellm_proxy router_delete_ok
           router_content_ok b64_abc world_two_backends).
  vm_compute. reflexivity.
Defined.

(** C1, counterexample. The object of a file is stored under its token;
    [afile_retrieve] called with the base64 form of the token reads the
    key built from the base64 form itself, and fails, where the call with
    the token succeeds: the two forms do not behave identically. *)
Lemma afile_retrieve_not_normalized :
  convert_b64_uid_to_unified_uid litellm_proxy b64_abc = token_abc /\
  reads (snd (afile_retrieve b64_abc world_two_backends))
    = [py "litellm_proxy/" ++ b64_abc] /\
  reads (snd (afile_retrieve b64_abc world_two_backends))
    <> [py "litellm_proxy/" ++
        convert_b64_uid_to_unified_uid litellm_proxy b64_abc] /\
  fst (afile_retrieve b64_abc world_two_backends) = Raise (NotFound b64_abc) /\
  fst (afile_retrieve token_abc world_two_backends) = Ok (CFile stored_abc).
Proof.
  vm_compute. repeat split; try reflexivity. discriminate.
Qed.

(** ** The fan-out of [afile_content] *)

Lemma dict_set_fresh {V : Type} (d : list (list Z * V)) (k : list Z) (v : V) :
  k ∉ map fst d -> dict_set d k v = d ++ [(k, v)].
Proof.
  induction d as [ | [k' v'] d IH ]; intros Hk; [reflexivity | ].
  cbn [dict_set map fst] in *.
  destruct (decide (k' = k)) as [-> | Hne].
  - exfalso. apply Hk. left.
  - rewrite IH; [reflexivity | ].
    intros Hin. apply Hk. right. exact Hin.
Qed.

Section ContentFanOut.

Variable router : list call -> list Z -> list Z -> list Z + list Z.

Lemma afile_content_loop_first_success (items : list (list Z * list Z))
    (ed : list (list Z * list Z)) (w : world) (j : nat)
    (model fid content : list Z) :
  items !! j = Some (model, fid) ->
  contents_fail router (calls w) items j ->
  router (calls w ++ map content_call_of (firstn j items)) model fid
    = inl content ->
  afile_content_loop router items ed w =
    (Ok (inl content),
     {| cache := cache w; reads := reads w;
        calls := calls w ++ map content_call_of (firstn (S j) items) |}).
Proof.
  revert ed w j.
  induction items as [ | [model0 fid0] items IH ]; intros ed w j Hj Hfail Hok.
  - discriminate.
  - cbn [afile_content_loop].
    unfold try_except, bind, llm_router_afile_content. cbv zeta.
    destruct j as [ | j ].
    + injection Hj as -> ->. cbn [firstn map] in Hok.
      rewrite app_nil_r in Hok. rewrite Hok. reflexivity.
    + destruct (Hfail 0%nat model0 fid0 ltac:(lia) eq_refl) as [msg Hmsg].
      cbn [firstn map] in Hmsg. rewrite app_nil_r in Hmsg. rewrite Hmsg.
      rewrite (IH _ _ j Hj).
      * cbn [cache reads calls firstn map]. rewrite <- app_assoc. reflexivity.
      * cbn [calls]. intros i m f Hi Hlk. rewrite <- app_assoc.
        apply (Hfail (S i) m f); [lia | exact Hlk].
      * cbn [calls]. rewrite <- app_assoc. exact Hok.
Qed.

Lemma afile_content_loop_all_fail (items errors : list (list Z * list Z))
    (ed : list (list Z * list Z)) (w : world) :
  NoDup (map fst ed ++ map fst items) ->
  contents_fail_with router (calls w) items errors ->
  afile_content_loop router items ed w =
    (Ok (inr (ed ++ errors)),
     {| cache := cache w; reads := reads w;
        calls := calls w ++ map content_call_of items |}).
Proof.
  revert errors ed w.
  induction items as [ | [model fid] items IH ];
    intros errors ed w Hnd [Hlen Hall].
  - destruct errors; [ | discriminate ]. cbn. rewrite !app_nil_r.
    destruct w; reflexivity.
  - destruct errors as [ | [k msg] errors ]; [discriminate | ].
    destruct (Hall 0%nat model fid eq_refl) as (msg' & Herr & Hmsg).
    injection Herr as -> ->.
    cbn [firstn map] in Hmsg. rewrite app_nil_r in Hmsg.
    cbn [afile_content_loop].
    unfold try_except, bind, llm_router_afile_content. cbv zeta.
    rewrite Hmsg. cbn [str_exn].
    cbn [map fst] in Hnd.
    rewrite dict_set_fresh.
    2:{ apply NoDup_app in Hnd as (_ & Hdisj & _). intros Hin.
        apply (Hdisj _ Hin). left. }
    rewrite (IH errors).
    + cbn [cache reads calls map]. rewrite <- !app_assoc. reflexivity.
    + rewrite map_app. cbn [map fst]. rewrite <- app_assoc. exact Hnd.
    + split; [cbn in Hlen; lia | ].
      cbn [calls]. intros i m f Hlk.
      destruct (Hall (S i) m f Hlk) as (msg2 & Herr & Hr).
      exists msg2. split; [exact Herr | ].
      rewrite <- app_assoc. exact Hr.
Qed.

End ContentFanOut.

(** C7. [afile_content]: when a backend mapping is found for the
    normalized identifier, content is requested from the mapped backends
    in mapping order and the first success is returned, no later backend
    being tried; when every backend fails the operation fails with
    NotFound, the failure naming the backends of the mapping and the
    error message of each; when no mapping is found it fails with NotFound
    without any call on the router. *)
Theorem afile_content_fan_out (prefix : list Z)
    (router : list call -> list Z -> list Z -> list Z + list Z)
    (x : list Z) (w : world) :
  prefix_not_base64_text prefix = true ->
  let U := convert_b64_uid_to_unified_uid prefix x in
  let v := default CNone (cache w !! U) in
  let r := afile_content prefix router x w in
  (forall items,
     startswith U prefix = true -> v = CDict items -> items <> [] ->
     (forall j model fid content,
        items !! j = Some (model, fid) ->
        contents_fail router (calls w) items j ->
        router (calls w ++ map content_call_of (firstn j items)) model fid
          = inl content ->
        fst r = Ok content /\
        calls (snd r) = calls w ++ map content_call_of (firstn (S j) items)) /\
     (forall errors,
        NoDup (map fst items) ->
        contents_fail_with router (calls w) items errors ->
        fst r = Raise (NotFoundChecked x (map fst items) errors) /\
        calls (snd r) = calls w ++ map content_call_of items)) /\
  (startswith U prefix = false \/ cache_truthy v = false ->
   fst r = Raise (NotFound x) /\ calls (snd r) = calls w).
Proof.
  intros Hp U v r. subst r.
  rewrite afile_content_unfold by exact Hp. cbv zeta. fold U. fold v.
  split.
  - intros items Hsw Hv Hne. rewrite Hsw, Hv.
    destruct items as [ | item items ]; [contradiction | ].
    cbn [andb cache_truthy]. split.
    + intros j model fid content Hj Hfail Hok. unfold bind.
      rewrite (afile_content_loop_first_success router (item :: items) []
                 {| cache := cache w;
                    reads := reads w ++ [U]; calls := calls w |}
                 j model fid content Hj Hfail Hok).
      split; reflexivity.
    + intros errors Hnd Hfail. unfold bind.
      rewrite (afile_content_loop_all_fail router (item :: items) errors []
                 {| cache := cache w;
                    reads := reads w ++ [U]; calls := calls w |}
                 Hnd Hfail).
      split; reflexivity.
  - intros Hno.
    assert (Hf : startswith U prefix && cache_truthy v = false).
    { destruct Hno as [-> | ->]; [reflexivity | apply andb_false_r]. }
    rewrite Hf. split; reflexivity.
Qed.

Lemma afile_content_fan_out_witness :
  let router := router_content_fails_on [py "a"] in
  let x := b64_abc in
  let w := world_two_backends in
  let U := convert_b64_uid_to_unified_uid litellm_proxy x in
  let v := default CNone (cache w !! U) in
  let r := afile_content litellm_proxy router x w in
  (forall items,
     startswith U litellm_proxy = true -> v = CDict items -> items <> [] ->
     (forall j model fid content,
        items !! j = Some (model, fid) ->
        contents_fail router (calls w) items j ->
        router (calls w ++ map content_call_of (firstn j items)) model fid
          = inl content ->
        fst r = Ok content /\
        calls (snd r) = calls w ++ map content_call_of (firstn (S j) items)) /\
     (forall errors,
        NoDup (map fst items) ->
        contents_fail_with router (calls w) items errors ->
        fst r = Raise (NotFoundChecked x (map fst items) errors) /\
        calls (snd r) = calls w ++ map content_call_of items)) /\
  (startswith U litellm_proxy = false \/ cache_truthy v = false ->
   fst r = Raise (NotFound x) /\ calls (snd r) = calls w).
Proof.
  apply (afile_content_fan_out litellm_proxy
           (router_content_fails_on [py "a"]) b64_abc world_two_backends).
  vm_compute. reflexivity.
Defined.

(** The scenario of the specification: backend ["a"] fails and ["b"]
    succeeds, then both fail. *)
Example afile_content_second_backend :
  let r := afile_content litellm_proxy (router_content_fails_on [py "a"])
             b64_abc world_two_backends in
  fst r = Ok (py "%PDF from b") /\
  calls (snd r) = [ContentCall (py "a") (py "file-a");
                   ContentCall (py "b") (py "file-b")].
Proof. vm_compute. split; reflexivity. Qed.

Example afile_content_both_fail :
  let r := afile_content litellm_proxy
             (router_content_fails_on [py "a"; py "b"])
             b64_abc world_two_backends in
  fst r = Raise (NotFoundChecked b64_abc [py "a"; py "b"]
                   [(py "a", py "a is down"); (py "b", py "b is down")]) /\
  calls (snd r) = [ContentCall (py "a") (py "file-a");
                   ContentCall (py "b") (py "file-b")].
Proof. vm_compute. split; reflexivity. Qed.

Example afile_content_no_mapping :
  let r := afile_content litellm_proxy (router_content_fails_on [])
             (py "file-xyz") world_two_backends in
  fst r = Raise (NotFound (py "file-xyz")) /\ calls (snd r) = [].
Proof. vm_compute. split; reflexivity. Qed.

(** ** The request rewriter *)

Lemma convert_nil (prefix : list Z) :
  _convert_b64_uid_to_unified_uid prefix [] = [].
Proof.
  unfold _convert_b64_uid_to_unified_uid. cbv zeta.
  destruct (_is_base64_encoded_unified_file_id prefix []) as [ s | ] eqn:E;
    [ | reflexivity ].
  destruct (str_truthy s) eqn:Hs; [ | reflexivity ].
  unfold _is_base64_encoded_unified_file_id in E. cbn in E.
  destruct prefix; [ | discriminate ].
  injection E as <-. discriminate.
Qed.

Lemma visit_content_spec (prefix : list Z) (c : list content_part)
    (ids : list (list Z)) :
  visit_content prefix c ids =
    (ids ++ map (_convert_b64_uid_to_unified_uid prefix)
              (flat_map part_file_refs c),
     map (normalized_part prefix) c).
Proof.
  revert ids. induction c as [ | part c IH ]; intros ids.
  - cbn. rewrite app_nil_r. reflexivity.
  - cbn [visit_content flat_map map].
    destruct part as [ t | u | a | f ];
      try (destruct (decide _); rewrite IH; reflexivity).
    destruct (decide (part_type (PartFile f) = py "file")) as [ _ | Hne ];
      [ | exfalso; apply Hne; reflexivity ].
    destruct f as [ [ fid | ] fdata fname ]; cbn [file_id part_file_refs].
    + destruct fid as [ | ch fid ]; cbn [str_truthy].
      * rewrite IH. cbn [normalized_part file_id option_map file_data
                         file_filename app map].
        rewrite convert_nil. reflexivity.
      * rewrite IH. cbn [app map]. rewrite <- app_assoc. reflexivity.
    + rewrite IH. reflexivity.
Qed.

Lemma visit_messages_spec (prefix : list Z) (msgs : list message)
    (ids : list (list Z)) :
  visit_messages prefix msgs ids =
    (ids ++ map (_convert_b64_uid_to_unified_uid prefix) (file_references msgs),
     map (rewritten_message prefix) msgs).
Proof.
  revert ids. induction msgs as [ | m msgs IH ]; intros ids.
  - cbn. rewrite app_nil_r. reflexivity.
  - cbn [visit_messages]. unfold file_references. cbn [flat_map map].
    fold (file_references msgs).
    unfold message_file_refs at 1. unfold rewritten_message at 1.
    destruct (decide (role m = py "user")) as [Hrole | Hrole].
    + destruct (content m) as [ | s | [ | part parts ] ] eqn:Hc.
      * rewrite IH. reflexivity.
      * rewrite IH. reflexivity.
      * rewrite IH. cbn [flat_map map app]. destruct m as [r c].
        cbn in Hc. subst c. reflexivity.
      * rewrite visit_content_spec, IH.
        rewrite map_app, app_assoc. reflexivity.
    + rewrite IH. reflexivity.
Qed.

Lemma dict_get_set {V : Type} (d : list (list Z * V)) (k k' : list Z) (v : V) :
  dict_get (dict_set d k v) k' =
    if decide (k = k') then Some v else dict_get d k'.
Proof.
  induction d as [ | [k0 v0] d IH ].
  - cbn [dict_set dict_get]. reflexivity.
  - cbn [dict_set]. destruct (decide (k0 = k)) as [-> | Hne].
    + cbn [dict_get]. destruct (decide (k = k')); reflexivity.
    + cbn [dict_get]. rewrite IH.
      destruct (decide (k0 = k')) as [-> | ]; [ | reflexivity ].
      destruct (decide (k = k')); [congruence | reflexivity].
Qed.

(** What the mapping built by the second loop of
    [get_model_file_id_mapping] holds for a key. *)
Lemma resolve_fold_get (w : world) (ids : list (list Z))
    (m : list (list Z * cache_value)) (U : list Z) :
  dict_get (fold_left (resolve_step w) ids m) U =
    if decide (U ∈ ids) then
      if cache_truthy (default CNone (cache w !! U))
      then Some (default CNone (cache w !! U))
      else dict_get m U
    else dict_get m U.
Proof.
  revert m. induction ids as [ | a ids IH ]; intros m.
  - cbn [fold_left]. destruct (decide (U ∈ [])) as [Hin | ]; [ | reflexivity ].
    inversion Hin.
  - cbn [fold_left]. rewrite IH.
    assert (Hstep : dict_get (resolve_step w m a) U =
              if decide (a = U) then
                if cache_truthy (default CNone (cache w !! U))
                then Some (default CNone (cache w !! U))
                else dict_get m U
              else dict_get m U).
    { clear IH. unfold resolve_step. cbv zeta.
      destruct (decide (a = U)) as [-> | Hne].
      - destruct (cache_truthy (default CNone (cache w !! U)));
          [ | reflexivity ].
        rewrite dict_get_set. destruct (decide (U = U)); congruence.
      - destruct (cache_truthy (default CNone (cache w !! a)));
          [ | reflexivity ].
        rewrite dict_get_set. destruct (decide (a = U)); congruence. }
    rewrite Hstep.
    destruct (decide (U ∈ ids));
      destruct (decide (U ∈ a :: ids));
      destruct (decide (a = U));
      try reflexivity; try (destruct (cache_truthy _); reflexivity);
      exfalso;
      repeat match goal with
             | H : _ ∈ _ :: _ |- _ => apply elem_of_cons in H as [H | H]
             | H : _ ∉ _ :: _ |- _ => apply not_elem_of_cons in H as [? ?]
             end;
      congruence.
Qed.

Lemma option_eq_iff_dec (c : bool) (v0 v : cache_value) :
  (if c then Some v0 else None) = Some v <-> c = true /\ v = v0.
Proof.
  destruct c; split.
  - intros [= ->]. auto.
  - intros [_ ->]. reflexivity.
  - discriminate.
  - intros [H _]. discriminate.
Qed.

(** C8. The request rewriter, on a completion request: every content part
    typed ["file"] of a user message whose content is a list has its
    [file_id] replaced by the normalized value; the resolved mapping, from
    unified id to the mapping from backend id to backend file id, is
    attached under [model_file_id_mapping], identifiers that are not
    sentinel-prefixed after normalization being skipped (no lookup, no
    entry); and a request without file references is returned unchanged. *)
Theorem pre_call_hook_rewrites (prefix : list Z) (data : request) (w : world)
    (msgs : list message) :
  prefix_not_base64_text prefix = true ->
  messages data = Some msgs ->
  let r := async_pre_call_hook prefix data completion w in
  let ids := map (_convert_b64_uid_to_unified_uid prefix) (file_references msgs) in
  (exists data',
     fst r = Ok data' /\
     messages data' = Some (map (rewritten_message prefix) msgs) /\
     other_fields data' = other_fields data /\
     cache (snd r) = cache w /\
     (ids <> [] ->
      exists mapping,
        model_file_id_mapping data' = Some mapping /\
        (forall U v,
           dict_get mapping U = Some v <->
           U ∈ ids /\ startswith U prefix = true /\
           v = default CNone (cache w !! U) /\ cache_truthy v = true) /\
        reads (snd r) =
          reads w ++ List.filter (fun U => startswith U prefix) ids)) /\
  (file_references msgs = [] -> r = (Ok data, w)).
Proof.
  intros Hp Hmsgs r ids. subst r.
  unfold async_pre_call_hook. rewrite Hmsgs.
  assert (Hid : file_references msgs = [] ->
                map (rewritten_message prefix) msgs = msgs).
  { clear. unfold file_references.
    induction msgs as [ | m msgs IH ]; intros Hrefs; [reflexivity | ].
    cbn [flat_map] in Hrefs. apply app_eq_nil in Hrefs as [Hm Hrest].
    cbn [map]. rewrite (IH Hrest). f_equal.
    unfold rewritten_message, message_file_refs in *.
    destruct (decide (role m = py "user")); [ | reflexivity ].
    destruct m as [ro [ | s | parts ] ]; cbn [content role] in *;
      try reflexivity.
    f_equal. f_equal.
    induction parts as [ | part parts IHp ]; [reflexivity | ].
    cbn [flat_map] in Hm. apply app_eq_nil in Hm as [Hpart Hparts].
    cbn [map]. rewrite (IHp Hparts). f_equal.
    destruct part as [ t | u | a | [ [ fid | ] fdata fname ] ];
      try reflexivity.
    cbn in Hpart. destruct fid; [ | discriminate ].
    cbn [normalized_part file_id option_map file_data file_filename].
    rewrite convert_nil. reflexivity. }
  assert (Heta : forall ms, messages data = Some ms ->
            {| messages := Some ms;
               model_file_id_mapping := model_file_id_mapping data;
               other_fields := other_fields data |} = data).
  { clear. intros ms Hms. destruct data as [m0 mp o].
    cbn [messages model_file_id_mapping other_fields] in *.
    rewrite Hms. reflexivity. }
  destruct msgs as [ | m msgs ].
  { split.
    - exists data. repeat split; try assumption.
      intros Hne. exfalso. apply Hne. reflexivity.
    - reflexivity. }
  unfold get_file_ids_and_decode_b64_to_unified_uid_from_messages.
  rewrite visit_messages_spec. cbn [app]. fold ids.
  destruct ids as [ | id0 ids' ] eqn:Hids.
  - split.
    + eexists. repeat split. intros Hne. exfalso. apply Hne. reflexivity.
    + intros Hrefs. rewrite (Hid Hrefs). unfold ret.
      rewrite (Heta _ Hmsgs). reflexivity.
  - split.
    2:{ intros Hrefs. subst ids. rewrite Hrefs in Hids. discriminate. }
    rewrite <- Hids.
    assert (Hrun : get_model_file_id_mapping prefix ids w =
              (Ok (fold_left (resolve_step w)
                     (List.filter (fun U => startswith U prefix) ids) []),
               {| cache := cache w;
                  reads := reads w
                           ++ List.filter (fun U => startswith U prefix) ids;
                  calls := calls w |})).
    { unfold get_model_file_id_mapping. cbv zeta.
      rewrite (collect_managed_normalized prefix (file_references (m :: msgs)) Hp
               : collect_managed_file_ids prefix ids = _).
      apply lookup_managed_run. }
    unfold bind. rewrite Hrun. unfold ret. cbn [fst snd].
    eexists. split; [reflexivity | ].
    cbn [messages other_fields model_file_id_mapping cache reads].
    repeat split.
    intros _. eexists. split; [reflexivity | ]. split; [ | reflexivity ].
    intros U v. rewrite resolve_fold_get. cbn [dict_get].
    destruct (decide (U ∈ List.filter (fun U => startswith U prefix) ids))
      as [Hin | Hnin].
    + apply list_elem_of_In, filter_In in Hin as [Hin Hsw].
      apply list_elem_of_In in Hin.
      rewrite option_eq_iff_dec. split.
      * intros [Ht ->]. auto.
      * intros (_ & _ & -> & Ht). auto.
    + split; [discriminate | ].
      intros (Hin & Hsw & _). exfalso. apply Hnin.
      apply list_elem_of_In, filter_In. split; [ | exact Hsw ].
      apply list_elem_of_In. exact Hin.
Qed.

Lemma pre_call_hook_rewrites_witness :
  let prefix := litellm_proxy in
  let data := request_with_file b64_abc in
  let w := world_two_backends in
  let msgs := match messages data with Some msgs => msgs | None => [] end in
  let r := async_pre_call_hook prefix data completion w in
  let ids := map (_convert_b64_uid_to_unified_uid prefix) (file_references msgs) in
  (exists data',
     fst r = Ok data' /\
     messages data' = Some (map (rewritten_message prefix) msgs) /\
     other_fields data' = other_fields data /\
     cache (snd r) = cache w /\
     (ids <> [] ->
      exists mapping,
        model_file_id_mapping data' = Some mapping /\
        (forall U v,
           dict_get mapping U = Some v <->
           U ∈ ids /\ startswith U prefix = true /\
           v = default CNone (cache w !! U) /\ cache_truthy v = true) /\
        reads (snd r) =
          reads w ++ List.filter (fun U => startswith U prefix) ids)) /\
  (file_references msgs = [] -> r = (Ok data, w)).
Proof.
  apply (pre_call_hook_rewrites litellm_proxy (request_with_file b64_abc)
           world_two_backends).
  - vm_compute. reflexivity.
  - reflexivity.
Defined.

(** The scenario of the specification: the file reference is rewritten in
    place and, nothing being stored for it, the attached mapping is empty;
    with a stored mapping, the mapping is attached; a foreign identifier
    is left alone and not looked up. *)
Example pre_call_hook_no_prior_mapping :
  async_pre_call_hook litellm_proxy (request_with_file b64_abc) completion
    empty_world
  = (Ok {| messages := messages (request_with_file token_abc);
           model_file_id_mapping := Some [];
           other_fields := [(py "model", py "gpt-a")] |},
     {| cache := ∅; reads := [token_abc]; calls := [] |}).
Proof. vm_compute. reflexivity. Qed.

Example pre_call_hook_stored_mapping :
  fst (async_pre_call_hook litellm_proxy (request_with_file b64_abc)
         completion world_two_backends)
  = Ok {| messages := messages (request_with_file token_abc);
          model_file_id_mapping :=
            Some [(token_abc,
                   CDict [(py "a", py "file-a"); (py "b", py "file-b")])];
          other_fields := [(py "model", py "gpt-a")] |}.
Proof. vm_compute. reflexivity. Qed.

Example pre_call_hook_foreign_id :
  let r := async_pre_call_hook litellm_proxy (request_with_file (py "file-xyz"))
             completion world_two_backends in
  fst r = Ok {| messages := messages (request_with_file (py "file-xyz"));
                model_file_id_mapping := Some [];
                other_fields := [(py "model", py "gpt-a")] |} /\
  reads (snd r) = [].
Proof. vm_compute. split; reflexivity. Qed.

Lemma pre_call_hook_other_call_types (prefix : list Z) (data : request)
    (ct : call_type) (w : world) :
  ct <> completion -> async_pre_call_hook prefix data ct w = (Ok data, w).
Proof. intros Hct. destruct ct; [contradiction | reflexivity ..]. Qed.

(** * Further properties of the class *)

(** ** Identifiers the codec leaves alone *)

Lemma add_padding_forallb (f : Z -> bool) (x : list Z) :
  forallb f x = false -> forallb f (add_padding x) = false.
Proof.
  intros H. unfold add_padding. rewrite forallb_app, H. reflexivity.
Qed.

(** X1. An identifier with a character outside ASCII is never taken for a
    unified id: [base64.urlsafe_b64decode] refuses it, the refusal is
    caught, and normalization returns the identifier unchanged. *)
Theorem non_ascii_id_passes_through (prefix x : list Z) (c : Z) :
  In c x -> 128 <= c ->
  _is_base64_encoded_unified_file_id prefix x = PyFalse /\
  convert_b64_uid_to_unified_uid prefix x = x /\
  _convert_b64_uid_to_unified_uid prefix x = x.
Proof.
  intros Hin Hc.
  assert (Hf : _is_base64_encoded_unified_file_id prefix x = PyFalse).
  { unfold _is_base64_encoded_unified_file_id, urlsafe_b64decode,
      bytes_from_decode_data.
    cbv zeta. rewrite add_padding_forallb; [reflexivity | ].
    apply not_true_is_false. intros Hall.
    rewrite forallb_forall in Hall. specialize (Hall c Hin).
    apply Z.ltb_lt in Hall. lia. }
  unfold convert_b64_uid_to_unified_uid, _convert_b64_uid_to_unified_uid.
  rewrite Hf. repeat split.
Qed.

Lemma non_ascii_id_passes_through_witness :
  _is_base64_encoded_unified_file_id litellm_proxy [102; 233] = PyFalse /\
  convert_b64_uid_to_unified_uid litellm_proxy [102; 233] = [102; 233] /\
  _convert_b64_uid_to_unified_uid litellm_proxy [102; 233] = [102; 233].
Proof.
  apply (non_ascii_id_passes_through litellm_proxy [102; 233] 233).
  - right. left. reflexivity.
  - lia.
Defined.

Lemma convert_of_normalized (prefix x : list Z) :
  prefix_not_base64_text prefix = true ->
  convert_b64_uid_to_unified_uid prefix
    (convert_b64_uid_to_unified_uid prefix x)
  = convert_b64_uid_to_unified_uid prefix x.
Proof.
  intros Hp. pose proof (normalized_not_decodable prefix x Hp) as Hn.
  unfold convert_b64_uid_to_unified_uid at 1. cbv zeta.
  destruct (_is_base64_encoded_unified_file_id prefix
              (convert_b64_uid_to_unified_uid prefix x)) as [ s | ];
    [ | reflexivity ].
  cbn [truthy] in Hn. rewrite Hn. reflexivity.
Qed.

(** X2. What normalization can return: a raw token (a string that already
    starts with the sentinel prefix) is returned unchanged, and whenever
    the result differs from the input it is the decoded form of the input
    and starts with the sentinel prefix. *)
Theorem convert_result_shape (prefix x : list Z) :
  prefix_not_base64_text prefix = true ->
  (startswith x prefix = true -> convert_b64_uid_to_unified_uid prefix x = x) /\
  (convert_b64_uid_to_unified_uid prefix x <> x ->
   startswith (convert_b64_uid_to_unified_uid prefix x) prefix = true /\
   _is_base64_encoded_unified_file_id prefix x
     = PyStr (convert_b64_uid_to_unified_uid prefix x)).
Proof.
  intros Hp. split.
  - intros Hsw. unfold convert_b64_uid_to_unified_uid.
    rewrite (prefixed_not_decodable prefix prefix x Hp Hsw). reflexivity.
  - unfold convert_b64_uid_to_unified_uid. cbv zeta.
    destruct (_is_base64_encoded_unified_file_id prefix x) as [ s | ] eqn:Hx;
      [ | intros Hne; contradiction ].
    destruct (str_truthy s); [ | intros Hne; contradiction ].
    intros _. split; [ | reflexivity ].
    apply (is_base64_truthy_prefixed prefix x s Hx).
Qed.

Lemma convert_result_shape_witness :
  (startswith token_abc litellm_proxy = true ->
   convert_b64_uid_to_unified_uid litellm_proxy token_abc = token_abc) /\
  (convert_b64_uid_to_unified_uid litellm_proxy token_abc <> token_abc ->
   startswith (convert_b64_uid_to_unified_uid litellm_proxy token_abc)
     litellm_proxy = true /\
   _is_base64_encoded_unified_file_id litellm_proxy token_abc
     = PyStr (convert_b64_uid_to_unified_uid litellm_proxy token_abc)).
Proof.
  apply (convert_result_shape litellm_proxy token_abc).
  vm_compute. reflexivity.
Defined.

(** ** The object store, one identifier at a time *)

Lemma object_key_inj (U U' : list Z) :
  py "litellm_proxy/" ++ U = py "litellm_proxy/" ++ U' -> U = U'.
Proof. apply app_inv_head. Qed.

(** X3. Storing or deleting the object of one identifier leaves the
    object of every other identifier as it was. *)
Theorem object_store_other_ids (U U' : list Z) (V : OpenAIFileObject)
    (w : world) :
  U <> U' ->
  fst (get_unified_file_id U' (snd (store_unified_file_id U V w)))
    = fst (get_unified_file_id U' w) /\
  fst (get_unified_file_id U' (snd (delete_unified_file_id U w)))
    = fst (get_unified_file_id U' w).
Proof.
  intros Hne.
  assert (Hk : py "litellm_proxy/" ++ U <> py "litellm_proxy/" ++ U')
    by (intros H; apply Hne, object_key_inj, H).
  rewrite !get_unified_file_id_run, delete_unified_file_id_run. cbv zeta.
  unfold store_unified_file_id, async_set_cache. cbn [fst snd cache].
  split.
  - rewrite lookup_insert_ne by exact Hk. reflexivity.
  - destruct (default CNone (cache w !! (py "litellm_proxy/" ++ U)));
      cbn [snd cache]; rewrite ?lookup_insert_ne by exact Hk; reflexivity.
Qed.

Lemma object_store_other_ids_witness :
  let w := world_two_backends in
  fst (get_unified_file_id token_abc
         (snd (store_unified_file_id (py "other") stored_abc w)))
    = fst (get_unified_file_id token_abc w) /\
  fst (get_unified_file_id token_abc
         (snd (delete_unified_file_id (py "other") w)))
    = fst (get_unified_file_id token_abc w).
Proof.
  apply (object_store_other_ids (py "other") token_abc stored_abc
           world_two_backends).
  vm_compute. discriminate.
Defined.

(** X4. [afile_retrieve] after the store the post-call hook schedules:
    the object is found under the id the response carries, whatever the
    cache held before; and [afile_retrieve] itself writes nothing to the
    cache, calls no backend, and fails with NotFound for its argument
    exactly when the entry is absent or empty. *)
Theorem afile_retrieve_after_store (response : OpenAIFileObject)
    (file_id : list Z) (w : world) :
  fst (afile_retrieve (fo_id response)
         (snd (async_post_call_success_hook response w)))
    = Ok (CFile response) /\
  cache (snd (afile_retrieve file_id w)) = cache w /\
  calls (snd (afile_retrieve file_id w)) = calls w /\
  (fst (afile_retrieve file_id w) = Raise (NotFound file_id) <->
   cache_truthy (default CNone (cache w !! (py "litellm_proxy/" ++ file_id)))
     = false).
Proof.
  unfold afile_retrieve, bind. rewrite !get_unified_file_id_run.
  unfold async_post_call_success_hook, store_unified_file_id, async_set_cache.
  cbn [snd cache]. rewrite lookup_insert_eq.
  split; [reflexivity | ].
  destruct (cache_truthy
              (default CNone (cache w !! (py "litellm_proxy/" ++ file_id))))
    eqn:Ht.
  - repeat split; try reflexivity; discriminate.
  - repeat split; reflexivity.
Qed.

(** ** What [get_model_file_id_mapping] returns *)

Lemma collect_managed_prefixed (prefix : list Z) (ids : list (list Z)) :
  Forall (fun U => startswith U prefix = true)
         (collect_managed_file_ids prefix ids).
Proof.
  induction ids as [ | fid ids IH ]; [constructor | ].
  cbn [collect_managed_file_ids]. cbv zeta.
  destruct (_is_base64_encoded_unified_file_id prefix fid)
    as [ [ | c s ] | ] eqn:Hfid.
  - destruct (startswith fid prefix) eqn:Hsw; [constructor | ]; assumption.
  - constructor; [ | exact IH ].
    apply (is_base64_truthy_prefixed prefix fid (c :: s) Hfid).
  - destruct (startswith fid prefix) eqn:Hsw; [constructor | ]; assumption.
Qed.

Lemma get_mapping_run (prefix : list Z) (ids : list (list Z)) (w : world) :
  get_model_file_id_mapping prefix ids w =
    (Ok (fold_left (resolve_step w) (collect_managed_file_ids prefix ids) []),
     {| cache := cache w;
        reads := reads w ++ collect_managed_file_ids prefix ids;
        calls := calls w |}).
Proof. unfold get_model_file_id_mapping. apply lookup_managed_run. Qed.

Lemma dict_set_keys {V : Type} (d : list (list Z * V)) (k : list Z) (v : V) :
  map fst (dict_set d k v) =
    if decide (k ∈ map fst d) then map fst d else map fst d ++ [k].
Proof.
  induction d as [ | [k0 v0] d IH ].
  - cbn. destruct (decide (k ∈ [])) as [Hin | ]; [inversion Hin | reflexivity].
  - cbn [dict_set map fst].
    destruct (decide (k0 = k)) as [-> | Hne].
    + destruct (decide (k ∈ k :: map fst d)) as [ | Hnin ]; [reflexivity | ].
      exfalso. apply Hnin. left.
    + cbn [map fst]. rewrite IH.
      destruct (decide (k ∈ map fst d)) as [Hin | Hnin];
        destruct (decide (k ∈ k0 :: map fst d)) as [Hin' | Hnin'];
        try reflexivity.
      * exfalso. apply Hnin'. right. exact Hin.
      * exfalso. apply elem_of_cons in Hin' as [-> | Hin']; congruence.
Qed.

Lemma dict_set_NoDup {V : Type} (d : list (list Z * V)) (k : list Z) (v : V) :
  NoDup (map fst d) -> NoDup (map fst (dict_set d k v)).
Proof.
  intros Hnd. rewrite dict_set_keys.
  destruct (decide (k ∈ map fst d)) as [ | Hnin ]; [exact Hnd | ].
  apply NoDup_app. split; [exact Hnd | split ].
  - intros y Hy Hyk. apply list_elem_of_singleton in Hyk. subst y. contradiction.
  - apply NoDup_singleton.
Qed.

Lemma resolve_fold_NoDup (w : world) (ids : list (list Z))
    (m : list (list Z * cache_value)) :
  NoDup (map fst m) -> NoDup (map fst (fold_left (resolve_step w) ids m)).
Proof.
  revert m. induction ids as [ | a ids IH ]; intros m Hnd; [exact Hnd | ].
  cbn [fold_left]. apply IH. unfold resolve_step. cbv zeta.
  destruct (cache_truthy _); [apply dict_set_NoDup | ]; exact Hnd.
Qed.

(** X5. [get_model_file_id_mapping] only reads: it leaves the cache as it
    was and calls no backend. Every key of the mapping it returns starts
    with the sentinel prefix, no key occurs twice, and the value under a
    key is the non-empty entry the cache holds under that very key. *)
Theorem get_model_file_id_mapping_sound (prefix : list Z)
    (file_ids : list (list Z)) (w : world) :
  exists mapping,
    fst (get_model_file_id_mapping prefix file_ids w) = Ok mapping /\
    cache (snd (get_model_file_id_mapping prefix file_ids w)) = cache w /\
    calls (snd (get_model_file_id_mapping prefix file_ids w)) = calls w /\
    NoDup (map fst mapping) /\
    forall U v, dict_get mapping U = Some v ->
      startswith U prefix = true /\
      v = default CNone (cache w !! U) /\
      cache_truthy v = true.
Proof.
  rewrite get_mapping_run. eexists. split; [reflexivity | ].
  cbn [snd cache calls]. repeat split.
  - apply resolve_fold_NoDup. constructor.
  - rewrite resolve_fold_get in H. cbn [dict_get] in H.
    destruct (decide (U ∈ collect_managed_file_ids prefix file_ids))
      as [Hin | ]; [ | discriminate ].
    pose proof (collect_managed_prefixed prefix file_ids) as Hall.
    rewrite Forall_forall in Hall. apply (Hall U Hin).
  - rewrite resolve_fold_get in H. cbn [dict_get] in H.
    destruct (decide _); [ | discriminate ].
    destruct (cache_truthy _); [ | discriminate ].
    injection H as <-. reflexivity.
  - rewrite resolve_fold_get in H. cbn [dict_get] in H.
    destruct (decide _); [ | discriminate ].
    destruct (cache_truthy _) eqn:Ht; [ | discriminate ].
    injection H as <-. exact Ht.
Qed.

Lemma get_model_file_id_mapping_sound_witness :
  exists mapping,
    fst (get_model_file_id_mapping litellm_proxy [b64_abc; py "file-xyz"]
           world_two_backends) = Ok mapping /\
    NoDup (map fst mapping).
Proof.
  destruct (get_model_file_id_mapping_sound litellm_proxy
              [b64_abc; py "file-xyz"] world_two_backends)
    as (mapping & Hm & _ & _ & Hnd & _).
  exists mapping. split; assumption.
Defined.

(** X6. The base64 form of a token and the token itself resolve alike:
    [get_model_file_id_mapping] looks up the same key and returns the same
    mapping for either. *)
Theorem mapping_same_for_both_forms (prefix b64 token : list Z) (w : world) :
  prefix_not_base64_text prefix = true ->
  _is_base64_encoded_unified_file_id prefix b64 = PyStr token ->
  get_model_file_id_mapping prefix [b64] w =
    get_model_file_id_mapping prefix [token] w /\
  reads (snd (get_model_file_id_mapping prefix [b64] w)) = reads w ++ [token].
Proof.
  intros Hp Hb.
  pose proof (is_base64_truthy_prefixed prefix b64 token Hb) as Hsw.
  assert (Hcb : collect_managed_file_ids prefix [b64] = [token]).
  { cbn [collect_managed_file_ids]. cbv zeta. rewrite Hb.
    destruct token as [ | c token ]; [ | reflexivity ].
    destruct prefix as [ | p1 [ | p2 prefix ] ]; discriminate. }
  assert (Hct : collect_managed_file_ids prefix [token] = [token]).
  { rewrite collect_managed_cons.
    - rewrite Hsw. reflexivity.
    - rewrite (prefixed_not_decodable prefix prefix token Hp Hsw). reflexivity. }
  rewrite !get_mapping_run, Hcb, Hct. split; reflexivity.
Qed.

Lemma mapping_same_for_both_forms_witness :
  get_model_file_id_mapping litellm_proxy [b64_abc] world_two_backends =
    get_model_file_id_mapping litellm_proxy [token_abc] world_two_backends /\
  reads (snd (get_model_file_id_mapping litellm_proxy [b64_abc]
                world_two_backends))
    = reads world_two_backends ++ [token_abc].
Proof.
  apply (mapping_same_for_both_forms litellm_proxy b64_abc token_abc
           world_two_backends).
  - vm_compute. reflexivity.
  - vm_compute. reflexivity.
Defined.

(** ** [afile_delete] and [afile_content]: what they touch *)

Lemma afile_delete_plain (prefix : list Z)
    (router : list call -> list Z -> list Z -> option (list Z))
    (x : list Z) (w : world) :
  prefix_not_base64_text prefix = true ->
  let U := convert_b64_uid_to_unified_uid prefix x in
  let key := py "litellm_proxy/" ++ U in
  let r := afile_delete prefix router x w in
  startswith U prefix = false \/
  cache_truthy (default CNone (cache w !! U)) = false ->
  calls (snd r) = calls w /\
  (forall f, cache w !! key = Some (CFile f) ->
     fst r = Ok f /\ cache (snd r) = <[key := CNone]> (cache w)) /\
  ((forall f, cache w !! key <> Some (CFile f)) ->
     fst r = Raise (NotFound U) /\ cache (snd r) = cache w).
Proof.
  intros Hp U key r Hno. subst r.
  rewrite afile_delete_unfold by exact Hp. cbv zeta. fold U.
  assert (Hf : startswith U prefix
               && cache_truthy (default CNone (cache w !! U)) = false).
  { destruct Hno as [-> | ->]; [reflexivity | apply andb_false_r]. }
  rewrite Hf. unfold bind at 1 2 3 4 5. unfold ret at 1 2 3 4 5.
  rewrite !delete_object_entry_run, !delete_unified_file_id_run.
  cbv zeta. cbn [cache reads calls]. fold key.
  destruct (cache w !! key) as [ [ | f0 | d ] | ] eqn:Hk; cbn [default from_option id].
  - split; [reflexivity | split ].
    + intros f Hfk. discriminate.
    + intros _. split; reflexivity.
  - split; [reflexivity | split ].
    + intros f Hfk. injection Hfk as <-. split; reflexivity.
    + intros Hnone. exfalso. apply (Hnone f0). reflexivity.
  - split; [reflexivity | split ].
    + intros f Hfk. discriminate.
    + intros _. split; reflexivity.
  - split; [reflexivity | split ].
    + intros f Hfk. discriminate.
    + intros _. split; reflexivity.
Qed.

(** X7. [afile_delete] of an identifier for which no backend mapping is
    stored makes no call on the router: it deletes and returns the object
    stored under the normalized identifier, blanking that entry, or fails
    with NotFound for the normalized identifier and leaves the cache as it
    was when no object is stored there. *)
Theorem afile_delete_without_mapping (prefix : list Z)
    (router : list call -> list Z -> list Z -> option (list Z))
    (x : list Z) (w : world) :
  prefix_not_base64_text prefix = true ->
  let U := convert_b64_uid_to_unified_uid prefix x in
  let key := py "litellm_proxy/" ++ U in
  let r := afile_delete prefix router x w in
  startswith U prefix = false \/
  cache_truthy (default CNone (cache w !! U)) = false ->
  calls (snd r) = calls w /\
  (forall f, cache w !! key = Some (CFile f) ->
     fst r = Ok f /\ cache (snd r) = <[key := CNone]> (cache w)) /\
  ((forall f, cache w !! key <> Some (CFile f)) ->
     fst r = Raise (NotFound U) /\ cache (snd r) = cache w).
Proof. exact (afile_delete_plain prefix router x w). Qed.

Lemma afile_delete_without_mapping_witness :
  let prefix := litellm_proxy in
  let x := py "file-xyz" in
  let w := world_two_backends in
  let U := convert_b64_uid_to_unified_uid prefix x in
  let key := py "litellm_proxy/" ++ U in
  let r := afile_delete prefix router_delete_ok x w in
  calls (snd r) = calls w /\
  (forall f, cache w !! key = Some (CFile f) ->
     fst r = Ok f /\ cache (snd r) = <[key := CNone]> (cache w)) /\
  ((forall f, cache w !! key <> Some (CFile f)) ->
     fst r = Raise (NotFound U) /\ cache (snd r) = cache w).
Proof.
  apply (afile_delete_without_mapping litellm_proxy router_delete_ok
           (py "file-xyz") world_two_backends).
  - vm_compute. reflexivity.
  - left. vm_compute. reflexivity.
Defined.

Lemma afile_content_loop_calls
    (router : list call -> list Z -> list Z -> list Z + list Z)
    (items ed : list (list Z * list Z)) (w : world) :
  exists k, calls (snd (afile_content_loop router items ed w)) =
              calls w ++ map content_call_of (firstn k items).
Proof.
  revert ed w. induction items as [ | [model fid] items IH ]; intros ed w.
  - exists 0%nat. cbn. rewrite app_nil_r. reflexivity.
  - cbn [afile_content_loop].
    unfold try_except, bind, llm_router_afile_content. cbv zeta.
    destruct (router (calls w) model fid) as [ content | msg ].
    + exists 1%nat. reflexivity.
    + destruct (IH (dict_set ed model (str_exn (RouterError msg)))
                  {| cache := cache w; reads := reads w;
                     calls := calls w ++ [ContentCall model fid] |})
        as [k Hk].
      exists (S k). rewrite Hk. cbn [calls firstn map].
      rewrite <- app_assoc. reflexivity.
Qed.

Lemma afile_delete_loop_calls
    (router : list call -> list Z -> list Z -> option (list Z))
    (items : list (list Z * list Z)) (fid0 : list Z) (w : world) :
  exists k, calls (snd (afile_delete_loop router items fid0 w)) =
              calls w ++ map delete_call_of (firstn k items).
Proof.
  revert fid0 w. induction items as [ | [model fid] items IH ]; intros fid0 w.
  - exists 0%nat. cbn. rewrite app_nil_r. reflexivity.
  - cbn [afile_delete_loop]. unfold bind, llm_router_afile_delete. cbv zeta.
    destruct (router (calls w) model fid) as [ msg | ].
    + exists 1%nat. reflexivity.
    + destruct (IH fid {| cache := cache w; reads := reads w;
                          calls := calls w ++ [DeleteCall model fid] |})
        as [k Hk].
      exists (S k). rewrite Hk. cbn [calls firstn map].
      rewrite <- app_assoc. reflexivity.
Qed.

Lemma Forall_content_calls (items : list (list Z * list Z)) :
  Forall (fun c => is_content_call c = true) (map content_call_of items).
Proof. induction items; constructor; [reflexivity | assumption]. Qed.

Lemma Forall_delete_calls (items : list (list Z * list Z)) :
  Forall (fun c => is_delete_call c = true) (map delete_call_of items).
Proof. induction items; constructor; [reflexivity | assumption]. Qed.

(** The two operations after their mapping lookup, for any prefix. *)
Lemma afile_content_run (prefix : list Z)
    (router : list call -> list Z -> list Z -> list Z + list Z)
    (x : list Z) (w : world) :
  let U := convert_b64_uid_to_unified_uid prefix x in
  let ids := collect_managed_file_ids prefix [U] in
  afile_content prefix router x w =
    (match dict_get (fold_left (resolve_step w) ids []) U with
     | Some (CDict ((_ :: _) as items)) =>
       bind (afile_content_loop router items [])
            (fun r => match r with
                      | inl content => ret content
                      | inr exception_dict =>
                        raise (NotFoundChecked x (dict_keys items)
                                 exception_dict)
                      end)
     | Some (CFile _) => raise AttributeError
     | _ => raise (NotFound x)
     end)
      {| cache := cache w; reads := reads w ++ ids; calls := calls w |}.
Proof.
  cbv zeta. unfold afile_content. cbv zeta. unfold bind at 1.
  rewrite get_mapping_run. reflexivity.
Qed.

Lemma afile_delete_run (prefix : list Z)
    (router : list call -> list Z -> list Z -> option (list Z))
    (x : list Z) (w : world) :
  let U := convert_b64_uid_to_unified_uid prefix x in
  let ids := collect_managed_file_ids prefix [U] in
  afile_delete prefix router x w =
    bind (match dict_get (fold_left (resolve_step w) ids []) U with
          | Some (CDict ((_ :: _) as items)) => afile_delete_loop router items U
          | Some (CFile _) => raise AttributeError
          | _ => ret U
          end)
         (fun file_id => delete_object_entry file_id)
         {| cache := cache w; reads := reads w ++ ids; calls := calls w |}.
Proof.
  cbv zeta. unfold afile_delete. cbv zeta. unfold bind at 1.
  rewrite get_mapping_run. reflexivity.
Qed.

(** X8. [afile_content] only reads: whatever the identifier, the cache
    and the router's answers, it leaves the cache as it was, and every
    call it makes on the router is a content call. *)
Theorem afile_content_read_only (prefix : list Z)
    (router : list call -> list Z -> list Z -> list Z + list Z)
    (x : list Z) (w : world) :
  cache (snd (afile_content prefix router x w)) = cache w /\
  exists cs, calls (snd (afile_content prefix router x w)) = calls w ++ cs /\
             Forall (fun c => is_content_call c = true) cs.
Proof.
  rewrite afile_content_run. cbv zeta.
  set (w1 := {| cache := cache w; reads := _; calls := calls w |}).
  assert (Hnil : exists cs : list call,
            calls w = calls w ++ cs /\
            Forall (fun c => is_content_call c = true) cs)
    by (exists []; split; [symmetry; apply app_nil_r | constructor]).
  destruct (dict_get _ _) as [ [ | f | [ | item items ] ] | ];
    try (split; [reflexivity | exact Hnil]).
  unfold bind.
  pose proof (afile_content_loop_frame router (item :: items) [] w1) as [Hc _].
  destruct (afile_content_loop_calls router (item :: items) [] w1) as [k Hk].
  destruct (afile_content_loop router (item :: items) [] w1)
    as [ [ [ content | ed ] | e ] w' ]; cbn [snd] in *;
    (split; [exact Hc | ]);
    exists (map content_call_of (firstn k (item :: items)));
    (split; [exact Hk | apply Forall_content_calls]).
Qed.

(** X9. What [afile_delete] can do to the cache and the backends: an
    entry of the cache is left as it was or overwritten with [None],
    never removed or given another value, and every call made on the
    router is a delete call. *)
Theorem afile_delete_effects (prefix : list Z)
    (router : list call -> list Z -> list Z -> option (list Z))
    (x : list Z) (w : world) :
  (forall k, cache (snd (afile_delete prefix router x w)) !! k = cache w !! k \/
             cache (snd (afile_delete prefix router x w)) !! k = Some CNone) /\
  exists cs, calls (snd (afile_delete prefix router x w)) = calls w ++ cs /\
             Forall (fun c => is_delete_call c = true) cs.
Proof.
  assert (Hobj : forall fid (w1 : world),
            (forall k, cache (snd (delete_object_entry fid w1)) !! k
                         = cache w1 !! k \/
                       cache (snd (delete_object_entry fid w1)) !! k
                         = Some CNone) /\
            calls (snd (delete_object_entry fid w1)) = calls w1).
  { intros fid w1.
    rewrite delete_object_entry_run, delete_unified_file_id_run. cbv zeta.
    destruct (default CNone _); cbn [snd cache calls];
      (split; [ | reflexivity ]); intros k; try (left; reflexivity).
    destruct (decide (py "litellm_proxy/" ++ fid = k)) as [<- | Hne].
    - right. apply lookup_insert_eq.
    - left. apply lookup_insert_ne. exact Hne. }
  rewrite afile_delete_run. cbv zeta.
  set (U := convert_b64_uid_to_unified_uid prefix x).
  set (w1 := {| cache := cache w; reads := _; calls := calls w |}).
  assert (Hplain :
            (forall k, cache (snd (delete_object_entry U w1)) !! k
                         = cache w !! k \/
                       cache (snd (delete_object_entry U w1)) !! k
                         = Some CNone) /\
            exists cs, calls (snd (delete_object_entry U w1)) = calls w ++ cs /\
                       Forall (fun c => is_delete_call c = true) cs).
  { destruct (Hobj U w1) as [Hc Hk].
    split; [exact Hc | ]. exists []. rewrite Hk, app_nil_r.
    split; [reflexivity | constructor]. }
  destruct (dict_get _ _) as [ [ | f | [ | item items ] ] | ];
    try exact Hplain.
  - split; [intros k; left; reflexivity | ].
    exists []. rewrite app_nil_r. split; [reflexivity | constructor].
  - unfold bind.
    pose proof (afile_delete_loop_frame router (item :: items) U w1) as [Hc _].
    destruct (afile_delete_loop_calls router (item :: items) U w1) as [k Hk].
    destruct (afile_delete_loop router (item :: items) U w1)
      as [ [ fid | e ] w' ]; cbn [snd] in *.
    + destruct (Hobj fid w') as [Hc' Hk'].
      split.
      * intros k0. destruct (Hc' k0) as [H | H];
          [left; rewrite H, Hc; reflexivity | right; exact H].
      * exists (map delete_call_of (firstn k (item :: items))).
        rewrite Hk', Hk. split; [reflexivity | apply Forall_delete_calls].
    + split; [intros k0; left; rewrite Hc; reflexivity | ].
      exists (map delete_call_of (firstn k (item :: items))).
      split; [exact Hk | apply Forall_delete_calls].
Qed.

(** ** [return_unified_file_id] *)

Lemma find_snoc {A : Type} (P : A -> bool) (l : list A) (a : A) :
  List.find P (l ++ [a]) =
    match List.find P l with
    | Some b => Some b
    | None => if P a then Some a else None
    end.
Proof.
  induction l as [ | x l IH ]; cbn [app List.find].
  - reflexivity.
  - destruct (P x); [reflexivity | exact IH].
Qed.

Lemma collect_stored_values_get (fos : list OpenAIFileObject)
    (d : list (list Z * list Z)) (model : list Z) :
  dict_get (collect_stored_values fos d) model =
    match List.find (fun f => bool_decide (fo_model_id f = Some model))
                    (rev fos) with
    | Some f => Some (fo_id f)
    | None => dict_get d model
    end.
Proof.
  revert d. induction fos as [ | f fos IH ]; intros d; [reflexivity | ].
  cbn [collect_stored_values rev]. rewrite find_snoc.
  destruct (fo_model_id f) as [ m | ] eqn:Hm.
  - rewrite IH.
    destruct (List.find _ (rev fos)); [reflexivity | ].
    rewrite dict_get_set.
    destruct (decide (m = model)) as [-> | Hne].
    + rewrite bool_decide_eq_true_2 by reflexivity. reflexivity.
    + rewrite bool_decide_eq_false_2 by congruence. reflexivity.
  - rewrite IH.
    destruct (List.find _ (rev fos)); [reflexivity | ].
    rewrite bool_decide_eq_false_2 by discriminate. reflexivity.
Qed.

Lemma collect_stored_values_NoDup (fos : list OpenAIFileObject)
    (d : list (list Z * list Z)) :
  NoDup (map fst d) -> NoDup (map fst (collect_stored_values fos d)).
Proof.
  revert d. induction fos as [ | f fos IH ]; intros d Hnd; [exact Hnd | ].
  cbn [collect_stored_values].
  destruct (fo_model_id f); [apply IH, dict_set_NoDup | apply IH]; exact Hnd.
Qed.

Lemma scalar_token_encodes (token : list Z) :
  Forall (fun c => is_scalar c = true) token ->
  exists b64, base64_unified_file_id_of token = Ok b64 /\
              _is_base64_encoded_unified_file_id [] b64 = PyStr token.
Proof.
  intros Htok. apply token_roundtrip; [exact Htok | ].
  destruct token; reflexivity.
Qed.

Lemma unified_file_id_scalar (head mid tail ct : list Z) (uuid4 : Z) :
  Forall (fun c => is_scalar c = true) (head ++ mid ++ tail) ->
  Forall (fun c => is_scalar c = true) ct ->
  Forall (fun c => is_scalar c = true)
         (unified_file_id_of head mid tail ct uuid4).
Proof.
  intros Htpl Hct.
  apply Forall_app in Htpl as [Hhead Htpl].
  apply Forall_app in Htpl as [Hmid Htail].
  unfold unified_file_id_of, LITELLM_MANAGED_FILE_COMPLETE_STR_format.
  rewrite !Forall_app. repeat split; auto using str_uuid_scalar.
Qed.

(** X10. What a create leaves behind. For a content type and template the
    UTF-8 codec accepts and at least one backend file object,
    [return_unified_file_id] answers with an object whose id is the
    base64 form of the token, typed ["file"], with status ["uploaded"]
    and the creation time, size and file name of the first backend
    object; it writes one cache entry, under the token: a mapping with no
    repeated key that gives, for each model id, the file id of the last
    backend object carrying that model id, objects without a model id
    being skipped. *)
Theorem return_unified_file_id_result (head mid tail content_type purpose : list Z)
    (uuid4 : Z) (first : OpenAIFileObject) (rest : list OpenAIFileObject)
    (w : world) :
  Forall (fun c => is_scalar c = true) (head ++ mid ++ tail) ->
  Forall (fun c => is_scalar c = true) content_type ->
  let token := unified_file_id_of head mid tail content_type uuid4 in
  let stored := collect_stored_values (first :: rest) [] in
  exists b64,
    base64_unified_file_id_of token = Ok b64 /\
    return_unified_file_id head mid tail (first :: rest) content_type purpose
      uuid4 w
    = (Ok {| fo_id := b64; fo_object := py "file"; fo_purpose := purpose;
             fo_created_at := fo_created_at first;
             fo_bytes := fo_bytes first;
             fo_filename := fo_filename first;
             fo_status := py "uploaded"; fo_model_id := None |},
       {| cache := <[token := CDict stored]> (cache w);
          reads := reads w; calls := calls w |}) /\
    NoDup (map fst stored) /\
    forall model,
      dict_get stored model =
        fo_id <$> List.find (fun f => bool_decide (fo_model_id f = Some model))
                            (rev (first :: rest)).
Proof.
  intros Htpl Hct token stored.
  destruct (scalar_token_encodes token
              (unified_file_id_scalar _ _ _ _ _ Htpl Hct)) as (b64 & Henc & _).
  exists b64. split; [exact Henc | split; [ | split ] ].
  - unfold return_unified_file_id. fold token. rewrite Henc. reflexivity.
  - apply collect_stored_values_NoDup. constructor.
  - intros model. unfold stored. rewrite collect_stored_values_get.
    destruct (List.find _ _); reflexivity.
Qed.

(** X11. A create that fails writes nothing: whenever
    [return_unified_file_id] raises, the cache is as it was; and with no
    backend file object at all it raises [IndexError]. *)
Theorem return_unified_file_id_failure (head mid tail content_type purpose : list Z)
    (uuid4 : Z) (file_objects : list OpenAIFileObject) (w : world) :
  (forall e,
     fst (return_unified_file_id head mid tail file_objects content_type
            purpose uuid4 w) = Raise e ->
     snd (return_unified_file_id head mid tail file_objects content_type
            purpose uuid4 w) = w) /\
  (Forall (fun c => is_scalar c = true) (head ++ mid ++ tail) ->
   Forall (fun c => is_scalar c = true) content_type ->
   return_unified_file_id head mid tail [] content_type purpose uuid4 w
     = (Raise IndexError, w)).
Proof.
  split.
  - intros e. unfold return_unified_file_id.
    destruct (base64_unified_file_id_of _) as [ b64 | e0 ];
      [ | intros _; reflexivity ].
    destruct file_objects as [ | first rest ]; [intros _; reflexivity | ].
    discriminate.
  - intros Htpl Hct.
    destruct (scalar_token_encodes _
                (unified_file_id_scalar _ _ _ _ uuid4 Htpl Hct))
      as (b64 & Henc & _).
    unfold return_unified_file_id. rewrite Henc. reflexivity.
Qed.

Lemma return_unified_file_id_result_witness :
  let token :=
    unified_file_id_of complete_str_head complete_str_mid complete_str_tail
      (py "application/pdf") 7 in
  let stored := collect_stored_values [provider_file] [] in
  exists b64,
    base64_unified_file_id_of token = Ok b64 /\
    return_unified_file_id complete_str_head complete_str_mid
      complete_str_tail [provider_file] (py "application/pdf")
      (py "user_data") 7 empty_world
    = (Ok {| fo_id := b64; fo_object := py "file";
             fo_purpose := py "user_data";
             fo_created_at := fo_created_at provider_file;
             fo_bytes := fo_bytes provider_file;
             fo_filename := fo_filename provider_file;
             fo_status := py "uploaded"; fo_model_id := None |},
       {| cache := <[token := CDict stored]> (cache empty_world);
          reads := reads empty_world; calls := calls empty_world |}) /\
    NoDup (map fst stored) /\
    forall model,
      dict_get stored model =
        fo_id <$> List.find (fun f => bool_decide (fo_model_id f = Some model))
                            (rev [provider_file]).
Proof.
  apply (return_unified_file_id_result complete_str_head complete_str_mid
           complete_str_tail (py "application/pdf") (py "user_data") 7
           provider_file [] empty_world).
  - apply forallb_scalar. vm_compute. reflexivity.
  - apply forallb_scalar. vm_compute. reflexivity.
Defined.

Lemma return_unified_file_id_failure_witness :
  return_unified_file_id complete_str_head complete_str_mid complete_str_tail
    [] (py "application/pdf") (py "user_data") 7 empty_world
  = (Raise IndexError, empty_world).
Proof.
  apply (return_unified_file_id_failure complete_str_head complete_str_mid
           complete_str_tail (py "application/pdf") (py "user_data") 7 []
           empty_world).
  - apply forallb_scalar. vm_compute. reflexivity.
  - apply forallb_scalar. vm_compute. reflexivity.
Defined.

Lemma str_uuid_length (n : Z) : length (str_uuid n) = 36%nat.
Proof. reflexivity. Qed.

(** X12. Create, then resolve. The id a create hands out resolves to what
    the create stored: [get_model_file_id_mapping] on that id reads the
    token's entry and returns the stored mapping under the token (nothing
    when no backend object carried a model id); and a content fetch with
    that id whose first stored backend answers returns that answer after
    one call. *)
Theorem create_then_resolve (prefix head mid tail content_type purpose : list Z)
    (uuid4 : Z) (first : OpenAIFileObject) (rest : list OpenAIFileObject)
    (w : world) :
  prefix_not_base64_text prefix = true ->
  startswith head prefix = true ->
  Forall (fun c => is_scalar c = true) (head ++ mid ++ tail) ->
  Forall (fun c => is_scalar c = true) content_type ->
  let token := unified_file_id_of head mid tail content_type uuid4 in
  let stored := collect_stored_values (first :: rest) [] in
  let run := return_unified_file_id head mid tail (first :: rest) content_type
               purpose uuid4 w in
  exists response,
    fst run = Ok response /\
    get_model_file_id_mapping prefix [fo_id response] (snd run) =
      (Ok (match stored with
           | [] => []
           | _ :: _ => [(token, CDict stored)]
           end),
       {| cache := cache (snd run); reads := reads w ++ [token];
          calls := calls w |}) /\
    forall router model fid others content,
      stored = (model, fid) :: others ->
      router (calls w) model fid = inl content ->
      fst (afile_content prefix router (fo_id response) (snd run)) = Ok content /\
      calls (snd (afile_content prefix router (fo_id response) (snd run)))
        = calls w ++ [ContentCall model fid].
Proof.
  intros Hp Hpre Htpl Hct token stored run.
  pose proof (unified_file_id_scalar head mid tail content_type uuid4 Htpl Hct)
    as Htok. fold token in Htok.
  assert (Hsw : startswith token prefix = true).
  { unfold token, unified_file_id_of, LITELLM_MANAGED_FILE_COMPLETE_STR_format.
    apply startswith_app. exact Hpre. }
  destruct (token_roundtrip prefix token Htok Hsw) as (b64 & Henc & Hdec).
  assert (Hrun : run =
            (Ok {| fo_id := b64; fo_object := py "file"; fo_purpose := purpose;
                   fo_created_at := fo_created_at first;
                   fo_bytes := fo_bytes first;
                   fo_filename := fo_filename first;
                   fo_status := py "uploaded"; fo_model_id := None |},
             {| cache := <[token := CDict stored]> (cache w);
                reads := reads w; calls := calls w |})).
  { unfold run, return_unified_file_id. fold token. rewrite Henc. reflexivity. }
  rewrite Hrun. cbn [fst snd fo_id cache reads calls].
  eexists. split; [reflexivity | ]. cbn [fo_id].
  assert (Hne : token <> []).
  { intros Hnil. pose proof (f_equal (@length Z) Hnil) as Hlen.
    unfold token, unified_file_id_of, LITELLM_MANAGED_FILE_COMPLETE_STR_format
      in Hlen.
    rewrite !length_app, str_uuid_length in Hlen. cbn [length] in Hlen. lia. }
  assert (Hconv : convert_b64_uid_to_unified_uid prefix b64 = token).
  { unfold convert_b64_uid_to_unified_uid. rewrite Hdec.
    destruct token; [contradiction | reflexivity]. }
  split.
  - rewrite get_mapping_run. cbn [collect_managed_file_ids]. cbv zeta.
    rewrite Hdec. destruct token as [ | c t ] eqn:Htoken; [contradiction | ].
    rewrite <- Htoken. cbn [fold_left cache reads calls].
    unfold resolve_step. cbn [cache]. rewrite lookup_insert_eq.
    cbn [default from_option id]. destruct stored; reflexivity.
  - intros router model fid others content Hst Hok.
    rewrite afile_content_unfold by exact Hp. cbv zeta.
    rewrite Hconv. cbn [cache reads calls]. rewrite Hsw, lookup_insert_eq.
    cbn [default from_option id]. rewrite Hst.
    cbn [andb cache_truthy afile_content_loop].
    unfold bind, try_except, llm_router_afile_content. cbv zeta.
    cbn [calls]. rewrite Hok. split; reflexivity.
Qed.

Lemma create_then_resolve_witness :
  let prefix := litellm_proxy in
  let w := empty_world in
  let token :=
    unified_file_id_of complete_str_head complete_str_mid complete_str_tail
      (py "application/pdf") 7 in
  let stored := collect_stored_values [provider_file] [] in
  let run := return_unified_file_id complete_str_head complete_str_mid
               complete_str_tail [provider_file] (py "application/pdf")
               (py "user_data") 7 w in
  exists response,
    fst run = Ok response /\
    get_model_file_id_mapping prefix [fo_id response] (snd run) =
      (Ok (match stored with
           | [] => []
           | _ :: _ => [(token, CDict stored)]
           end),
       {| cache := cache (snd run); reads := reads w ++ [token];
          calls := calls w |}) /\
    forall router model fid others content,
      stored = (model, fid) :: others ->
      router (calls w) model fid = inl content ->
      fst (afile_content prefix router (fo_id response) (snd run)) = Ok content /\
      calls (snd (afile_content prefix router (fo_id response) (snd run)))
        = calls w ++ [ContentCall model fid].
Proof.
  apply (create_then_resolve litellm_proxy complete_str_head complete_str_mid
           complete_str_tail (py "application/pdf") (py "user_data") 7
           provider_file [] empty_world).
  - vm_compute. reflexivity.
  - reflexivity.
  - apply forallb_scalar. vm_compute. reflexivity.
  - apply forallb_scalar. vm_compute. reflexivity.
Defined.

(** ** The shape of an identifier *)

Lemma sextet_urlsafe (v : Z) :
  0 <= v < 64 ->
  is_urlsafe_char (urlsafe_encode_translation (table_b2a_base64 v)) = true.
Proof.
  intros Hv.
  exact (Z_range_forallb 64
           (fun v => is_urlsafe_char
                       (urlsafe_encode_translation (table_b2a_base64 v)))
           ltac:(vm_compute; reflexivity) v Hv).
Qed.

Lemma encoded_stripped_urlsafe (bs : list Z) :
  Forall (fun b => 0 <= b < 256) bs ->
  forall lc,
    Forall (fun c => is_urlsafe_char c = true)
      (rstrip BASE64_PAD
         (map urlsafe_encode_translation (b2a_base64_loop lc 0 bs))).
Proof.
  induction bs as [ | a | a b | a b c bs IH ] using list_ind3; intros Hb lc.
  - constructor.
  - inversion_clear Hb as [ | ? ? Ha _ ].
    rewrite b2a_group_1 by lia. cbn [map].
    assert (H1 : 0 <= a / 4 < 64) by divmod.
    assert (H2 : 0 <= a mod 4 * 16 < 64) by divmod.
    rewrite !rstrip_cons_ne by (apply wire_free_ne; assumption).
    change (rstrip BASE64_PAD [urlsafe_encode_translation BASE64_PAD;
                               urlsafe_encode_translation BASE64_PAD])
      with (@nil Z).
    forall_list; apply sextet_urlsafe; assumption.
  - inversion_clear Hb as [ | ? ? Ha Hb' ].
    inversion_clear Hb' as [ | ? ? Hb _ ].
    rewrite b2a_group_2 by lia. cbn [map].
    assert (H1 : 0 <= a / 4 < 64) by divmod.
    assert (H2 : 0 <= a mod 4 * 16 + b / 16 < 64) by divmod.
    assert (H3 : 0 <= b mod 16 * 4 < 64) by divmod.
    rewrite !rstrip_cons_ne by (apply wire_free_ne; assumption).
    change (rstrip BASE64_PAD [urlsafe_encode_translation BASE64_PAD])
      with (@nil Z).
    forall_list; apply sextet_urlsafe; assumption.
  - inversion_clear Hb as [ | ? ? Ha Hb' ].
    inversion_clear Hb' as [ | ? ? Hb Hc' ].
    inversion_clear Hc' as [ | ? ? Hc Hrest ].
    destruct (b2a_group_3 lc a b c) as [lc' Hgrp]; try lia.
    rewrite Hgrp. cbn [map].
    assert (H1 : 0 <= a / 4 < 64) by divmod.
    assert (H2 : 0 <= a mod 4 * 16 + b / 16 < 64) by divmod.
    assert (H3 : 0 <= b mod 16 * 4 + c / 64 < 64) by divmod.
    assert (H4 : 0 <= c mod 64 < 64) by divmod.
    rewrite !rstrip_cons_ne by (apply wire_free_ne; assumption).
    do 4 (constructor; [apply sextet_urlsafe; assumption | ]).
    apply IH. exact Hrest.
Qed.

(** X13. The identifier a create hands out is transport-safe: for every
    token the UTF-8 codec accepts it exists, and each of its characters is
    a letter, a digit, [-] or [_]; in particular it carries no [=]
    padding. *)
Theorem file_id_is_url_safe (token : list Z) :
  Forall (fun c => is_scalar c = true) token ->
  exists b64,
    base64_unified_file_id_of token = Ok b64 /\
    Forall (fun c => is_urlsafe_char c = true) b64 /\
    ~ In BASE64_PAD b64.
Proof.
  intros Htok.
  destruct (str_encode_decode token Htok) as (bs & Henc & Hbytes & _).
  destruct (encoded_repad bs Hbytes 0) as [_ Hascii]. cbv zeta in Hascii.
  pose proof (encoded_stripped_urlsafe bs Hbytes 0) as Hsafe.
  exists (rstrip BASE64_PAD (urlsafe_b64encode bs)).
  split; [ | split ].
  - unfold base64_unified_file_id_of. rewrite Henc. cbn [res_bind].
    unfold urlsafe_b64encode, b2a_base64.
    rewrite bytes_decode_ascii by exact Hascii. reflexivity.
  - exact Hsafe.
  - intros Hin. rewrite List.Forall_forall in Hsafe.
    specialize (Hsafe _ Hin). vm_compute in Hsafe. discriminate.
Qed.

Lemma file_id_is_url_safe_witness :
  exists b64,
    base64_unified_file_id_of token_abc = Ok b64 /\
    Forall (fun c => is_urlsafe_char c = true) b64 /\
    ~ In BASE64_PAD b64.
Proof.
  apply (file_id_is_url_safe token_abc).
  apply forallb_scalar. vm_compute. reflexivity.
Defined.

Lemma add_padding_idempotent (x : list Z) :
  add_padding (add_padding x) = add_padding x.
Proof.
  unfold add_padding at 1.
  replace ((- Z.of_nat (length (add_padding x))) mod 4) with 0.
  - cbn [Z.to_nat repeat]. apply app_nil_r.
  - unfold add_padding. rewrite length_app, repeat_length.
    rewrite Nat2Z.inj_add, Z2Nat.id by (apply Z.mod_pos_bound; lia).
    divmod.
Qed.

(** X14. Padding is optional: an identifier and the same identifier
    padded with [=] to a multiple of four characters decode alike, and
    when they decode to a token both normalize to that token. *)
Theorem padded_id_decodes_alike (prefix x : list Z) :
  _is_base64_encoded_unified_file_id prefix (add_padding x)
    = _is_base64_encoded_unified_file_id prefix x /\
  (truthy (_is_base64_encoded_unified_file_id prefix x) = true ->
   convert_b64_uid_to_unified_uid prefix (add_padding x)
     = convert_b64_uid_to_unified_uid prefix x).
Proof.
  assert (H : _is_base64_encoded_unified_file_id prefix (add_padding x)
              = _is_base64_encoded_unified_file_id prefix x).
  { unfold _is_base64_encoded_unified_file_id. cbv zeta.
    rewrite add_padding_idempotent. reflexivity. }
  split; [exact H | ].
  intros Ht. unfold convert_b64_uid_to_unified_uid. rewrite H.
  destruct (_is_base64_encoded_unified_file_id prefix x) as [ s | ];
    [ | discriminate ].
  cbn [truthy] in Ht. rewrite Ht. reflexivity.
Qed.

Lemma padded_id_decodes_alike_witness :
  _is_base64_encoded_unified_file_id litellm_proxy (add_padding b64_abc)
    = _is_base64_encoded_unified_file_id litellm_proxy b64_abc /\
  convert_b64_uid_to_unified_uid litellm_proxy (add_padding b64_abc)
    = convert_b64_uid_to_unified_uid litellm_proxy b64_abc.
Proof.
  destruct (padded_id_decodes_alike litellm_proxy b64_abc) as [H1 H2].
  split; [exact H1 | ]. apply H2. vm_compute. reflexivity.
Defined.

(** ** Distinct files, distinct identifiers *)

Lemma hexdigit_inj (a b : Z) :
  0 <= a < 16 -> 0 <= b < 16 -> hexdigit a = hexdigit b -> a = b.
Proof.
  unfold hexdigit. intros Ha Hb.
  destruct (Z.ltb_spec a 10); destruct (Z.ltb_spec b 10); lia.
Qed.

Lemma digits_determine (n m : Z) (k : nat) :
  (forall i, (i < k)%nat ->
     (n / 16 ^ Z.of_nat i) mod 16 = (m / 16 ^ Z.of_nat i) mod 16) ->
  n mod 16 ^ Z.of_nat k = m mod 16 ^ Z.of_nat k.
Proof.
  induction k as [ | k IH ]; intros Hd.
  - cbn. rewrite !Z.mod_1_r. reflexivity.
  - rewrite Nat2Z.inj_succ, Z.pow_succ_r by lia.
    rewrite (Z.mul_comm 16).
    rewrite !Z.rem_mul_r by lia.
    rewrite IH by (intros i Hi; apply Hd; lia).
    rewrite (Hd k) by lia. reflexivity.
Qed.

Lemma hex32_inj (n m : Z) :
  hex32 n = hex32 m -> n mod 2 ^ 128 = m mod 2 ^ 128.
Proof.
  intros H. change (2 ^ 128) with (16 ^ Z.of_nat 32).
  apply digits_determine. intros i Hi.
  unfold hex32 in H.
  assert (Hin : In i (rev (seq 0 32))).
  { apply (proj1 (in_rev (seq 0 32) i)). apply in_seq. lia. }
  pose proof (proj1 map_ext_in_iff H i Hin) as Hdig.
  cbv beta in Hdig.
  apply hexdigit_inj; try (apply Z.mod_pos_bound; lia). exact Hdig.
Qed.

Lemma hex32_length (n : Z) : length (hex32 n) = 32%nat.
Proof. reflexivity. Qed.

Lemma str_uuid_inj (n m : Z) :
  str_uuid n = str_uuid m -> n mod 2 ^ 128 = m mod 2 ^ 128.
Proof.
  intros H. apply hex32_inj. unfold str_uuid in H. cbv zeta in H.
  pose proof (hex32_length n) as Hn. pose proof (hex32_length m) as Hm.
  destruct (hex32 n) as [ | a0 hn ]; [discriminate | ].
  destruct (hex32 m) as [ | b0 hm ]; [discriminate | ].
  do 31 (destruct hn as [ | ? hn ]; [discriminate | ]).
  do 31 (destruct hm as [ | ? hm ]; [discriminate | ]).
  destruct hn; [ | discriminate ]. destruct hm; [ | discriminate ].
  cbn in H. congruence.
Qed.

(** X15. Distinct files get distinct identifiers: the encoding of tokens
    is injective, and two creates with the same content type whose UUIDs
    differ hand out different ids. *)
Theorem file_ids_do_not_collide (head mid tail content_type : list Z)
    (t1 t2 : list Z) (u1 u2 : Z) :
  (Forall (fun c => is_scalar c = true) t1 ->
   Forall (fun c => is_scalar c = true) t2 ->
   base64_unified_file_id_of t1 = base64_unified_file_id_of t2 -> t1 = t2) /\
  (Forall (fun c => is_scalar c = true) (head ++ mid ++ tail) ->
   Forall (fun c => is_scalar c = true) content_type ->
   0 <= u1 < 2 ^ 128 -> 0 <= u2 < 2 ^ 128 ->
   base64_unified_file_id_of
     (unified_file_id_of head mid tail content_type u1)
   = base64_unified_file_id_of
       (unified_file_id_of head mid tail content_type u2) ->
   u1 = u2).
Proof.
  assert (Hinj : forall a b,
            Forall (fun c => is_scalar c = true) a ->
            Forall (fun c => is_scalar c = true) b ->
            base64_unified_file_id_of a = base64_unified_file_id_of b -> a = b).
  { intros a b Ha Hb Heq.
    destruct (scalar_token_encodes a Ha) as (ia & Hia & Hda).
    destruct (scalar_token_encodes b Hb) as (ib & Hib & Hdb).
    assert (ia = ib) by congruence. subst ib. congruence. }
  split; [apply Hinj | ].
  intros Htpl Hct Hu1 Hu2 Heq.
  apply Hinj in Heq; try (apply unified_file_id_scalar; assumption).
  unfold unified_file_id_of, LITELLM_MANAGED_FILE_COMPLETE_STR_format in Heq.
  do 3 apply app_inv_head in Heq. apply app_inv_tail in Heq.
  apply str_uuid_inj in Heq.
  rewrite !Z.mod_small in Heq by lia. exact Heq.
Qed.

Lemma file_ids_do_not_collide_witness :
  base64_unified_file_id_of
    (unified_file_id_of complete_str_head complete_str_mid complete_str_tail
       (py "text/plain") 7)
  = base64_unified_file_id_of
      (unified_file_id_of complete_str_head complete_str_mid complete_str_tail
         (py "text/plain") 7) /\
  7 = 7.
Proof.
  split; [reflexivity | ].
  apply (proj2 (file_ids_do_not_collide complete_str_head complete_str_mid
                  complete_str_tail (py "text/plain") [] [] 7 7)).
  - apply forallb_scalar. vm_compute. reflexivity.
  - apply forallb_scalar. vm_compute. reflexivity.
  - lia.
  - lia.
  - reflexivity.
Defined.

(** ** Running the pre-call hook twice *)

Lemma convert_static_truthy (prefix x : list Z) :
  str_truthy (_convert_b64_uid_to_unified_uid prefix x) = str_truthy x.
Proof.
  destruct x as [ | c x ]; [rewrite convert_nil; reflexivity | ].
  unfold _convert_b64_uid_to_unified_uid. cbv zeta.
  destruct (_is_base64_encoded_unified_file_id prefix (c :: x)) as [ s | ];
    [ | reflexivity ].
  destruct (str_truthy s) eqn:Hs; [exact Hs | reflexivity].
Qed.

Lemma convert_static_of_normalized (prefix x : list Z) :
  prefix_not_base64_text prefix = true ->
  _convert_b64_uid_to_unified_uid prefix
    (_convert_b64_uid_to_unified_uid prefix x)
  = _convert_b64_uid_to_unified_uid prefix x.
Proof. exact (convert_of_normalized prefix x). Qed.

Lemma normalized_part_idempotent (prefix : list Z) (c : content_part) :
  prefix_not_base64_text prefix = true ->
  normalized_part prefix (normalized_part prefix c) = normalized_part prefix c.
Proof.
  intros Hp. destruct c as [ t | u | a | [ [ fid | ] fdata fname ] ];
    try reflexivity.
  cbn [normalized_part file_id option_map file_data file_filename].
  rewrite convert_static_of_normalized by exact Hp. reflexivity.
Qed.

Lemma part_file_refs_normalized (prefix : list Z) (c : content_part) :
  part_file_refs (normalized_part prefix c) =
    map (_convert_b64_uid_to_unified_uid prefix) (part_file_refs c).
Proof.
  destruct c as [ t | u | a | [ [ fid | ] fdata fname ] ]; try reflexivity.
  cbn [normalized_part part_file_refs file_id option_map].
  rewrite convert_static_truthy.
  destruct (str_truthy fid); reflexivity.
Qed.

Lemma rewritten_message_idempotent (prefix : list Z) (m : message) :
  prefix_not_base64_text prefix = true ->
  rewritten_message prefix (rewritten_message prefix m)
    = rewritten_message prefix m.
Proof.
  intros Hp. destruct m as [r c]. unfold rewritten_message. cbn [role content].
  destruct (decide (r = py "user")) as [Hr | Hr].
  - destruct c as [ | s | parts ]; cbn [role content];
      rewrite decide_True by exact Hr; try reflexivity.
    f_equal. f_equal. rewrite map_map.
    apply map_ext. intros c. apply normalized_part_idempotent. exact Hp.
  - cbn [role content]. rewrite decide_False by exact Hr. reflexivity.
Qed.

Lemma message_file_refs_rewritten (prefix : list Z) (m : message) :
  message_file_refs (rewritten_message prefix m) =
    map (_convert_b64_uid_to_unified_uid prefix) (message_file_refs m).
Proof.
  destruct m as [r c]. unfold rewritten_message, message_file_refs.
  cbn [role content].
  destruct (decide (r = py "user")) as [Hr | Hr].
  - destruct c as [ | s | parts ]; cbn [role content];
      rewrite decide_True by exact Hr; try reflexivity.
    induction parts as [ | c parts IH ]; [reflexivity | ].
    cbn [map flat_map]. rewrite map_app, part_file_refs_normalized.
    f_equal. exact IH.
  - cbn [role content]. rewrite decide_False by exact Hr. reflexivity.
Qed.

Lemma file_references_rewritten (prefix : list Z) (msgs : list message) :
  file_references (map (rewritten_message prefix) msgs) =
    map (_convert_b64_uid_to_unified_uid prefix) (file_references msgs).
Proof.
  unfold file_references. induction msgs as [ | m msgs IH ]; [reflexivity | ].
  cbn [map flat_map]. rewrite map_app, message_file_refs_rewritten.
  f_equal. exact IH.
Qed.

(** The hook on a completion request with a non-empty message list. *)
Lemma pre_call_hook_run (prefix : list Z) (data : request) (w : world)
    (m : message) (msgs : list message) :
  messages data = Some (m :: msgs) ->
  let ids := map (_convert_b64_uid_to_unified_uid prefix)
                 (file_references (m :: msgs)) in
  async_pre_call_hook prefix data completion w =
    match ids with
    | [] =>
      (Ok {| messages := Some (map (rewritten_message prefix) (m :: msgs));
             model_file_id_mapping := model_file_id_mapping data;
             other_fields := other_fields data |}, w)
    | _ :: _ =>
      (Ok {| messages := Some (map (rewritten_message prefix) (m :: msgs));
             model_file_id_mapping :=
               Some (fold_left (resolve_step w)
                       (collect_managed_file_ids prefix ids) []);
             other_fields := other_fields data |},
       {| cache := cache w;
          reads := reads w ++ collect_managed_file_ids prefix ids;
          calls := calls w |})
    end.
Proof.
  intros Hmsgs ids. unfold async_pre_call_hook. rewrite Hmsgs.
  unfold get_file_ids_and_decode_b64_to_unified_uid_from_messages.
  rewrite visit_messages_spec. cbn [app]. fold ids.
  destruct ids as [ | id0 ids' ]; [reflexivity | ].
  unfold bind. rewrite get_mapping_run. reflexivity.
Qed.

(** X16. Running the pre-call hook on its own output changes nothing
    more: the rewritten request is returned as it is, with the same
    mapping attached. *)
Theorem pre_call_hook_idempotent (prefix : list Z) (data : request)
    (ct : call_type) (w : world) :
  prefix_not_base64_text prefix = true ->
  exists data1,
    fst (async_pre_call_hook prefix data ct w) = Ok data1 /\
    fst (async_pre_call_hook prefix data1 ct
           (snd (async_pre_call_hook prefix data ct w))) = Ok data1.
Proof.
  intros Hp.
  assert (Hother : ct <> completion ->
            exists data1,
              fst (async_pre_call_hook prefix data ct w) = Ok data1 /\
              fst (async_pre_call_hook prefix data1 ct
                     (snd (async_pre_call_hook prefix data ct w))) = Ok data1).
  { intros Hct. exists data.
    rewrite !pre_call_hook_other_call_types by exact Hct.
    split; reflexivity. }
  destruct ct; try (apply Hother; discriminate). clear Hother.
  destruct (messages data) as [ [ | m msgs ] | ] eqn:Hmsgs.
  - exists data. unfold async_pre_call_hook. rewrite Hmsgs.
    split; reflexivity.
  - rewrite (pre_call_hook_run prefix data w m msgs Hmsgs). cbv zeta.
    set (ids := map (_convert_b64_uid_to_unified_uid prefix)
                    (file_references (m :: msgs))).
    assert (Hids : map (_convert_b64_uid_to_unified_uid prefix)
                     (file_references
                        (map (rewritten_message prefix) (m :: msgs))) = ids).
    { rewrite file_references_rewritten, map_map. unfold ids.
      apply map_ext. intros x.
      apply convert_static_of_normalized. exact Hp. }
    assert (Hrw : map (rewritten_message prefix)
                    (map (rewritten_message prefix) (m :: msgs))
                  = map (rewritten_message prefix) (m :: msgs)).
    { rewrite map_map. apply map_ext. intros x.
      apply rewritten_message_idempotent. exact Hp. }
    destruct ids as [ | id0 ids' ] eqn:Heq.
    + eexists. split; [reflexivity | ]. cbn [fst snd].
      cbn [map] in Hids, Hrw |- *.
      erewrite pre_call_hook_run by reflexivity. cbv zeta.
      cbn [map]. rewrite Hids, Hrw. reflexivity.
    + eexists. split; [reflexivity | ]. cbn [fst snd].
      cbn [map] in Hids, Hrw |- *.
      erewrite pre_call_hook_run by reflexivity. cbv zeta.
      cbn [map]. rewrite Hids, Hrw. reflexivity.
  - exists data. unfold async_pre_call_hook. rewrite Hmsgs.
    split; reflexivity.
Qed.

Lemma pre_call_hook_idempotent_witness :
  exists data1,
    fst (async_pre_call_hook litellm_proxy (request_with_file b64_abc)
           completion world_two_backends) = Ok data1 /\
    fst (async_pre_call_hook litellm_proxy data1 completion
           (snd (async_pre_call_hook litellm_proxy (request_with_file b64_abc)
                   completion world_two_backends))) = Ok data1.
Proof.
  apply (pre_call_hook_idempotent litellm_proxy (request_with_file b64_abc)
           completion world_two_backends).
  vm_compute. reflexivity.
Defined.

Lemma afile_retrieve_after_store_witness :
  fst (afile_retrieve (fo_id stored_abc)
         (snd (async_post_call_success_hook stored_abc empty_world)))
    = Ok (CFile stored_abc).
Proof.
  exact (proj1 (afile_retrieve_after_store stored_abc [] empty_world)).
Defined.

(** X17. The pre-call hook only reads: for every request and call type it
    leaves the cache as it was and calls no backend; and for a call type
    other than completion, or a request without messages, it returns the
    request and the state untouched. *)
Theorem pre_call_hook_read_only (prefix : list Z) (data : request)
    (ct : call_type) (w : world) :
  cache (snd (async_pre_call_hook prefix data ct w)) = cache w /\
  calls (snd (async_pre_call_hook prefix data ct w)) = calls w /\
  (ct <> completion \/ messages data = None \/ messages data = Some [] ->
   async_pre_call_hook prefix data ct w = (Ok data, w)).
Proof.
  destruct ct;
    try (split; [reflexivity | split; [reflexivity | intros _; reflexivity] ]).
  destruct (messages data) as [ [ | m msgs ] | ] eqn:Hmsgs.
  - unfold async_pre_call_hook. rewrite Hmsgs.
    split; [reflexivity | split; [reflexivity | intros _; reflexivity] ].
  - rewrite (pre_call_hook_run prefix data w m msgs Hmsgs). cbv zeta.
    destruct (map _ _); (split; [reflexivity | split; [reflexivity | ] ]);
      intros [Hct | [Hn | Hn] ]; first [contradiction | discriminate].
  - unfold async_pre_call_hook. rewrite Hmsgs.
    split; [reflexivity | split; [reflexivity | intros _; reflexivity] ].
Qed.

Lemma pre_call_hook_read_only_witness :
  async_pre_call_hook litellm_proxy (request_with_file b64_abc) embeddings
    world_two_backends
  = (Ok (request_with_file b64_abc), world_two_backends).
Proof.
  apply (pre_call_hook_read_only litellm_proxy (request_with_file b64_abc)
           embeddings world_two_backends).
  left. discriminate.
Defined.

(** X18. Delete, then look again. After [afile_delete] has deleted the
    object of an identifier without backend mapping, [afile_retrieve] of
    the normalized identifier fails with NotFound, and so does a second
    [afile_delete] of the same identifier. *)
Theorem afile_delete_then_gone (prefix : list Z)
    (router : list call -> list Z -> list Z -> option (list Z))
    (x : list Z) (w : world) (f : OpenAIFileObject) :
  prefix_not_base64_text prefix = true ->
  let U := convert_b64_uid_to_unified_uid prefix x in
  startswith U prefix = false ->
  cache w !! (py "litellm_proxy/" ++ U) = Some (CFile f) ->
  let r := afile_delete prefix router x w in
  fst r = Ok f /\
  fst (afile_retrieve U (snd r)) = Raise (NotFound U) /\
  fst (afile_delete prefix router x (snd r)) = Raise (NotFound U).
Proof.
  intros Hp U Hsw Hobj r.
  destruct (afile_delete_plain prefix router x w Hp (or_introl Hsw))
    as (_ & Hok & _).
  destruct (Hok f Hobj) as [Hr Hcache]. fold r in Hr, Hcache.
  split; [exact Hr | split ].
  - unfold afile_retrieve, bind. rewrite get_unified_file_id_run.
    rewrite Hcache, lookup_insert_eq. reflexivity.
  - destruct (afile_delete_plain prefix router x (snd r) Hp
                (or_introl Hsw)) as (_ & _ & Hfail).
    apply Hfail. intros g. fold U. rewrite Hcache, lookup_insert_eq.
    discriminate.
Qed.

Lemma afile_delete_then_gone_witness :
  let r := afile_delete litellm_proxy router_delete_ok (py "file-xyz")
             world_plain_file in
  let U := convert_b64_uid_to_unified_uid litellm_proxy (py "file-xyz") in
  fst r = Ok stored_abc /\
  fst (afile_retrieve U (snd r)) = Raise (NotFound U) /\
  fst (afile_delete litellm_proxy router_delete_ok (py "file-xyz") (snd r))
    = Raise (NotFound U).
Proof.
  apply (afile_delete_then_gone litellm_proxy router_delete_ok (py "file-xyz")
           world_plain_file stored_abc).
  - vm_compute. reflexivity.
  - vm_compute. reflexivity.
  - vm_compute. reflexivity.
Defined.
